(** * ai-pr-reviewer: the review-and-gating engine, embedded in Rocq

    The development follows the JavaScript sources:
    - [scripts/dispatcher.js], [scripts/comment-dispatcher.js];
    - [scripts/laravel-reviewer.js], [scripts/react-reviewer.js],
      [scripts/swift-reviewer.js];
    - the three comment handlers (React, Laravel, Swift).

    Pure functions of the scripts are functions here.  The regular
    expressions are terms of a small pattern language with a backtracking
    matcher; an operation that can throw returns a [result]; the
    source-control host, the completion endpoint and the environment are
    fields of a [World]; what a run does to them is a trace of events.

    Text is a list of code units, a unit being an [ascii].  The patterns of
    the sources name ASCII characters only, and the model is exact on ASCII
    text: the white-space class of [\s] and [trim] and the case folding of
    [toLowerCase] and of the [i] flag are their ASCII parts.  Constants of
    the scripts that hold other characters are kept as their UTF-8 bytes;
    they are only copied to the output. *)

From Stdlib Require Import Ascii String DecimalString.
From Stdlib Require Import Lia Bool Arith List Sorted Permutation.
Import ListNotations.

Set Implicit Arguments.
Local Open Scope list_scope.

(** ** Text *)

Definition str := list ascii.

Definition txt (s : string) : str := list_ascii_of_string s.

Definition nl : ascii := Eval compute in ascii_of_nat 10.
Definition dq : ascii := Eval compute in ascii_of_nat 34.

Definition str_eqb (a b : str) : bool :=
  if list_eq_dec ascii_dec a b then true else false.

(** Decimal rendering of a number inside a template literal. *)
Definition num (n : nat) : str := txt (NilZero.string_of_uint (Nat.to_uint n)).

(** [String.prototype.startsWith]. *)
Fixpoint startsWith (s p : str) : bool :=
  match p, s with
  | [], _ => true
  | _ :: _, [] => false
  | c :: p', d :: s' => if ascii_dec c d then startsWith s' p' else false
  end.

(** [String.prototype.includes]. *)
Fixpoint includes (s sub : str) : bool :=
  startsWith s sub ||
  match s with
  | [] => false
  | _ :: s' => includes s' sub
  end.

(** [String.prototype.split] on a one-unit separator: never empty, one
    empty piece for the empty text. *)
Fixpoint split_on (sep : ascii) (s : str) : list str :=
  match s with
  | [] => [[]]
  | c :: s' =>
      if ascii_dec c sep then [] :: split_on sep s'
      else match split_on sep s' with
           | [] => [[c]]
           | l :: ls => (c :: l) :: ls
           end
  end.

(** [content.split('\n')]. *)
Definition split_nl (s : str) : list str := split_on nl s.

(** [Array.prototype.join]. *)
Fixpoint join (sep : str) (ls : list str) : str :=
  match ls with
  | [] => []
  | [l] => l
  | l :: ls' => l ++ sep ++ join sep ls'
  end.

(** [Array.prototype.slice(a, b)] and [String.prototype.slice(a, b)] for
    non-negative bounds. *)
Definition slice {A} (a b : nat) (l : list A) : list A :=
  firstn (b - a) (skipn a l).

Definition slice_from {A} (a : nat) (l : list A) : list A := skipn a l.

(** White space of [\s] and [trim], the ASCII part: the class of
    JavaScript also holds U+00A0, U+FEFF, U+2028, U+2029 and the space
    separators, which are no ASCII characters. *)
Definition is_space (c : ascii) : bool :=
  let n := nat_of_ascii c in
  (n =? 32) || ((9 <=? n) && (n <=? 13)).

(** [\w]. *)
Definition is_word (c : ascii) : bool :=
  let n := nat_of_ascii c in
  ((48 <=? n) && (n <=? 57)) || ((65 <=? n) && (n <=? 90)) ||
  ((97 <=? n) && (n <=? 122)) || (n =? 95).

Definition is_upper (c : ascii) : bool :=
  let n := nat_of_ascii c in (65 <=? n) && (n <=? 90).

Definition to_lower (c : ascii) : ascii :=
  if is_upper c then ascii_of_nat (nat_of_ascii c + 32) else c.

Definition toLowerCase (s : str) : str := map to_lower s.

Fixpoint trimStart (s : str) : str :=
  match s with
  | c :: s' => if is_space c then trimStart s' else s
  | [] => []
  end.

Definition trim (s : str) : str := rev (trimStart (rev (trimStart s))).

(** JavaScript truthiness of a string value. *)
Definition truthy (s : str) : bool :=
  match s with [] => false | _ => true end.

(** ** Regular expressions

    A backtracking matcher in the order of the ECMAScript semantics:
    alternatives left to right, greedy iteration, an iteration that
    consumes nothing is rejected.  A match state records the unit before
    the current position (for [^] and [\b]), the rest of the input, and the
    text of capture group 1. *)

Inductive regex : Type :=
| Eps
| Chr (p : ascii -> bool)
| Cat (r1 r2 : regex)
| Alt (r1 r2 : regex)
| Star (r : regex)
| Bol
| Eol
| Wordb
| Grp (r : regex).

Record mstate : Type := MState {
  prev : option ascii;
  rest : str;
  cap : option str
}.

Definition word_before (st : mstate) : bool :=
  match prev st with Some c => is_word c | None => false end.

Definition word_after (st : mstate) : bool :=
  match rest st with c :: _ => is_word c | [] => false end.

Definition consumed (st st' : mstate) : str :=
  firstn (length (rest st) - length (rest st')) (rest st).

Fixpoint star_loop (step : mstate -> list mstate) (n : nat) (st : mstate)
  : list mstate :=
  match n with
  | O => [st]
  | S n' =>
      flat_map (fun st' =>
                  if length (rest st') <? length (rest st)
                  then star_loop step n' st' else [])
               (step st) ++ [st]
  end.

Fixpoint m (r : regex) (st : mstate) : list mstate :=
  match r with
  | Eps => [st]
  | Chr p =>
      match rest st with
      | c :: s' => if p c then [MState (Some c) s' (cap st)] else []
      | [] => []
      end
  | Cat r1 r2 => flat_map (m r2) (m r1 st)
  | Alt r1 r2 => m r1 st ++ m r2 st
  | Star r' => star_loop (m r') (length (rest st)) st
  | Bol => match prev st with None => [st] | Some _ => [] end
  | Eol => match rest st with [] => [st] | _ :: _ => [] end
  | Wordb => if xorb (word_before st) (word_after st) then [st] else []
  | Grp r' =>
      map (fun st' => MState (prev st') (rest st') (Some (consumed st st')))
          (m r' st)
  end.

(** The leftmost match: the first start position that has a match, and the
    first match there. *)
Fixpoint search (r : regex) (p : option ascii) (s : str) : option mstate :=
  match m r (MState p s None) with
  | st' :: _ => Some st'
  | [] =>
      match s with
      | [] => None
      | c :: s' => search r (Some c) s'
      end
  end.

(** [RegExp.prototype.test] of a regular expression without the [g] flag. *)
Definition test (r : regex) (s : str) : bool :=
  match search r None s with Some _ => true | None => false end.

(** [String.prototype.match] of a regular expression without the [g] flag:
    [None] is [null]; otherwise the value of capture group 1, which is
    [undefined] ([None]) when the group took no part in the match. *)
Definition exec (r : regex) (s : str) : option (option str) :=
  option_map cap (search r None s).

(** *** Notation for the patterns of the sources *)

Definition only (c : ascii) : ascii -> bool :=
  fun x => if ascii_dec x c then true else false.
Definition ci (c : ascii) : ascii -> bool :=
  fun x => if ascii_dec (to_lower x) (to_lower c) then true else false.
Definition oneof (s : str) : ascii -> bool :=
  fun x => existsb (fun c => if ascii_dec x c then true else false) s.
Definition noneof (s : str) : ascii -> bool := fun x => negb (oneof s x).
(** [.]: any unit but a line terminator. *)
Definition dot : ascii -> bool :=
  fun x => negb ((nat_of_ascii x =? 10) || (nat_of_ascii x =? 13)).

Fixpoint lit_l (s : str) : regex :=
  match s with
  | [] => Eps
  | [c] => Chr (only c)
  | c :: s' => Cat (Chr (only c)) (lit_l s')
  end.
Definition lit (s : string) : regex := lit_l (txt s).

(** A literal under the [i] flag. *)
Fixpoint lit_ci_l (s : str) : regex :=
  match s with
  | [] => Eps
  | [c] => Chr (ci c)
  | c :: s' => Cat (Chr (ci c)) (lit_ci_l s')
  end.
Definition lit_ci (s : string) : regex := lit_ci_l (txt s).

Definition plus (r : regex) : regex := Cat r (Star r).
Definition opt (r : regex) : regex := Alt r Eps.
Definition ws : regex := Star (Chr is_space).      (* \s* *)
Definition ws1 : regex := plus (Chr is_space).     (* \s+ *)
Definition w1 : regex := plus (Chr is_word).       (* \w+ *)
Definition w0 : regex := Star (Chr is_word).       (* \w* *)
Definition any : regex := Star (Chr dot).          (* .*  *)
(** The class of the two quote characters, and its complement. *)
Definition quote : ascii -> bool := oneof ("'"%char :: dq :: nil).
Definition nquote : ascii -> bool := noneof ("'"%char :: dq :: nil).

Declare Scope re_scope.
Delimit Scope re_scope with re.
Notation "a >> b" := (Cat a b) (at level 41, right associativity) : re_scope.
Notation "a <|> b" := (Alt a b) (at level 42, right associativity) : re_scope.
Local Open Scope re_scope.


(** ** Findings

    The objects pushed by the evaluators.  [severity] is absent in the
    Swift evaluator; [priority] is present only in the React one. *)

Record Issue : Type := mkIssue {
  i_line : nat;
  i_type : str;
  i_severity : option str;
  i_message : str
}.

Record Suggestion : Type := mkSuggestion {
  s_line : nat;
  s_category : str;
  s_message : str;
  s_priority : option str
}.

Record Analysis : Type := mkAnalysis {
  critical : list Issue;
  suggestions : list Suggestion
}.

(** A thrown exception. *)
Inductive exn : Type := TypeError.

Inductive result (A : Type) : Type :=
| Ok (a : A)
| Throw (e : exn).
Arguments Ok {A} a.
Arguments Throw {A} e.

Definition bind {A B} (x : result A) (f : A -> result B) : result B :=
  match x with
  | Ok a => f a
  | Throw e => Throw e
  end.

Notation "x <- c1 ;; c2" := (bind c1 (fun x => c2))
  (at level 61, c1 at next level, right associativity).

(** [lines.forEach((line, idx) => ...)] with a callback that pushes to an
    array: the pushes of each line, in line order. *)
Fixpoint forEach {A B} (f : A -> nat -> list B) (l : list A) (idx : nat)
  : list B :=
  match l with
  | [] => []
  | x :: l' => f x idx ++ forEach f l' (S idx)
  end.

(** The same with a callback that may throw: the exception leaves the
    loop. *)
Fixpoint forEachR {A B} (f : A -> nat -> result (list B)) (l : list A)
  (idx : nat) : result (list B) :=
  match l with
  | [] => Ok []
  | x :: l' =>
      out <- f x idx ;;
      more <- forEachR f l' (S idx) ;;
      Ok (out ++ more)
  end.

(** [arr.pop()] followed by a method call on the popped value: [pop] of an
    empty array is [undefined], on which the call throws. *)
Definition pop_then {A} (l : list A) : result A :=
  match rev l with
  | x :: _ => Ok x
  | [] => Throw TypeError
  end.

(** [if (cond) arr.push(x)]. *)
Definition push_if {A} (cond : bool) (x : A) : list A :=
  if cond then [x] else [].

(** ** The Laravel reviewer: rules ([scripts/laravel-reviewer.js]) *)

Module Laravel.

(** [!trimmed || trimmed.startsWith('//') || trimmed.startsWith('*') ||
    trimmed.startsWith('/*')]. *)
Definition skip_line (trimmed : str) : bool :=
  negb (truthy trimmed) || startsWith trimmed (txt "//") ||
  startsWith trimmed (txt "*") || startsWith trimmed (txt "/*").

(* /DB::select\s*\(\s*[quote]SELECT/ *)
Definition re_raw_select : regex :=
  lit "DB::select" >> ws >> lit "(" >> ws >> Chr quote >> lit "SELECT".
(* /DB::select\s*\(\s*[quote]SELECT[^quote]*\?/ *)
Definition re_raw_select_bound : regex :=
  lit "DB::select" >> ws >> lit "(" >> ws >> Chr quote >> lit "SELECT" >>
  Star (Chr nquote) >> lit "?".
(* /function\s+\w+\s*\([^)]*\$id\s*[,)]/ *)
Definition re_fn_id : regex :=
  lit "function" >> ws1 >> w1 >> ws >> lit "(" >> Star (Chr (noneof (txt ")")))
  >> lit "$id" >> ws >> Chr (oneof (txt ",)")).
(* /Controller/ *)
Definition re_controller : regex := lit "Controller".
(* /::find\s*\(\s*\$id\s*\)/ *)
Definition re_find_id : regex :=
  lit "::find" >> ws >> lit "(" >> ws >> lit "$id" >> ws >> lit ")".
(* /\$request->validate\s*\(\s*\[/ *)
Definition re_validate : regex :=
  lit "$request->validate" >> ws >> lit "(" >> ws >> lit "[".

Definition checkBestPractices (content filename : str) : list Suggestion :=
  let lines := split_nl content in
  forEach (fun line idx =>
    let lineNum := idx + 1 in
    let trimmed := trim line in
    if skip_line trimmed then [] else
    (* 1. Use Query Builder or Eloquent instead of raw queries *)
    push_if (test re_raw_select line && negb (test re_raw_select_bound line))
      (mkSuggestion lineNum (txt "📊 Database")
         (txt "Consider using Query Builder or Eloquent instead of raw SQL for better maintainability")
         None)
    ++
    (* 2. Use route model binding *)
    (if test re_fn_id line && test re_controller content then
       let nextLines := join [nl] (slice idx (idx + 5) lines) in
       push_if (test re_find_id nextLines)
         (mkSuggestion lineNum (txt "🎯 Eloquent")
            (txt "Use route model binding instead of manual find($id) for cleaner code")
            None)
     else [])
    ++
    (* 3. Use Form Request for validation *)
    push_if (test re_validate line && test re_controller content)
      (mkSuggestion lineNum (txt "✅ Validation")
         (txt "Consider using Form Request classes for complex validations to keep controllers thin")
         None))
    lines 0.

(* /\b(vendor|node_modules|bootstrap\/cache|storage)\b/ *)
Definition re_skip_dirs : regex :=
  Wordb >> (lit "vendor" <|> lit "node_modules" <|> lit "bootstrap/cache"
            <|> lit "storage") >> Wordb.
(* /\.blade\.php$/ *)
Definition re_blade : regex := lit ".blade.php" >> Eol.
(* /\/(tests?|Tests)\//i *)
Definition re_tests_dir : regex :=
  lit "/" >> ((lit_ci "test" >> opt (Chr (ci "s"))) <|> lit_ci "Tests") >> lit "/".
(* /_test\.php$|Test\.php$/ *)
Definition re_test_file : regex :=
  (lit "_test.php" >> Eol) <|> (lit "Test.php" >> Eol).

(** The guard at the head of [analyzeCode]: files that are not reviewed. *)
Definition excluded (filename : str) : bool :=
  test re_skip_dirs filename || test re_blade filename ||
  test re_tests_dir filename || test re_test_file filename.

(* /\b(dd|dump)\s*\(/ *)
Definition re_debug : regex :=
  Wordb >> (lit "dd" <|> lit "dump") >> ws >> lit "(".
(* /DB::raw\([^)]*[quote][^quote]*\$/ *)
Definition re_db_raw : regex :=
  lit "DB::raw(" >> Star (Chr (noneof (txt ")"))) >> Chr quote >>
  Star (Chr nquote) >> lit "$".
(* /->whereRaw\([^)]*[quote][^quote]*\$/ *)
Definition re_where_raw : regex :=
  lit "->whereRaw(" >> Star (Chr (noneof (txt ")"))) >> Chr quote >>
  Star (Chr nquote) >> lit "$".
(* /[quote].*\..*\$/ *)
Definition re_concat_l : regex := Chr quote >> any >> lit "." >> any >> lit "$".
(* /\$.*\..*[quote]/ *)
Definition re_concat_r : regex := lit "$" >> any >> lit "." >> any >> Chr quote.
(* /::create\s*\(\s*\$request\s*->\s*all\s*\(\s*\)/ *)
Definition re_mass_assign : regex :=
  lit "::create" >> ws >> lit "(" >> ws >> lit "$request" >> ws >> lit "->" >>
  ws >> lit "all" >> ws >> lit "(" >> ws >> lit ")".

Definition analyzeCode (content filename : str) : Analysis :=
  if excluded filename then mkAnalysis [] [] else
  let lines := split_nl content in
  let critical := forEach (fun line idx =>
    let lineNum := idx + 1 in
    let trimmed := trim line in
    if skip_line trimmed then [] else
    (* 1. Debug functions *)
    push_if (test re_debug line)
      (mkIssue lineNum (txt "🔍 Debug Code") (Some (txt "critical"))
         (txt "Debug function dd() or dump() must be removed before merge"))
    ++
    (* 2. SQL injection with variable concatenation *)
    (if test re_db_raw line || test re_where_raw line then
       push_if (test re_concat_l line || test re_concat_r line)
         (mkIssue lineNum (txt "🔒 Security") (Some (txt "critical"))
            (txt "SQL injection risk: variable concatenated in raw query. Use parameter binding with ?"))
     else [])
    ++
    (* 3. Mass assignment with all() *)
    push_if (test re_mass_assign line)
      (mkIssue lineNum (txt "🔒 Security") (Some (txt "critical"))
         (txt "Mass assignment vulnerability: $request->all() allows any field. Use validated() or only()")))
    lines 0 in
  let suggestions := checkBestPractices content filename in
  mkAnalysis critical suggestions.

End Laravel.

(** ** The Swift reviewer: rules ([scripts/swift-reviewer.js]) *)

(** A callback that pushes to two arrays. *)
Fixpoint forEach2 {A B C} (f : A -> nat -> list B * list C) (l : list A)
  (idx : nat) : list B * list C :=
  match l with
  | [] => ([], [])
  | x :: l' =>
      let (b, c) := f x idx in
      let (bs, cs) := forEach2 f l' (S idx) in
      (b ++ bs, c ++ cs)
  end.

Module Swift.

(* /\b(Pods|Carthage|\.build|DerivedData|fastlane)\b/ *)
Definition re_skip_dirs : regex :=
  Wordb >> (lit "Pods" <|> lit "Carthage" <|> lit ".build" <|> lit "DerivedData"
            <|> lit "fastlane") >> Wordb.
(* /\/(Tests|UITests)\// *)
Definition re_tests_dir : regex :=
  lit "/" >> (lit "Tests" <|> lit "UITests") >> lit "/".

Definition excluded (filename : str) : bool :=
  test re_skip_dirs filename || test re_tests_dir filename.

(* /\btry!\b/ *)
Definition re_force_try : regex := Wordb >> lit "try!" >> Wordb.
(* /\bas!\b/ *)
Definition re_force_cast : regex := Wordb >> lit "as!" >> Wordb.
(* /\w!\b/ *)
Definition re_force_unwrap : regex := Chr is_word >> lit "!" >> Wordb.
(* /!=/ *)
Definition re_neq : regex := lit "!=".
(* /^!/ *)
Definition re_lead_bang : regex := Bol >> lit "!".
(* /\{\s*\[.*\]\s*in/ *)
Definition re_closure_captures : regex :=
  lit "{" >> ws >> lit "[" >> any >> lit "]" >> ws >> lit "in".
(* /\{[^}]*in/ *)
Definition re_closure : regex :=
  lit "{" >> Star (Chr (noneof (txt "}"))) >> lit "in".
(* /self\./ *)
Definition re_self : regex := lit "self.".
(* /\[weak\s+self\]/ *)
Definition re_weak_self : regex := lit "[weak" >> ws1 >> lit "self]".
(* /class\s+\w+/ *)
Definition re_class : regex := lit "class" >> ws1 >> w1.
(* /\bprint\s*\(/ *)
Definition re_print : regex := Wordb >> lit "print" >> ws >> lit "(".
(* /\b(TODO|FIXME)\b/ *)
Definition re_todo : regex := Wordb >> (lit "TODO" <|> lit "FIXME") >> Wordb.
(* /\.(text|setNeedsLayout|reloadData|setNeedsDisplay)\b/ *)
Definition re_ui_update : regex :=
  lit "." >> (lit "text" <|> lit "setNeedsLayout" <|> lit "reloadData"
              <|> lit "setNeedsDisplay") >> Wordb.
(* /DispatchQueue\.global/ *)
Definition re_global_queue : regex := lit "DispatchQueue.global".

Definition analyzeCode (content filename : str) : Analysis :=
  if excluded filename then mkAnalysis [] [] else
  let lines := split_nl content in
  let (critical, suggestions) := forEach2 (fun line idx =>
    let n := idx + 1 in
    let t := trim line in
    if negb (truthy t) || startsWith t (txt "//") then ([], []) else
    ( (* force try *)
      push_if (test re_force_try t)
        (mkIssue n (txt "⚠️ Force Try") None
           (txt "Avoid try! — handle errors with do/catch or try?"))
      ++
      (* force cast *)
      push_if (test re_force_cast t)
        (mkIssue n (txt "⚠️ Force Cast") None
           (txt "Avoid as! — use as? with safe handling")),
      (* force unwrap *)
      push_if (test re_force_unwrap t && negb (test re_neq t)
               && negb (test re_lead_bang t))
        (mkSuggestion n (txt "Safety")
           (txt "Avoid force unwrapping (!). Use if let/guard let or nil coalescing")
           None)
      ++
      (* retain cycle risk *)
      (if negb (test re_closure_captures t) && test re_closure t then
         let window :=
           join [nl] (slice (idx - 2) (Nat.min (length lines) (idx + 8)) lines) in
         push_if (test re_self window && negb (test re_weak_self window)
                  && test re_class content)
           (mkSuggestion n (txt "Memory")
              (txt "Consider [weak self] in closures to avoid retain cycles")
              None)
       else [])
      ++
      (* print/log in production *)
      push_if (test re_print t)
        (mkSuggestion n (txt "Cleanliness")
           (txt "Remove print() or gate behind DEBUG") None)
      ++
      (* TODO/FIXME present *)
      push_if (test re_todo t)
        (mkSuggestion n (txt "Maintenance")
           (txt "Address TODO/FIXME before merge") None)
      ++
      (* UI update on the main thread *)
      push_if (test re_ui_update t
               && test re_global_queue
                    (join [nl] (slice (idx - 5) (idx + 1) lines)))
        (mkSuggestion n (txt "Concurrency")
           (txt "UI updates must be on main thread (DispatchQueue.main.async)")
           None) ))
    lines 0 in
  mkAnalysis critical suggestions.

End Swift.

(** ** The React reviewer: rules ([scripts/react-reviewer.js]) *)

Module React.

(* (jsx?|tsx?) *)
Definition re_js_ext : regex :=
  (lit "js" >> opt (lit "x")) <|> (lit "ts" >> opt (lit "x")).

(* at the start: two slashes, or slash star, or star *)
Definition re_comment : regex := Bol >> (lit "//" <|> lit "/*" <|> lit "*").

Definition skip_line (trimmed : str) : bool :=
  negb (truthy trimmed) || test re_comment trimmed.

(* /class\s+\w+\s+extends\s+(?:React\.)?Component/ *)
Definition re_class_component : regex :=
  lit "class" >> ws1 >> w1 >> ws1 >> lit "extends" >> ws1 >>
  opt (lit "React.") >> lit "Component".
(* /useEffect\s*\(\s*\(\s*\)\s*=>/ *)
Definition re_effect_arrow : regex :=
  lit "useEffect" >> ws >> lit "(" >> ws >> lit "(" >> ws >> lit ")" >> ws >>
  lit "=>".
(* /\}\s*,\s*\[/ *)
Definition re_deps : regex := lit "}" >> ws >> lit "," >> ws >> lit "[".
(* /(?:onClick|onChange|onSubmit|on[A-Z]\w* )\s*=\s*\{(?:\(\)|.*=>)/, without the blank *)
Definition re_inline_handler : regex :=
  (lit "onClick" <|> lit "onChange" <|> lit "onSubmit"
   <|> (lit "on" >> Chr is_upper >> w0)) >>
  ws >> lit "=" >> ws >> lit "{" >> (lit "()" <|> (any >> lit "=>")).
(* /\.map\s*\(/ *)
Definition re_map : regex := lit ".map" >> ws >> lit "(".
(* /<[A-Z]/ *)
Definition re_jsx_tag : regex := lit "<" >> Chr is_upper.
(* /key\s*=/ *)
Definition re_key : regex := lit "key" >> ws >> lit "=".
(* /key\s*=\s*\{.*index\}/ *)
Definition re_index_key : regex :=
  lit "key" >> ws >> lit "=" >> ws >> lit "{" >> any >> lit "index}".
(* /console\.(log|debug|info)\s*\(/ *)
Definition re_console : regex :=
  lit "console." >> (lit "log" <|> lit "debug" <|> lit "info") >> ws >> lit "(".
(* /useEffect/ *)
Definition re_effect : regex := lit "useEffect".
(* /(fetch|axios|setTimeout|setInterval|subscribe)\s*\(/ *)
Definition re_async_op : regex :=
  (lit "fetch" <|> lit "axios" <|> lit "setTimeout" <|> lit "setInterval"
   <|> lit "subscribe") >> ws >> lit "(".
(* /return\s*\(\s*\)\s*=>/ *)
Definition re_cleanup_arrow : regex :=
  lit "return" >> ws >> lit "(" >> ws >> lit ")" >> ws >> lit "=>".
(* /return\s+function/ *)
Definition re_cleanup_fn : regex := lit "return" >> ws1 >> lit "function".
(* /\w+\s*&&\s*\w+\.\w+/ *)
Definition re_and_access : regex :=
  w1 >> ws >> lit "&&" >> ws >> w1 >> lit "." >> w1.
(* /fetch\s*\(/ *)
Definition re_fetch : regex := lit "fetch" >> ws >> lit "(".
(* /axios\.\w+\s*\(/ *)
Definition re_axios : regex := lit "axios." >> w1 >> ws >> lit "(".
(* /catch|try/ *)
Definition re_catch_try : regex := lit "catch" <|> lit "try".
(* /(\.filter|\.map|\.reduce|\.sort)\s*\(.*\)\s*\.\s*(filter|map|reduce|sort)/ *)
Definition re_chain : regex :=
  (lit ".filter" <|> lit ".map" <|> lit ".reduce" <|> lit ".sort") >> ws >>
  lit "(" >> any >> lit ")" >> ws >> lit "." >> ws >>
  (lit "filter" <|> lit "map" <|> lit "reduce" <|> lit "sort").
(* /import\s+\w+\s+from\s+[quote].*\/(?:pages|routes|views)\// *)
Definition re_route_import : regex :=
  lit "import" >> ws1 >> w1 >> ws1 >> lit "from" >> ws1 >> Chr quote >> any >>
  lit "/" >> (lit "pages" <|> lit "routes" <|> lit "views") >> lit "/".
(* /React\.lazy|lazy\(/ *)
Definition re_lazy : regex := lit "React.lazy" <|> lit "lazy(".
(* /<img\s/ *)
Definition re_img : regex := lit "<img" >> Chr is_space.
(* /alt\s*=/ *)
Definition re_alt : regex := lit "alt" >> ws >> lit "=".
(* /^\s*let\s+\w+\s*=/ *)
Definition re_let_decl : regex :=
  Bol >> ws >> lit "let" >> ws1 >> w1 >> ws >> lit "=".
(* /let\s+(\w+)/ *)
Definition re_let_name : regex := lit "let" >> ws1 >> Grp w1.
(* new RegExp(`\\b${varName}\\s*=`) *)
Definition re_assign (varName : str) : regex :=
  Wordb >> lit_l varName >> ws >> lit "=".
(* /<div\s+(?:onClick|role=[quote]button)/ *)
Definition re_div_button : regex :=
  lit "<div" >> ws1 >> (lit "onClick" <|> (lit "role=" >> Chr quote >> lit "button")).
(* /<form/ *)
Definition re_form : regex := lit "<form".
(* /onSubmit/ *)
Definition re_on_submit : regex := lit "onSubmit".

(** The value of [line.match(re)[1]] inside a template literal: reading
    index 1 of [null] throws; a group that took no part gives
    [undefined]. *)
Definition capture1 (r : regex) (s : str) : result str :=
  match exec r s with
  | None => Throw TypeError
  | Some (Some v) => Ok v
  | Some None => Ok (txt "undefined")
  end.

Definition high : option str := Some (txt "high").
Definition medium : option str := Some (txt "medium").
Definition low : option str := Some (txt "low").

(** Rule 13, the one rule that reads a capture. *)
Definition rule_let (lines : list str) (line : str) (idx : nat)
  : result (list Suggestion) :=
  if test re_let_decl line then
    varName <- capture1 re_let_name line ;;
    let scopeContent := join [nl] (slice idx (idx + 30) lines) in
    Ok (push_if (negb (test (re_assign varName)
                          (slice_from (length line) scopeContent)))
          (mkSuggestion (idx + 1) (txt "🎯 Modern JS")
             (txt "Variable '" ++ varName ++
              txt "' is never reassigned. Use 'const' instead of 'let'")
             low))
  else Ok [].

(* /\.tsx?$/ *)
Definition re_ts : regex := lit ".ts" >> opt (lit "x") >> Eol.
(* /^[A-Z]/ *)
Definition re_capital : regex := Bol >> Chr is_upper.

(** [isTypeScript] and [isComponent] are computed at the head of the
    function and never read.  The second calls [replace] on
    [filename.split('/').pop()]; the extension it removes does not change
    the test of the first character, so the test is taken on the base
    name. *)
Definition checkBestPractices (content filename : str)
  : result (list Suggestion) :=
  let lines := split_nl content in
  let isTypeScript := test re_ts filename in
  base <- pop_then (split_on "/" filename) ;;
  let isComponent := test re_capital base in
  forEachR (fun line idx =>
    let lineNum := idx + 1 in
    let trimmed := trim line in
    if skip_line trimmed then Ok [] else
    let before :=
      (* 1. Use functional components *)
      push_if (test re_class_component line)
        (mkSuggestion lineNum (txt "⚛️ Modern React")
           (txt "Consider using functional components with hooks instead of class components (React 16.8+)")
           high)
      ++
      (* 2. Missing dependency array in useEffect *)
      (if test re_effect_arrow line then
         let effectContent := join [nl] (slice idx (idx + 15) lines) in
         push_if (negb (test re_deps effectContent))
           (mkSuggestion lineNum (txt "🪝 Hooks")
              (txt "useEffect without dependency array runs on every render. Add [] for mount-only or specify dependencies")
              high)
       else [])
      ++
      (* 3. Inline function in JSX *)
      push_if (test re_inline_handler line)
        (mkSuggestion lineNum (txt "⚡ Performance")
           (txt "Inline function creates new reference on each render. Use useCallback or extract to stable reference")
           medium)
      ++
      (* 4. Missing key prop in map *)
      (if test re_map line then
         let mapContent := join [nl] (slice idx (idx + 5) lines) in
         push_if (test re_jsx_tag mapContent && negb (test re_key mapContent))
           (mkSuggestion lineNum (txt "⚛️ React")
              (txt "Missing key prop in list. Add unique key to help React identify items")
              high)
       else [])
      ++
      (* 5. Using index as key *)
      push_if (test re_index_key line)
        (mkSuggestion lineNum (txt "⚛️ React")
           (txt "Avoid using array index as key. Use unique ID if items can be reordered or filtered")
           medium)
      ++
      (* 6. Console.log in production code *)
      push_if (test re_console line)
        (mkSuggestion lineNum (txt "🧹 Code Quality")
           (txt "Remove console.log before production. Use proper logging library or remove debug statements")
           medium)
      ++
      (* 7. Async operations without cleanup *)
      (if test re_effect line then
         let effectContent := join [nl] (slice idx (idx + 20) lines) in
         if test re_async_op effectContent then
           push_if (negb (test re_cleanup_arrow effectContent)
                    && negb (test re_cleanup_fn effectContent))
             (mkSuggestion lineNum (txt "🐛 Memory Leaks")
                (txt "useEffect with async operations should return cleanup function to prevent memory leaks")
                high)
         else []
       else [])
      ++
      (* 8. Prefer optional chaining *)
      push_if (test re_and_access line && negb (startsWith trimmed (txt "//")))
        (mkSuggestion lineNum (txt "🎯 Modern JS")
           (txt "Use optional chaining (?.) instead of && for safer property access")
           low)
      ++
      (* 9. Fetch without error handling *)
      (if test re_fetch line || test re_axios line then
         let fetchContext := join [nl] (slice idx (idx + 10) lines) in
         push_if (negb (test re_catch_try fetchContext))
           (mkSuggestion lineNum (txt "🐛 Error Handling")
              (txt "API call without error handling. Add try-catch or .catch() to handle failures")
              high)
       else [])
      ++
      (* 10. Heavy computation in render *)
      push_if (test re_chain line)
        (mkSuggestion lineNum (txt "⚡ Performance")
           (txt "Chained array operations in render. Consider using useMemo to cache computed values")
           medium)
      ++
      (* 11. Use lazy loading for routes *)
      (if test re_route_import line then
         push_if (negb (test re_lazy line))
           (mkSuggestion lineNum (txt "⚡ Performance")
              (txt "Consider lazy loading route components with React.lazy() to reduce initial bundle size")
              medium)
       else [])
      ++
      (* 12. Missing alt text on images *)
      push_if (test re_img line && negb (test re_alt line))
        (mkSuggestion lineNum (txt "♿ Accessibility")
           (txt "Images must have alt text for accessibility. Add descriptive alt attribute")
           high) in
    (* 13. Prefer const over let *)
    constOverLet <- rule_let lines line idx ;;
    let after :=
      (* 14. Use semantic HTML *)
      push_if (test re_div_button line)
        (mkSuggestion lineNum (txt "♿ Accessibility")
           (txt "Use semantic HTML <button> instead of <div> with onClick for better accessibility")
           medium)
      ++
      (* 15. Form without onSubmit handler *)
      (if test re_form line && negb (test re_on_submit line) then
         let formContent := join [nl] (slice idx (idx + 5) lines) in
         push_if (negb (test re_on_submit formContent))
           (mkSuggestion lineNum (txt "🐛 Forms")
              (txt "Form without onSubmit handler. Add handler and preventDefault() to control submission")
              medium)
       else []) in
    Ok (before ++ constOverLet ++ after))
    lines 0.

(* /node_modules|dist|build|coverage|\.min\.js/ *)
Definition re_skip_dirs : regex :=
  lit "node_modules" <|> lit "dist" <|> lit "build" <|> lit "coverage"
  <|> lit ".min.js".
(* /\.(test|spec)\.(jsx?|tsx?)$/ *)
Definition re_test_file : regex :=
  lit "." >> (lit "test" <|> lit "spec") >> lit "." >> re_js_ext >> Eol.

Definition excluded (filename : str) : bool :=
  test re_skip_dirs filename || test re_test_file filename.

(* /dangerouslySetInnerHTML/ *)
Definition re_inner_html : regex := lit "dangerouslySetInnerHTML".
(* /document\.(getElementById|querySelector|getElementsBy)/ *)
Definition re_dom : regex :=
  lit "document." >> (lit "getElementById" <|> lit "querySelector"
                      <|> lit "getElementsBy").
(* /useEffect\s*\(/ *)
Definition re_effect_call : regex := lit "useEffect" >> ws >> lit "(".
(* /set[A-Z]\w*\s*\(/ *)
Definition re_setter : regex :=
  lit "set" >> Chr is_upper >> w0 >> ws >> lit "(".
(* /\]\s*\)/ *)
Definition re_deps_close : regex := lit "]" >> ws >> lit ")".
(* /setTimeout|setInterval/ *)
Definition re_timer : regex := lit "setTimeout" <|> lit "setInterval".
(* /clearTimeout|clearInterval/ *)
Definition re_clear_timer : regex := lit "clearTimeout" <|> lit "clearInterval".
(* /useEffect\s*\(\s*async/ *)
Definition re_effect_async : regex :=
  lit "useEffect" >> ws >> lit "(" >> ws >> lit "async".
(* /props\.\w+\s*=/ *)
Definition re_props_write : regex := lit "props." >> w1 >> ws >> lit "=".
(* /\beval\s*\(/ *)
Definition re_eval : regex := Wordb >> lit "eval" >> ws >> lit "(".
(* /(?:onClick|onChange)\s*=\s*\{[^}]*\.bind\(this/ *)
Definition re_bind : regex :=
  (lit "onClick" <|> lit "onChange") >> ws >> lit "=" >> ws >> lit "{" >>
  Star (Chr (noneof (txt "}"))) >> lit ".bind(this".
(* /\b(useState|useEffect|useCallback|useMemo|useRef|useContext)\s*\(/ *)
Definition hookPattern : regex :=
  Wordb >> (lit "useState" <|> lit "useEffect" <|> lit "useCallback"
            <|> lit "useMemo" <|> lit "useRef" <|> lit "useContext") >>
  ws >> lit "(".
(* /\bif\s*\(|\?\s*\(/ *)
Definition re_conditional : regex :=
  (Wordb >> lit "if" >> ws >> lit "(") <|> (lit "?" >> ws >> lit "(").
(* /\bstate\.\w+\s*=/ *)
Definition re_state_write : regex :=
  Wordb >> lit "state." >> w1 >> ws >> lit "=".
(* /this\.state\.\w+\s*=/ *)
Definition re_this_state_write : regex :=
  lit "this.state." >> w1 >> ws >> lit "=".

Definition crit (n : nat) (ty msg : string) : Issue :=
  mkIssue n (txt ty) (Some (txt "critical")) (txt msg).

Definition analyzeCode (content filename : str) : result Analysis :=
  if excluded filename then Ok (mkAnalysis [] []) else
  let lines := split_nl content in
  let critical := forEach (fun line idx =>
    let lineNum := idx + 1 in
    let trimmed := trim line in
    if skip_line trimmed then [] else
    (* 1. Dangerous innerHTML usage *)
    push_if (test re_inner_html line)
      (crit lineNum "🔒 Security"
         "XSS risk: dangerouslySetInnerHTML can inject malicious scripts. Sanitize HTML with DOMPurify")
    ++
    (* 2. Direct DOM manipulation *)
    push_if (test re_dom line)
      (crit lineNum "⚛️ React"
         "Avoid direct DOM manipulation in React. Use refs (useRef) or state instead")
    ++
    (* 3. Infinite loop in useEffect *)
    (if test re_effect_call line then
       let effectContent := join [nl] (slice idx (idx + 15) lines) in
       push_if (test re_setter effectContent
                && negb (test re_deps_close effectContent))
         (crit lineNum "🐛 Infinite Loop"
            "Potential infinite loop: useEffect updates state without dependency array")
     else [])
    ++
    (* 4. Memory leak: timer without cleanup *)
    (if test re_timer line then
       let context := join [nl] (slice (idx - 10) (idx + 10) lines) in
       push_if (test re_effect context && negb (test re_clear_timer context))
         (crit lineNum "💧 Memory Leak"
            "Timer without cleanup. Return cleanup function: () => clearTimeout(id)")
     else [])
    ++
    (* 5. Async useEffect *)
    push_if (test re_effect_async line)
      (crit lineNum "🐛 Hook Error"
         "useEffect cannot be async directly. Create async function inside and call it")
    ++
    (* 6. Modifying props *)
    push_if (test re_props_write line)
      (crit lineNum "⚛️ React"
         "Props are read-only. Never mutate props directly")
    ++
    (* 7. eval() usage *)
    push_if (test re_eval line)
      (crit lineNum "🔒 Security"
         "eval() is dangerous and can execute malicious code. Find alternative approach")
    ++
    (* 8. Binding in render *)
    push_if (test re_bind line)
      (crit lineNum "⚡ Performance"
         ".bind() in render creates new function each time. Move to constructor or use arrow functions")
    ++
    (* 9. Conditional hook usage *)
    (if test hookPattern line then
       let prevLines := join [nl] (slice (idx - 5) idx lines) in
       push_if (test re_conditional prevLines)
         (crit lineNum "🪝 Hooks"
            "Hooks cannot be called conditionally. Call hooks at top level of component")
     else [])
    ++
    (* 10. Direct state mutation *)
    push_if (test re_state_write line || test re_this_state_write line)
      (crit lineNum "⚛️ React"
         "Never mutate state directly. Use setState or state setter function"))
    lines 0 in
  suggestions <- checkBestPractices content filename ;;
  Ok (mkAnalysis critical suggestions).

End React.

(** ** The collaborators

    The source-control host, the completion endpoint and the process
    environment, as the scripts see them.  A request that rejects is a
    [Throw]. *)

(** An entry of [octokit.pulls.listFiles]. *)
Record PRFile : Type := mkFile {
  filename : str;
  status : str;
  additions : nat;
  deletions : nat;
  patch : option str              (* absent for binary files *)
}.

(** The decoded body of a completion response: [choices] is [None] when
    the field is absent (an error body); an entry is the value of
    [?.message?.content], [None] when it is [undefined] or [null]. *)
Inductive json_body : Type :=
| BadJson
| Data (choices : option (list (option str))).

Inductive http : Type :=
| NetworkError
| Response (ok : bool) (body : json_body).

(** The fixed system prompts of the scripts. *)
Inductive Persona : Type :=
| LaravelReviewPersona | ReactReviewPersona | SwiftReviewPersona
| ReactChatPersona | LaravelChatPersona | SwiftChatPersona.

Record ChatRequest : Type := mkChat {
  persona : Persona;
  context : str;                  (* appended to the system prompt *)
  user : str
}.

Record World : Type := mkWorld {
  GROQ_API_KEY : option str;
  PR_NUMBER : option nat;         (* the number read from the event payload *)
  COMMENT_BODY : option str;
  listFiles : result (list PRFile);
  pullsGet : result (str * option str);       (* title, body *)
  getContent : str -> result str;             (* decoded content at the head commit *)
  fetch : ChatRequest -> http;
  createComment : str -> result unit
}.

(** The scripts a dispatcher can start, and a value read from its script
    table: a path of its own, or a member inherited from
    [Object.prototype]. *)
Inductive Script : Type :=
| ReactReviewer | LaravelReviewer | ReactCommentHandler | LaravelCommentHandler.

Inductive scriptval : Type :=
| ScriptPath (s : Script)
| Inherited (name : str).

(** Outbound requests, child processes and evaluator calls, in program
    order. *)
Inductive event : Type :=
| EvSpawn (v : scriptval)
| EvListFiles
| EvPullsGet
| EvGetContent (path : str)
| EvEvaluate (f : PRFile)
| EvCompletion (req : ChatRequest)
| EvCreateComment (body : str).

(** Truthiness of an optional string ([undefined] and the empty string are
    falsy) and of a number ([undefined], [null] and [0] are falsy). *)
Definition truthy_opt (o : option str) : bool :=
  match o with Some s => truthy s | None => false end.

Definition truthy_num (o : option nat) : bool :=
  match o with Some (S _) => true | _ => false end.

(** [data.choices[0]?.message?.content] after [await response.json()]. *)
Definition first_content (b : json_body) : result (option str) :=
  match b with
  | BadJson => Throw TypeError
  | Data None => Throw TypeError
  | Data (Some []) => Ok None
  | Data (Some (c :: _)) => Ok c
  end.

(** [callGroqAI] of the three reviewers: [None] is [null]. *)
Definition callGroqAI (w : World) (p : Persona) (prompt : str) : option str :=
  if negb (truthy_opt (GROQ_API_KEY w)) then None else
  match fetch w (mkChat p [] prompt) with
  | NetworkError => None
  | Response ok body =>
      if negb ok then None else
      match first_content body with
      | Ok (Some c) => if truthy c then Some c else None
      | Ok None => None
      | Throw _ => None
      end
  end.

(** ** The review orchestrator *)

(** The accumulators of [reviewPR] and the trace of what it did. *)
Record Acc : Type := mkAcc {
  allCritical : list (str * list Issue);
  allSuggestions : list (str * list Suggestion);
  aiReviews : list (str * str);
  trace : list event
}.

Definition acc0 (tr : list event) : Acc := mkAcc [] [] [] tr.

Definition log (e : event) (a : Acc) : Acc :=
  mkAcc (allCritical a) (allSuggestions a) (aiReviews a) (trace a ++ [e]).

(** What differs between the three reviewer scripts. *)
Record Stack : Type := mkStack {
  st_persona : Persona;
  st_matches : PRFile -> bool;             (* the filter of getPRDiff / getPRFiles *)
  st_batch : nat;                          (* files.slice(0, n) *)
  st_patch_limit : nat;                    (* file.patch.slice(0, n) *)
  st_analyze : str -> str -> result Analysis;
  st_prompt : str -> str -> str;           (* file name, patch preview *)
  st_keep : option str -> bool;            (* is the reply reported *)
  st_render : Acc -> str;
  st_exit : bool -> option nat             (* the assignment to process.exitCode *)
}.

(** [getPRDiff]: a failed listing is logged and gives the empty list. *)
Definition getPRDiff (S : Stack) (w : World) : list PRFile :=
  match listFiles w with
  | Ok files => filter (st_matches S) files
  | Throw _ => []
  end.

(** The body of the per-file [try]; a [Throw] is what the [catch] sees.
    The accumulators are shared mutable arrays: what was pushed before an
    exception stays pushed, so the state is returned on both paths. *)
Definition process_body (S : Stack) (w : World) (file : PRFile) (a : Acc)
  : Acc * result unit :=
  let a := log (EvGetContent (filename file)) a in
  match getContent w (filename file) with
  | Throw e => (a, Throw e)
  | Ok content =>
      let a := log (EvEvaluate file) a in
      match st_analyze S content (filename file) with
      | Throw e => (a, Throw e)
      | Ok an =>
          let a :=
            if 0 <? length (critical an)
            then mkAcc (allCritical a ++ [(filename file, critical an)])
                       (allSuggestions a) (aiReviews a) (trace a)
            else a in
          let a :=
            if 0 <? length (suggestions an)
            then mkAcc (allCritical a)
                       (allSuggestions a ++ [(filename file, suggestions an)])
                       (aiReviews a) (trace a)
            else a in
          match patch file with
          | Some p =>
              if truthy_opt (GROQ_API_KEY w) && truthy p && (50 <? length p)
              then
                let patchPreview := slice 0 (st_patch_limit S) p in
                let prompt := st_prompt S (filename file) patchPreview in
                let a := log (EvCompletion (mkChat (st_persona S) [] prompt)) a in
                let aiReview := callGroqAI w (st_persona S) prompt in
                let a :=
                  match aiReview with
                  | Some r =>
                      if st_keep S aiReview
                      then mkAcc (allCritical a) (allSuggestions a)
                                 (aiReviews a ++ [(filename file, r)]) (trace a)
                      else a
                  | None => a
                  end in
                (a, Ok tt)
              else (a, Ok tt)
          | None => (a, Ok tt)
          end
      end
  end.

(** One iteration of the loop: the [catch] only logs. *)
Definition process_file (S : Stack) (w : World) (file : PRFile) (a : Acc) : Acc :=
  fst (process_body S w file a).

Definition process_all (S : Stack) (w : World) (files : list PRFile) (a : Acc)
  : Acc :=
  fold_left (fun a file => process_file S w file a) files a.

Definition hasCritical (a : Acc) : bool := 0 <? length (allCritical a).

(** [allCritical.reduce((sum, f) => sum + f.issues.length, 0)]. *)
Definition totalCritical (a : Acc) : nat :=
  fold_left (fun sum f => sum + length (snd f)) (allCritical a) 0.

(** The outcome of a reviewer process. *)
Record Run : Type := mkRun {
  exitCode : option nat;             (* process.exitCode; unset is [None] *)
  report : option Acc;               (* the accumulators, when the loop ran *)
  events : list event
}.

(** The status the parent process sees. *)
Definition exit_status (r : Run) : nat :=
  match exitCode r with Some c => c | None => 0 end.

Definition reviewPR (S : Stack) (w : World) : Run :=
  if negb (truthy_num (PR_NUMBER w)) then mkRun None None [] else
  let files := getPRDiff S w in
  if length files =? 0 then mkRun None None [EvListFiles] else
  let a := process_all S w (slice 0 (st_batch S) files) (acc0 [EvListFiles]) in
  let comment := st_render S a in
  (* postReviewComment catches a failed request *)
  let a := log (EvCreateComment comment) a in
  mkRun (st_exit S (hasCritical a)) (Some a) (trace a).

(** The number of critical findings a run gathered. *)
Definition criticalCount (r : Run) : nat :=
  match report r with Some a => totalCritical a | None => 0 end.

(** ** Report composition *)

(** A template chunk that ends a line. *)
Definition ln (s : string) : str := txt s ++ [nl].

(** The [AI Deep Analysis] section, the same in the three scripts. *)
Definition render_ai (a : Acc) : str :=
  if 0 <? length (aiReviews a) then
    ln "### 🧠 AI Deep Analysis" ++ [nl] ++
    flat_map (fun fr =>
      txt "<details><summary>📄 " ++ fst fr ++ ln "</summary>" ++ [nl] ++
      snd fr ++ [nl; nl] ++ ln "</details>" ++ [nl]) (aiReviews a)
  else [].

Module LaravelReport.

Definition issue_line (i : Issue) : str :=
  txt "- **Line " ++ num (i_line i) ++ txt "**: " ++ i_message i ++ [nl].

Definition render (a : Acc) : str :=
  ln "## 🤖 Laravel Security Review" ++ [nl] ++
  (if hasCritical a then
     txt "⛔ **Found " ++ num (totalCritical a) ++
     ln " CRITICAL issue(s) that must be fixed before merge**" ++ [nl]
   else []) ++
  (if 0 <? length (allCritical a) then
     ln "### ⛔ Critical Issues" ++ [nl] ++
     flat_map (fun fi =>
       txt "#### 📄 " ++ fst fi ++ [nl] ++
       flat_map issue_line (snd fi) ++ [nl]) (allCritical a)
   else []) ++
  render_ai a ++
  (if (length (allCritical a) =? 0) && (length (aiReviews a) =? 0) then
     ln "✅ **No security or critical issues detected**" ++ [nl] ++
     ln "Code review passed automated checks." ++ [nl]
   else []) ++
  [nl] ++ ln "---" ++
  txt "*💬 Ask questions with `@ai-reviewer [your question]` in comments*".

Definition prompt (file patchPreview : str) : str :=
  txt "File: " ++ file ++ [nl; nl] ++
  ln "Code changes:" ++ ln "```diff" ++ patchPreview ++ [nl] ++ ln "```" ++ [nl] ++
  txt "Review ONLY the changed lines above. Report only if you are 100% certain of a critical security or correctness bug.".

(** [aiReview && !aiReview.includes('None') && !aiReview.includes('No issues')]. *)
Definition keep (aiReview : option str) : bool :=
  match aiReview with
  | Some r => truthy r && negb (includes r (txt "None"))
              && negb (includes r (txt "No issues"))
  | None => false
  end.

(* /\.php$/ *)
Definition re_php : regex := lit ".php" >> Eol.

Definition matches (f : PRFile) : bool :=
  test re_php (filename f) && negb (str_eqb (status f) (txt "removed")) &&
  negb (includes (filename f) (txt "vendor/")) &&
  negb (includes (filename f) (txt "node_modules/")).

(** [if (hasCritical) process.exitCode = 1]. *)
Definition set_exit (failed : bool) : option nat :=
  if failed then Some 1 else None.

Definition stack : Stack :=
  mkStack LaravelReviewPersona matches 8 3000
          (fun content file => Ok (Laravel.analyzeCode content file))
          prompt keep render set_exit.

End LaravelReport.

Module SwiftReport.

Definition issue_line (i : Issue) : str :=
  txt "- **Line " ++ num (i_line i) ++ txt "** [" ++ i_type i ++ txt "]: " ++
  i_message i ++ [nl].

Definition suggestion_line (file : str) (s : Suggestion) : str :=
  txt "- **" ++ file ++ txt ":" ++ num (s_line s) ++ txt "** - " ++
  s_category s ++ txt ": " ++ s_message s ++ [nl].

Definition render (a : Acc) : str :=
  ln "## 🍎 Swift/iOS Code Review" ++ [nl] ++
  (if hasCritical a then
     txt "⛔ **Found " ++ num (totalCritical a) ++
     ln " CRITICAL issue(s) that must be fixed**" ++ [nl]
   else []) ++
  (if 0 <? length (allCritical a) then
     ln "### ⛔ Critical Issues" ++ [nl] ++
     flat_map (fun fi =>
       txt "#### 📄 " ++ fst fi ++ [nl] ++
       flat_map issue_line (snd fi) ++ [nl]) (allCritical a)
   else []) ++
  render_ai a ++
  (if 0 <? length (allSuggestions a) then
     ln "### 💡 Suggestions" ++ [nl] ++
     flat_map (fun fs => flat_map (suggestion_line (fst fs)) (snd fs))
              (allSuggestions a) ++ [nl]
   else []) ++
  (if negb (hasCritical a) && (length (aiReviews a) =? 0) then
     ln "✅ **No critical issues detected**" ++ [nl]
   else []) ++
  ln "---" ++ txt "*💬 Ask questions with `@ai-reviewer [your question]`*".

Definition prompt (file patchPreview : str) : str :=
  txt "File: " ++ file ++ [nl; nl] ++
  ln "Changed lines:" ++ ln "```diff" ++ patchPreview ++ [nl] ++ ln "```" ++ [nl] ++
  txt "Review only the diff above. Report definite issues (safety, memory, concurrency).".

(* /None/i *)
Definition re_none : regex := lit_ci "None".

(** [ai && !/None/i.test(ai)]. *)
Definition keep (ai : option str) : bool :=
  match ai with
  | Some r => truthy r && negb (test re_none r)
  | None => false
  end.

(* /\.swift$/, /Pods\//, /Carthage\//, /\.build\//, /DerivedData\// *)
Definition re_swift : regex := lit ".swift" >> Eol.

Definition matches (f : PRFile) : bool :=
  test re_swift (filename f) && negb (str_eqb (status f) (txt "removed")) &&
  negb (test (lit "Pods/") (filename f)) &&
  negb (test (lit "Carthage/") (filename f)) &&
  negb (test (lit ".build/") (filename f)) &&
  negb (test (lit "DerivedData/") (filename f)).

(** [process.exitCode = hasCritical ? 1 : 0]. *)
Definition set_exit (failed : bool) : option nat :=
  Some (if failed then 1 else 0).

Definition stack : Stack :=
  mkStack SwiftReviewPersona matches 10 3000
          (fun content file => Ok (Swift.analyzeCode content file))
          prompt keep render set_exit.

End SwiftReport.

Module ReactReport.

Definition issue_line (i : Issue) : str :=
  txt "- **Line " ++ num (i_line i) ++ txt "** [" ++ i_type i ++ txt "]: " ++
  i_message i ++ [nl].

(** An entry of [categorizedSuggestions[category]]. *)
Record Item : Type := mkItem {
  it_file : str;
  it_line : nat;
  it_message : str;
  it_priority : str
}.

(** [suggestion.priority || 'medium']. *)
Definition priority_of (s : Suggestion) : str :=
  match s_priority s with
  | Some p => if truthy p then p else txt "medium"
  | None => txt "medium"
  end.

(** [categorizedSuggestions]: an object used as a map from category to an
    array; its keys are enumerated in insertion order (the categories of the
    evaluator are no array indices and no members of [Object.prototype]). *)
Fixpoint add_item (category : str) (it : Item) (o : list (str * list Item))
  : list (str * list Item) :=
  match o with
  | [] => [(category, [it])]
  | (c, its) :: o' =>
      if str_eqb c category then (c, its ++ [it]) :: o'
      else (c, its) :: add_item category it o'
  end.

Definition categorize (all : list (str * list Suggestion))
  : list (str * list Item) :=
  fold_left (fun o fs =>
    fold_left (fun o s =>
      add_item (s_category s)
               (mkItem (fst fs) (s_line s) (s_message s) (priority_of s)) o)
      (snd fs) o) all [].

(** The numbers of the comparator: [priorityOrder[p]] is [undefined] for an
    unknown [p], which makes [Math.min] give [NaN]. *)
Inductive jsnum : Type := Num (n : nat) | Infinity | NaN.

Definition priorityOrder (p : str) : jsnum :=
  if str_eqb p (txt "high") then Num 0
  else if str_eqb p (txt "medium") then Num 1
  else if str_eqb p (txt "low") then Num 2
  else NaN.

Definition js_min (a b : jsnum) : jsnum :=
  match a, b with
  | NaN, _ | _, NaN => NaN
  | Infinity, x | x, Infinity => x
  | Num x, Num y => Num (Nat.min x y)
  end.

(** [Math.min(...items.map(s => priorityOrder[s.priority]))]. *)
Definition min_priority (items : list Item) : jsnum :=
  fold_left js_min (map (fun s => priorityOrder (it_priority s)) items) Infinity.

(** [aPriority - bPriority < 0]. *)
Definition before (a b : jsnum) : bool :=
  match a, b with
  | Num x, Num y => x <? y
  | Num _, Infinity => true
  | _, _ => false
  end.

(** [Array.prototype.sort] is stable: an entry moves only before entries
    the comparator puts strictly after it. *)
Fixpoint insert_sorted (x : str * list Item) (l : list (str * list Item))
  : list (str * list Item) :=
  match l with
  | [] => [x]
  | y :: l' =>
      if before (min_priority (snd y)) (min_priority (snd x))
      then y :: insert_sorted x l'
      else x :: y :: l'
  end.

Definition sortedCategories (o : list (str * list Item))
  : list (str * list Item) :=
  fold_right insert_sorted [] o.

Definition item_line (mark : string) (i : Item) : str :=
  txt "- " ++ txt mark ++ txt " **" ++ it_file i ++ txt ":" ++ num (it_line i) ++
  txt "** - " ++ it_message i ++ [nl].

Definition with_priority (p : string) (items : list Item) : list Item :=
  filter (fun i => str_eqb (it_priority i) (txt p)) items.

Definition render_category (c : str * list Item) : str :=
  txt "#### " ++ fst c ++ [nl; nl] ++
  flat_map (item_line "⚠️") (with_priority "high" (snd c)) ++
  flat_map (item_line "🔸") (with_priority "medium" (snd c)) ++
  flat_map (item_line "💭") (with_priority "low" (snd c)) ++
  [nl].

Definition render_suggestions (a : Acc) : str :=
  if 0 <? length (allSuggestions a) then
    ln "### 💡 Best Practice Suggestions" ++ [nl] ++
    ln "<details><summary>Click to view React/JavaScript best practices and performance tips</summary>"
    ++ [nl] ++
    flat_map render_category (sortedCategories (categorize (allSuggestions a))) ++
    ln "</details>" ++ [nl]
  else [].

Definition render (a : Acc) : str :=
  ln "## 🤖 React/JavaScript Code Review" ++ [nl] ++
  (if hasCritical a then
     txt "⛔ **Found " ++ num (totalCritical a) ++
     ln " CRITICAL issue(s) that must be fixed**" ++ [nl]
   else []) ++
  (if 0 <? length (allCritical a) then
     ln "### ⛔ Critical Issues" ++ [nl] ++
     flat_map (fun fi =>
       txt "#### 📄 " ++ fst fi ++ [nl] ++
       flat_map issue_line (snd fi) ++ [nl]) (allCritical a)
   else []) ++
  render_ai a ++
  render_suggestions a ++
  (if (length (allCritical a) =? 0) && (length (aiReviews a) =? 0) then
     ln "✅ **No critical issues detected**" ++ [nl] ++
     ln "Code review passed automated checks." ++ [nl]
   else []) ++
  ln "---" ++
  ln "**Priority Legend:** ⚠️ High | 🔸 Medium | 💭 Low" ++ [nl] ++
  txt "*💬 Ask questions with `@ai-reviewer [your question]` in comments*".

Definition prompt (file patchPreview : str) : str :=
  txt "File: " ++ file ++ [nl; nl] ++
  ln "Code changes:" ++ ln "```diff" ++ patchPreview ++ [nl] ++ ln "```" ++ [nl] ++
  txt "Review ONLY the changed lines. Focus on React 18+ patterns, hooks best practices, and performance. Report only definite bugs.".

(** [aiReview && !aiReview.includes('None') && !aiReview.includes('No issues')]. *)
Definition keep (aiReview : option str) : bool :=
  match aiReview with
  | Some r => truthy r && negb (includes r (txt "None"))
              && negb (includes r (txt "No issues"))
  | None => false
  end.

(* /\.(jsx?|tsx?)$/ *)
Definition re_js : regex := lit "." >> React.re_js_ext >> Eol.

Definition matches (f : PRFile) : bool :=
  test re_js (filename f) && negb (str_eqb (status f) (txt "removed")) &&
  negb (includes (filename f) (txt "node_modules/")) &&
  negb (includes (filename f) (txt "dist/")) &&
  negb (includes (filename f) (txt "build/")).

(** [if (hasCritical) process.exitCode = 1]. *)
Definition set_exit (failed : bool) : option nat :=
  if failed then Some 1 else None.

Definition stack : Stack :=
  mkStack ReactReviewPersona matches 10 3500 React.analyzeCode
          prompt keep render set_exit.

End ReactReport.

(** ** The dispatchers ([scripts/dispatcher.js],
    [scripts/comment-dispatcher.js]) *)

(** What [spawnSync] returns: a status ([None] when a signal ended the
    child), unless the call itself throws. *)
Inductive spawned : Type :=
| Exited (status : option nat)
| SpawnThrows.

(** The event payload named by [GITHUB_EVENT_PATH]. *)
Inductive EventSource : Type :=
| NoEventPath
| EventUnreadable                      (* the read or [JSON.parse] throws *)
| EventNull                            (* the payload is the value [null] *)
| EventPayload (number : option nat).  (* [event?.pull_request?.number] *)

Record Env : Type := mkEnv {
  LANGUAGES : option str;
  event_source : EventSource
}.

(** The child processes: the status of each, and what it did. *)
Definition Children : Type := scriptval -> spawned * list event.

(** [process.env.LANGUAGES || 'auto']. *)
Definition languages_or_auto (e : Env) : str :=
  match LANGUAGES e with
  | Some s => if truthy s then s else txt "auto"
  | None => txt "auto"
  end.

Definition parseLanguages (input : str) : list str :=
  if negb (truthy input) || str_eqb (trim input) []
     || str_eqb (toLowerCase (trim input)) (txt "auto")
  then [txt "auto"]
  else filter truthy (map (fun s => toLowerCase (trim s)) (split_on "," input)).

(** [Array.prototype.includes] on an array of strings. *)
Definition includes_str (l : list str) (x : str) : bool :=
  existsb (str_eqb x) l.

(** The property names every object inherits. *)
Definition prototype_members : list str :=
  map txt ["constructor"; "__proto__"; "hasOwnProperty"; "isPrototypeOf";
           "propertyIsEnumerable"; "toLocaleString"; "toString"; "valueOf";
           "__defineGetter__"; "__defineSetter__"; "__lookupGetter__";
           "__lookupSetter__"]%string.

Fixpoint own_property (table : list (str * Script)) (name : str)
  : option Script :=
  match table with
  | [] => None
  | (k, v) :: t => if str_eqb k name then Some v else own_property t name
  end.

(** [scriptMap[name]]. *)
Definition scriptMap_get (table : list (str * Script)) (name : str)
  : option scriptval :=
  match own_property table name with
  | Some s => Some (ScriptPath s)
  | None =>
      if includes_str prototype_members name then Some (Inherited name)
      else None
  end.

(** [runScript]: [if (!path) return 0], else the status of the child. *)
Definition runScript (table : list (str * Script)) (spawnSync : Children)
  (name : str) : result nat * list event :=
  match scriptMap_get table name with
  | None => (Ok 0, [])
  | Some path =>
      match spawnSync path with
      | (Exited (Some c), evs) => (Ok c, EvSpawn path :: evs)
      | (Exited None, evs) => (Ok 0, EvSpawn path :: evs)
      | (SpawnThrows, evs) => (Throw TypeError, EvSpawn path :: evs)
      end
  end.

(** [for (const lang of toRun) { code = runScript(lang);
    if (code !== 0) fail = code; }]. *)
Fixpoint run_all (table : list (str * Script)) (spawnSync : Children)
  (toRun : list str) (fail : nat) : result nat * list event :=
  match toRun with
  | [] => (Ok fail, [])
  | lang :: more =>
      match runScript table spawnSync lang with
      | (Ok code, evs) =>
          let (r, evs') :=
            run_all table spawnSync more (if code =? 0 then fail else code) in
          (r, evs ++ evs')
      | (Throw e, evs) => (Throw e, evs)
      end
  end.

Module Dispatcher.

Definition scriptMap : list (str * Script) :=
  [(txt "react", ReactReviewer); (txt "laravel", LaravelReviewer)].

Definition detectLanguagesFromPR (e : Env) : list str :=
  match event_source e with
  | EventUnreadable => []
  | NoEventPath => []
  | EventNull => []
  | EventPayload prNumber =>
      if negb (truthy_num prNumber) then []
      else [txt "react"; txt "laravel"]
  end.

(** The stacks the run will start. *)
Definition toRun (e : Env) : list str :=
  let langsInput := parseLanguages (languages_or_auto e) in
  let toRun :=
    if includes_str langsInput (txt "auto") then detectLanguagesFromPR e
    else langsInput in
  if length toRun =? 0 then [txt "react"] else toRun.

(** The exit code of the dispatcher, or the exception that leaves it. *)
Definition main (e : Env) (spawnSync : Children) : result nat * list event :=
  run_all scriptMap spawnSync (toRun e) 0.

End Dispatcher.

Module CommentDispatcher.

Definition scriptMap : list (str * Script) :=
  [(txt "react", ReactCommentHandler); (txt "laravel", LaravelCommentHandler)].

Definition toRun (e : Env) : list str :=
  let langs := parseLanguages (languages_or_auto e) in
  if includes_str langs (txt "auto") then [txt "react"; txt "laravel"]
  else langs.

(** [posted] is assigned and never read. *)
Definition main (e : Env) (spawnSync : Children) : result nat * list event :=
  run_all scriptMap spawnSync (toRun e) 0.

End CommentDispatcher.

(** ** The comment handlers *)

(** [comment.replace(/@ai-reviewer/gi, '')]: every occurrence, left to
    right, without regard to case.  [skip] counts the units of the current
    occurrence still to drop. *)
Fixpoint startsWith_ci (s p : str) : bool :=
  match p, s with
  | [], _ => true
  | _ :: _, [] => false
  | c :: p', d :: s' => ci c d && startsWith_ci s' p'
  end.

Fixpoint strip_mentions (skip : nat) (s : str) : str :=
  match s with
  | [] => []
  | c :: s' =>
      match skip with
      | S k => strip_mentions k s'
      | O =>
          if startsWith_ci s (txt "@ai-reviewer")
          then strip_mentions 11 s'
          else c :: strip_mentions 0 s'
      end
  end.

Definition extractQuestion (comment : str) : str :=
  trim (strip_mentions 0 comment).

(** [process.env.COMMENT_BODY || '']. *)
Definition comment_body (w : World) : str :=
  match COMMENT_BODY w with Some s => s | None => [] end.

Definition no_key_message : str :=
  txt "⚠️ GROQ_API_KEY not configured. Add it to GitHub Secrets to enable AI responses.".
Definition service_error_message : str := txt "❌ Error communicating with AI service".
Definition no_answer_message : str := txt "❌ Unable to get AI response".
Definition error_message : str := txt "❌ Error communicating with AI".

(** [askAI]: always a string.  Only the React handler tests
    [response.ok]. *)
Definition askAI (check_ok : bool) (p : Persona) (w : World)
  (question context : str) : str * list event :=
  if negb (truthy_opt (GROQ_API_KEY w)) then (no_key_message, []) else
  let req := mkChat p context question in
  (match fetch w req with
   | NetworkError => error_message
   | Response ok body =>
       if check_ok && negb ok then service_error_message else
       match first_content body with
       | Ok (Some c) => if truthy c then c else no_answer_message
       | Ok None => no_answer_message
       | Throw _ => error_message
       end
   end, [EvCompletion req]).

(** [postReply]: one request; its failure is caught and logged. *)
Definition postReply (body : str) : list event := [EvCreateComment body].

Module ReactHandler.

Definition help : str :=
  ln "👋 Hi! I'm the AI code reviewer. Ask me anything about this React/JavaScript code!" ++ [nl] ++
  ln "**Examples:**" ++
  ln "- `@ai-reviewer explain this hook pattern`" ++
  ln "- `@ai-reviewer how can I improve performance?`" ++
  ln "- `@ai-reviewer is this the best way to handle state?`" ++
  ln "- `@ai-reviewer what's wrong with this useEffect?`" ++
  ln "- `@ai-reviewer suggest alternatives for this component`" ++ [nl] ++
  txt "I'm familiar with React 18+, TypeScript, modern hooks, and performance optimization.".

(* /\b[\w-]+\.(jsx?|tsx?)\b/, the whole match *)
Definition filePattern : regex :=
  Grp (Wordb >> plus (Chr (fun c => is_word c || only "-" c)) >> lit "." >>
       React.re_js_ext >> Wordb).

Definition detectFileName (question : str) : option str :=
  match exec filePattern question with
  | Some (Some m0) => Some m0
  | _ => None
  end.

Definition getPRContext (w : World) : str * list event :=
  match pullsGet w with
  | Throw _ => ([], [EvPullsGet])
  | Ok (title, body) =>
      match listFiles w with
      | Throw _ => ([], [EvPullsGet; EvListFiles])
      | Ok files =>
          let jsFiles := slice 0 5 (filter (fun f => test ReactReport.re_js (filename f)) files) in
          let context := txt "PR: " ++ title ++ [nl] in
          let context :=
            match body with
            | Some b => if truthy b
                        then context ++ txt "Description: " ++ slice 0 300 b ++ [nl]
                        else context
            | None => context
            end in
          let context :=
            context ++ [nl] ++ txt "Changed files (" ++ num (length files) ++ ln " total):" in
          let context :=
            context ++ flat_map (fun f =>
              txt "- " ++ filename f ++ txt " (" ++ num (additions f) ++ txt "+ " ++
              num (deletions f) ++ ln "-)") jsFiles in
          let context :=
            match jsFiles with
            | f0 :: _ =>
                if truthy_opt (patch f0) then
                  context ++ [nl; nl] ++ txt "Code sample from " ++ filename f0 ++ ln ":" ++
                  ln "```" ++ slice 0 800 (match patch f0 with Some p => p | None => [] end) ++
                  [nl] ++ txt "```"
                else context
            | [] => context
            end in
          (context, [EvPullsGet; EvListFiles])
      end
  end.

Definition reply (answer : str) : str :=
  ln "### 🤖 AI Reviewer Response (React)" ++ [nl] ++
  answer ++ [nl; nl] ++ ln "---" ++
  txt "*Have more questions? Just mention `@ai-reviewer` followed by your question!*".

Definition handleComment (w : World) : list event :=
  let question := extractQuestion (comment_body w) in
  if negb (truthy question) then postReply help else
  let mentionedFile := detectFileName question in
  let '(fileContent, evs1) :=
    match mentionedFile with
    | Some path =>
        match getContent w path with
        | Ok content => (Some (slice 0 2000 content), [EvGetContent path])
        | Throw _ => (None, [EvGetContent path])
        end
    | None => (None, [])
    end in
  let (context, evs2) := getPRContext w in
  let fullContext :=
    match fileContent, mentionedFile with
    | Some c, Some path =>
        if truthy c then
          context ++ [nl; nl] ++ txt "File content (" ++ path ++ ln "):" ++
          ln "```" ++ c ++ [nl] ++ txt "```"
        else context
    | _, _ => context
    end in
  let (answer, evs3) := askAI true ReactChatPersona w question fullContext in
  evs1 ++ evs2 ++ evs3 ++ postReply (reply answer).

End ReactHandler.

Module LaravelHandler.

Definition help : str :=
  ln "👋 Mention `@ai-reviewer` followed by your question!" ++ [nl] ++
  ln "Examples:" ++
  ln "- @ai-reviewer explain this eloquent query" ++
  ln "- @ai-reviewer how can I prevent SQL injection here?" ++
  txt "- @ai-reviewer is this the best approach for validation?".

Definition getPRContext (w : World) : str * list event :=
  match pullsGet w with
  | Throw _ => ([], [EvPullsGet])
  | Ok (title, body) =>
      match listFiles w with
      | Throw _ => ([], [EvPullsGet; EvListFiles])
      | Ok files =>
          let phpFiles := slice 0 3 (filter (fun f => test LaravelReport.re_php (filename f)) files) in
          let context := txt "PR: " ++ title ++ [nl] in
          let context :=
            match body with
            | Some b => if truthy b
                        then context ++ txt "Description: " ++ slice 0 200 b ++ [nl]
                        else context
            | None => context
            end in
          (context ++ [nl] ++ txt "Changed files: " ++
           join (txt ", ") (map filename phpFiles),
           [EvPullsGet; EvListFiles])
      end
  end.

Definition reply (answer : str) : str :=
  txt "**@ai-reviewer (Laravel):** " ++ answer ++ [nl; nl] ++ ln "---" ++
  txt "*Ask me anything by mentioning @ai-reviewer*".

Definition handleComment (w : World) : list event :=
  let question := extractQuestion (comment_body w) in
  if negb (truthy question) then postReply help else
  let (context, evs1) := getPRContext w in
  let (answer, evs2) := askAI false LaravelChatPersona w question context in
  evs1 ++ evs2 ++ postReply (reply answer).

End LaravelHandler.

Module SwiftHandler.

Definition help : str :=
  ln "👋 Mention `@ai-reviewer` followed by your question!" ++ [nl] ++
  ln "Examples:" ++
  ln "- @ai-reviewer is this retain cycle safe?" ++
  ln "- @ai-reviewer should this be async/await?" ++
  txt "- @ai-reviewer is force unwrap here safe?".

Definition getPRContext (w : World) : str * list event :=
  match pullsGet w with
  | Throw _ => ([], [EvPullsGet])
  | Ok (title, body) =>
      match listFiles w with
      | Throw _ => ([], [EvPullsGet; EvListFiles])
      | Ok files =>
          let swiftFiles := slice 0 5 (filter (fun f => test SwiftReport.re_swift (filename f)) files) in
          let context := txt "PR: " ++ title ++ [nl] in
          let context :=
            match body with
            | Some b => if truthy b
                        then context ++ txt "Description: " ++ slice 0 300 b ++ [nl]
                        else context
            | None => context
            end in
          let context :=
            context ++ [nl] ++ txt "Changed Swift files (" ++ num (length swiftFiles) ++
            ln " shown):" in
          let context :=
            context ++ flat_map (fun f =>
              txt "- " ++ filename f ++ txt " (" ++ num (additions f) ++ txt "+ " ++
              num (deletions f) ++ ln "-)") swiftFiles in
          let context :=
            match swiftFiles with
            | f0 :: _ =>
                if truthy_opt (patch f0) then
                  context ++ [nl; nl] ++ txt "Code sample from " ++ filename f0 ++ ln ":" ++
                  ln "```" ++ slice 0 800 (match patch f0 with Some p => p | None => [] end) ++
                  [nl] ++ txt "```"
                else context
            | [] => context
            end in
          (context, [EvPullsGet; EvListFiles])
      end
  end.

Definition reply (answer : str) : str :=
  ln "### 🍎 iOS/Swift Reviewer" ++ [nl] ++ answer ++ [nl; nl] ++ ln "---" ++
  txt "*Ask more with `@ai-reviewer`*".

Definition handleComment (w : World) : list event :=
  let question := extractQuestion (comment_body w) in
  if negb (truthy question) then postReply help else
  let (context, evs1) := getPRContext w in
  let (answer, evs2) := askAI false SwiftChatPersona w question context in
  evs1 ++ evs2 ++ postReply (reply answer).

End SwiftHandler.

(** ** Whole runs: a dispatcher with its child processes

    A child is started in the environment of the dispatcher
    ([env: process.env]), so a reviewer reads the event payload the
    dispatcher read. *)

(** The head of a reviewer script, run when the module loads and outside
    any [try]:
    [PR_NUMBER = process.env.GITHUB_EVENT_PATH
       ? JSON.parse(fs.readFileSync(...)).pull_request?.number : null].
    The read and the parse throw on a file that cannot be read or parsed;
    the access to [pull_request] throws on the value [null]. *)
Definition load_PR_NUMBER (src : EventSource) : result (option nat) :=
  match src with
  | NoEventPath => Ok None
  | EventUnreadable => Throw TypeError
  | EventNull => Throw TypeError
  | EventPayload number => Ok number
  end.

Definition with_PR_NUMBER (number : option nat) (w : World) : World :=
  mkWorld (GROQ_API_KEY w) number (COMMENT_BODY w) (listFiles w) (pullsGet w)
          (getContent w) (fetch w) (createComment w).

(** A reviewer script as a process.  An exception while the module loads
    is not caught: the process ends with status 1 before any request.
    Otherwise [reviewPR] runs with the number that was read. *)
Definition reviewer (S : Stack) (src : EventSource) (w : World) : Run :=
  match load_PR_NUMBER src with
  | Throw _ => mkRun (Some 1) None []
  | Ok number => reviewPR S (with_PR_NUMBER number w)
  end.

(** The children of the dispatchers.  A child that is a script of this
    repository is the model of that script; what [node] does with a value
    that is no path of the table is left to [other]. *)
Definition review_children (e : Env) (w : World) (other : Children) : Children :=
  fun v =>
    match v with
    | ScriptPath ReactReviewer =>
        let r := reviewer ReactReport.stack (event_source e) w in
        (Exited (Some (exit_status r)), events r)
    | ScriptPath LaravelReviewer =>
        let r := reviewer LaravelReport.stack (event_source e) w in
        (Exited (Some (exit_status r)), events r)
    | _ => other v
    end.

Definition comment_children (w : World) (other : Children) : Children :=
  fun v =>
    match v with
    | ScriptPath ReactCommentHandler =>
        (Exited (Some 0), ReactHandler.handleComment w)
    | ScriptPath LaravelCommentHandler =>
        (Exited (Some 0), LaravelHandler.handleComment w)
    | _ => other v
    end.

(** The replies a run asked the host to publish. *)
Definition replies (evs : list event) : list str :=
  flat_map (fun e => match e with EvCreateComment b => [b] | _ => [] end) evs.

(** ** Specification side

    What a match is, stated as a relation; the matcher above is proved to
    compute it. *)

Inductive Matches : regex -> mstate -> mstate -> Prop :=
| M_Eps st : Matches Eps st st
| M_Chr p c s' pv cp :
    p c = true ->
    Matches (Chr p) (MState pv (c :: s') cp) (MState (Some c) s' cp)
| M_Cat r1 r2 st st1 st2 :
    Matches r1 st st1 -> Matches r2 st1 st2 -> Matches (Cat r1 r2) st st2
| M_AltL r1 r2 st st' : Matches r1 st st' -> Matches (Alt r1 r2) st st'
| M_AltR r1 r2 st st' : Matches r2 st st' -> Matches (Alt r1 r2) st st'
| M_Star0 r st : Matches (Star r) st st
| M_StarS r st st1 st2 :
    Matches r st st1 -> length (rest st1) < length (rest st) ->
    Matches (Star r) st1 st2 -> Matches (Star r) st st2
| M_Bol st : prev st = None -> Matches Bol st st
| M_Eol st : rest st = [] -> Matches Eol st st
| M_Wordb st :
    xorb (word_before st) (word_after st) = true -> Matches Wordb st st
| M_Grp r st st' :
    Matches r st st' ->
    Matches (Grp r) st (MState (prev st') (rest st') (Some (consumed st st'))).

(** The unit before the position reached after reading [w]. *)
Definition last_opt (w : str) (d : option ascii) : option ascii :=
  match rev w with
  | c :: _ => Some c
  | [] => d
  end.

(** A pattern without a capture group. *)
Fixpoint nogrp (r : regex) : bool :=
  match r with
  | Cat r1 r2 | Alt r1 r2 => nogrp r1 && nogrp r2
  | Star r' => nogrp r'
  | Grp _ => false
  | _ => true
  end.

(** [sub] occurs in [s]. *)
Definition occurs (sub s : str) : Prop := exists a b, s = a ++ sub ++ b.

(** [sub] occurs in [s] up to the case of letters. *)
Definition occurs_ci (sub s : str) : Prop :=
  exists a x b, s = a ++ x ++ b /\ toLowerCase x = toLowerCase sub.

(** The three stack profiles. *)
Inductive StackName : Type := react | laravel | swift.

Definition stack_of (n : StackName) : Stack :=
  match n with
  | react => ReactReport.stack
  | laravel => LaravelReport.stack
  | swift => SwiftReport.stack
  end.

(** [evaluate(profile, filePath, content)]. *)
Definition evaluate (n : StackName) (filePath content : str) : result Analysis :=
  st_analyze (stack_of n) content filePath.

(** The exclusion predicate of a profile: the guard of its [analyzeCode]. *)
Definition excluded_by (n : StackName) (filePath : str) : bool :=
  match n with
  | react => React.excluded filePath
  | laravel => Laravel.excluded filePath
  | swift => Swift.excluded filePath
  end.

(** The files a run reviews: the matching files, up to the batch limit. *)
Definition reviewed (S : Stack) (w : World) : list PRFile :=
  slice 0 (st_batch S) (getPRDiff S w).

(** The completion request a reviewer sends for a file. *)
Definition review_request (S : Stack) (f : PRFile) : ChatRequest :=
  mkChat (st_persona S) []
    (st_prompt S (filename f)
       (slice 0 (st_patch_limit S) (match patch f with Some p => p | None => [] end))).

(** An event that concerns one changed file: its content fetch, its
    evaluation, or its completion request. *)
Definition file_event (e : event) : Prop :=
  match e with
  | EvGetContent _ | EvEvaluate _ | EvCompletion _ => True
  | _ => False
  end.

Definition event_of_file (S : Stack) (f : PRFile) (e : event) : Prop :=
  e = EvGetContent (filename f) \/ e = EvEvaluate f \/
  e = EvCompletion (review_request S f).

(** The analysis of a file, when its content arrives and the evaluator
    returns. *)
Definition file_analysis (S : Stack) (w : World) (f : PRFile) : option Analysis :=
  match getContent w (filename f) with
  | Ok content =>
      match st_analyze S content (filename f) with
      | Ok an => Some an
      | Throw _ => None
      end
  | Throw _ => None
  end.

(** Whether the completion endpoint is asked about a file. *)
Definition asks_ai (w : World) (f : PRFile) : bool :=
  match patch f with
  | Some p => truthy_opt (GROQ_API_KEY w) && truthy p && (50 <? length p)
  | None => false
  end.



(** The findings part of the accumulators. *)
Definition findings (a : Acc)
  : list (str * list Issue) * list (str * list Suggestion) * list (str * str) :=
  (allCritical a, allSuggestions a, aiReviews a).



(** The event payload makes a reviewer script end while it loads. *)
Definition crashes_at_load (src : EventSource) : Prop :=
  src = EventUnreadable \/ src = EventNull.



(** The handler a registered name stands for. *)
Definition handler_runs (names : list str) : nat :=
  length (filter (fun name =>
    match own_property CommentDispatcher.scriptMap name with
    | Some _ => true
    | None => false
    end) names).

Definition not_inherited (names : list str) : Prop :=
  Forall (fun name => includes_str prototype_members name = false) names.

(** Auto mode. *)
Definition auto_mode (e : Env) : Prop :=
  includes_str (parseLanguages (languages_or_auto e)) (txt "auto") = true.




(** The fallback answers of [askAI]. *)
Definition fallbacks : list str :=
  [no_key_message; service_error_message; no_answer_message; error_message].

(** No completion text can be had for a request. *)
Definition no_answer (w : World) (req : ChatRequest) : Prop :=
  truthy_opt (GROQ_API_KEY w) = false \/
  fetch w req = NetworkError \/
  exists ok body, fetch w req = Response ok body /\
    (first_content body = Ok None \/ first_content body = Ok (Some []) \/
     exists e, first_content body = Throw e).

(** A handler answers once: one reply, the help text for an empty
    question, otherwise the reply template around a non-empty answer.
    Without a credential no completion request is made and the answer is a
    fallback message; with one, the handler makes one completion request,
    for the question, and the answer is a fallback message when that
    request got no completion text. *)
Definition answers_once (handle : World -> list event) (help : str)
  (reply : str -> str) (w : World) : Prop :=
  exists body, replies (handle w) = [body] /\
    (extractQuestion (comment_body w) = [] -> body = help) /\
    (extractQuestion (comment_body w) <> [] ->
       exists answer, body = reply answer /\ answer <> [] /\
         (truthy_opt (GROQ_API_KEY w) = false ->
            In answer fallbacks /\
            forall req, ~ In (EvCompletion req) (handle w)) /\
         (truthy_opt (GROQ_API_KEY w) = true ->
            exists req,
              In (EvCompletion req) (handle w) /\
              (forall req', In (EvCompletion req') (handle w) -> req' = req) /\
              user req = extractQuestion (comment_body w) /\
              (no_answer w req -> In answer fallbacks))).

(** An item is stored under a category of [categorizedSuggestions]. *)
Definition holds (o : list (str * list ReactReport.Item)) (c : str)
  (it : ReactReport.Item) : Prop :=
  exists items, In (c, items) o /\ In it items.

(** The item the React report keeps for a suggestion of a file. *)
Definition item_of (file : str) (s : Suggestion) : ReactReport.Item :=
  ReactReport.mkItem file (s_line s) (s_message s) (ReactReport.priority_of s).

(** The pushes of a loop over lines carry line numbers: they are in line
    order and lie in the window of [n] lines after line [lo]. *)
Definition in_lines {B} (key : B -> nat) (lo n : nat) (out : list B) : Prop :=
  Sorted.StronglySorted le (map key out) /\
  Forall (fun y => lo < key y /\ key y <= lo + n) out.

(** Every push made for the line of index [idx] carries its number. *)
Definition numbered {B} (key : B -> nat) (idx : nat) (out : list B) : Prop :=
  Forall (fun y => key y = idx + 1) out.

(** A line that is blank, or opens a line comment, once trimmed. *)
Definition comment_or_blank (line : str) : Prop :=
  trim line = [] \/ exists b, trim line = txt "//" ++ b.

(** What a run does for one file, in order: the content fetch; the
    evaluation when the content arrives; the completion request when the
    evaluation returns and the endpoint is asked. *)
Definition file_events (S : Stack) (w : World) (f : PRFile) : list event :=
  EvGetContent (filename f) ::
  match getContent w (filename f) with
  | Throw _ => []
  | Ok content =>
      EvEvaluate f ::
      match st_analyze S content (filename f) with
      | Throw _ => []
      | Ok _ => if asks_ai w f then [EvCompletion (review_request S f)] else []
      end
  end.

Definition is_fetch (e : event) : bool :=
  match e with EvGetContent _ => true | _ => false end.
Definition is_evaluation (e : event) : bool :=
  match e with EvEvaluate _ => true | _ => false end.
Definition is_completion (e : event) : bool :=
  match e with EvCompletion _ => true | _ => false end.

Definition count (p : event -> bool) (evs : list event) : nat :=
  length (filter p evs).

(** The pattern findings a file brings. *)
Definition critical_of (S : Stack) (w : World) (f : PRFile)
  : list (str * list Issue) :=
  match file_analysis S w f with
  | Some an => if 0 <? length (critical an) then [(filename f, critical an)] else []
  | None => []
  end.

Definition suggestions_of (S : Stack) (w : World) (f : PRFile)
  : list (str * list Suggestion) :=
  match file_analysis S w f with
  | Some an =>
      if 0 <? length (suggestions an) then [(filename f, suggestions an)] else []
  | None => []
  end.

(** The narrative a file brings. *)
Definition narrative_of (S : Stack) (w : World) (f : PRFile) : list (str * str) :=
  match file_analysis S w f with
  | Some _ =>
      if asks_ai w f then
        match callGroqAI w (st_persona S) (user (review_request S f)) with
        | Some r => if st_keep S (Some r) then [(filename f, r)] else []
        | None => []
        end
      else []
  | None => []
  end.

(** A run that reaches the loop. *)
Definition runs (S : Stack) (w : World) : bool :=
  truthy_num (PR_NUMBER w) && negb (length (getPRDiff S w) =? 0).

(** The file name extensions of a stack, and the directory names its file
    filter refuses. *)
Definition extensions (n : StackName) : list str :=
  match n with
  | react => [txt ".js"; txt ".jsx"; txt ".ts"; txt ".tsx"]
  | laravel => [txt ".php"]
  | swift => [txt ".swift"]
  end.

Definition refused_dirs (n : StackName) : list str :=
  match n with
  | react => [txt "node_modules/"; txt "dist/"; txt "build/"]
  | laravel => [txt "vendor/"; txt "node_modules/"]
  | swift => [txt "Pods/"; txt "Carthage/"; txt ".build/"; txt "DerivedData/"]
  end.

Definition has_extension (n : StackName) (name : str) : Prop :=
  exists a ext, In ext (extensions n) /\ name = a ++ ext.

(** The parts of a report: the block of a file under [Critical Issues] and
    the block of a narrative under [AI Deep Analysis]. *)
Definition issue_line_of (n : StackName) : Issue -> str :=
  match n with
  | react => ReactReport.issue_line
  | laravel => LaravelReport.issue_line
  | swift => SwiftReport.issue_line
  end.

Definition critical_block (n : StackName) (fi : str * list Issue) : str :=
  txt "#### 📄 " ++ fst fi ++ [nl] ++ flat_map (issue_line_of n) (snd fi) ++ [nl].

Definition narrative_block (fr : str * str) : str :=
  txt "<details><summary>📄 " ++ fst fr ++ ln "</summary>" ++ [nl] ++
  snd fr ++ [nl; nl] ++ ln "</details>" ++ [nl].

(** The finding of rule 1 of the Laravel evaluator. *)
Definition debug_issue (lineNum : nat) : Issue :=
  mkIssue lineNum (txt "🔍 Debug Code") (Some (txt "critical"))
    (txt "Debug function dd() or dump() must be removed before merge").

(** A position at which a word can begin: not after a word character. *)
Definition word_start (before : str) : Prop :=
  match last_opt before None with
  | Some c => is_word c = false
  | None => True
  end.

(** A comment that asks nothing: white space and mentions of the reviewer,
    in any letter case. *)
Inductive mention_only : str -> Prop :=
| mo_nil : mention_only []
| mo_space c s : is_space c = true -> mention_only s -> mention_only (c :: s)
| mo_mention m s :
    toLowerCase m = txt "@ai-reviewer" -> mention_only s -> mention_only (m ++ s).

(** A file name as the React handler reads it in a question: a run of word
    characters and hyphens, a dot, and one of the four extensions. *)
Definition root_file_name (path : str) : Prop :=
  exists base ext,
    path = base ++ txt "." ++ ext /\ base <> [] /\
    Forall (fun c => is_word c || only "-" c = true) base /\
    In ext [txt "js"; txt "jsx"; txt "ts"; txt "tsx"].

(** A suggestion whose priority the React report knows how to print. *)
Definition known_priority (s : Suggestion) : Prop :=
  In (ReactReport.priority_of s) [txt "high"; txt "medium"; txt "low"].




(** A stack name as the dispatchers use it: not empty, in lower case,
    without white space around it and without a comma. *)
Definition normalised (x : str) : Prop :=
  x <> [] /\ toLowerCase x = x /\ trim x = x /\ ~ In ","%char x.

(** An operator written at the start of a word with a word character
    right after it, as in [try!load()]. *)
Definition glued (op t : str) : Prop :=
  exists a c b, t = a ++ op ++ c :: b /\ word_start a /\ is_word c = true.

(** The two critical findings of the Swift evaluator. *)
Definition force_try_issue (n : nat) : Issue :=
  mkIssue n (txt "⚠️ Force Try") None
    (txt "Avoid try! — handle errors with do/catch or try?").

Definition force_cast_issue (n : nat) : Issue :=
  mkIssue n (txt "⚠️ Force Cast") None
    (txt "Avoid as! — use as? with safe handling").

(** The three comment handlers, with the persona each one speaks as. *)
Inductive HandlerName : Type := react_handler | laravel_handler | swift_handler.

Definition handler_of (h : HandlerName) : World -> list event :=
  match h with
  | react_handler => ReactHandler.handleComment
  | laravel_handler => LaravelHandler.handleComment
  | swift_handler => SwiftHandler.handleComment
  end.

Definition chat_persona (h : HandlerName) : Persona :=
  match h with
  | react_handler => ReactChatPersona
  | laravel_handler => LaravelChatPersona
  | swift_handler => SwiftChatPersona
  end.

(** ** Sample inputs *)

Module Sample.

Definition world0 : World :=
  mkWorld None (Some 7) None (Ok []) (Throw TypeError)
          (fun _ => Throw TypeError) (fun _ => NetworkError) (fun _ => Ok tt).

Definition with_files (files : list PRFile) (content : str -> result str) : World :=
  mkWorld (Some (txt "key")) (Some 7) None (Ok files) (Ok (txt "Title", None))
          content (fun _ => NetworkError) (fun _ => Ok tt).

Definition controller : PRFile :=
  mkFile (txt "app/Http/Controllers/UserController.php") (txt "modified") 3 0 None.

Definition controller_src : str :=
  ln "<?php" ++
  ln "class UserController extends Controller {" ++
  ln "  public function store(Request $request) {" ++
  ln "    $request->validate([ 'name' => 'required' ]);" ++
  ln "  }" ++
  txt "}".

Definition laravel_world : World :=
  with_files [controller] (fun _ => Ok controller_src).

Definition debug_src : str :=
  ln "<?php" ++ ln "function show($user) {" ++ ln "  dd($user);" ++ txt "}".

Definition helper : PRFile :=
  mkFile (txt "app/helpers.php") (txt "added") 4 0 None.

Definition debug_world : World :=
  with_files [helper] (fun _ => Ok debug_src).

Definition readme : PRFile :=
  mkFile (txt "README.md") (txt "modified") 1 1 None.

Definition removed_file : PRFile :=
  mkFile (txt "app/Old.php") (txt "removed") 0 9 None.

Definition listing_fails : World :=
  mkWorld (Some (txt "key")) (Some 7) None (Throw TypeError)
          (Ok (txt "Title", None)) (fun _ => Ok debug_src)
          (fun _ => NetworkError) (fun _ => Ok tt).

Definition patched : PRFile :=
  mkFile (txt "app/helpers.php") (txt "modified") 4 0
         (Some (txt "@@ -1,3 +1,4 @@ function show($user) { + $name = DB::raw('x' . $user); return $name; }")).

Definition ai_reply : str :=
  ln "CRITICAL:" ++ txt "- Line 2: user input reaches a raw query".

Definition ai_world : World :=
  mkWorld (Some (txt "key")) (Some 7) None (Ok [patched]) (Ok (txt "Title", None))
          (fun _ => Ok debug_src)
          (fun _ => Response true (Data (Some [Some ai_reply])))
          (fun _ => Ok tt).

Definition removal_world : World :=
  with_files [removed_file; helper] (fun _ => Ok debug_src).

Definition commented : str :=
  ln "  // dd($user);" ++ ln "   " ++ txt "// DB::raw('x' . $y)".

Definition no_children : Children := fun _ => (Exited (Some 0), []).

Definition auto_env : Env := mkEnv None (EventPayload (Some 7)).

Definition asking (body : string) : World :=
  mkWorld None (Some 7) (Some (txt body)) (Ok []) (Ok (txt "Title", None))
          (fun _ => Throw TypeError) (fun _ => NetworkError) (fun _ => Ok tt).




(** An endpoint that answers every request with the same text. *)
Definition replying (reply : string) : World :=
  mkWorld (Some (txt "key")) (Some 7) None (Ok [patched]) (Ok (txt "Title", None))
          (fun _ => Ok debug_src)
          (fun _ => Response true (Data (Some [Some (txt reply)])))
          (fun _ => Ok tt).

(** An endpoint that cannot be reached. *)
Definition unreachable (body : string) : World :=
  mkWorld (Some (txt "key")) (Some 7) (Some (txt body)) (Ok [])
          (Ok (txt "Title", None))
          (fun _ => Throw TypeError) (fun _ => NetworkError) (fun _ => Ok tt).

End Sample.

(** A React pull request: a component that logs and shows an image without
    a text alternative. *)
Module ReactSample.

Definition app : PRFile :=
  mkFile (txt "src/App.jsx") (txt "modified") 3 0 None.

Definition app_src : str :=
  ln "export function App() {" ++
  ln "  console.log('render');" ++
  ln "  return <img src={logo} />;" ++
  txt "}".

Definition world : World := Sample.with_files [app] (fun _ => Ok app_src).

End ReactSample.


(** * Proofs *)

(** ** The model at work *)

Example dd_is_flagged :
  test Laravel.re_debug (txt "  dd ($user);") = true /\
  test Laravel.re_debug (txt "  add($user);") = false.
Proof. split; reflexivity. Qed.

Example let_name_is_read :
  exec React.re_let_name (txt "  let  total = 1") = Some (Some (txt "total")).
Proof. reflexivity. Qed.

Example laravel_sample_gate :
  exitCode (reviewPR LaravelReport.stack Sample.debug_world) = Some 1 /\
  criticalCount (reviewPR LaravelReport.stack Sample.debug_world) = 1.
Proof. split; vm_compute; reflexivity. Qed.

Example question_is_extracted :
  extractQuestion (txt "hey @AI-reviewer what about @ai-reviewer foo.js  ") =
  txt "hey  what about  foo.js".
Proof. vm_compute. reflexivity. Qed.

Example blank_list_defaults_to_react :
  Dispatcher.toRun (mkEnv (Some (txt " , ")) NoEventPath) = [txt "react"].
Proof. vm_compute. reflexivity. Qed.

(** ** The matcher computes the match relation *)

Lemma str_eqb_eq a b : str_eqb a b = true <-> a = b.
Proof.
  unfold str_eqb. destruct (list_eq_dec ascii_dec a b); split; congruence.
Qed.

Section RegexTheory.

Lemma star_loop_sound (r : regex) (step : mstate -> list mstate) :
  (forall st st', In st' (step st) -> Matches r st st') ->
  forall n st st', In st' (star_loop step n st) -> Matches (Star r) st st'.
Proof.
  intros Hstep n. induction n as [|n IH]; intros st st' Hin; simpl in Hin.
  - destruct Hin as [<-|[]]. constructor.
  - apply in_app_or in Hin. destruct Hin as [Hin|[<-|[]]]; [|constructor].
    apply in_flat_map in Hin. destruct Hin as [st1 [H1 H2]].
    destruct (Nat.ltb_spec (length (rest st1)) (length (rest st))) as [Hlt|]; [|contradiction].
    eapply M_StarS; eauto.
Qed.

Lemma m_sound r : forall st st', In st' (m r st) -> Matches r st st'.
Proof.
  induction r; intros st st' Hin; simpl in Hin.
  - destruct Hin as [<-|[]]. constructor.
  - destruct st as [pv s cp]; simpl in Hin. destruct s as [|c s']; [contradiction|].
    destruct (p c) eqn:Hp; [|contradiction].
    destruct Hin as [<-|[]]. now constructor.
  - apply in_flat_map in Hin. destruct Hin as [st1 [H1 H2]]. econstructor; eauto.
  - apply in_app_or in Hin. destruct Hin; [apply M_AltL|apply M_AltR]; auto.
  - eapply star_loop_sound; eauto.
  - destruct (prev st) eqn:E; [contradiction|]. destruct Hin as [<-|[]]. now constructor.
  - destruct (rest st) eqn:E; [|contradiction]. destruct Hin as [<-|[]]. now constructor.
  - destruct (xorb _ _) eqn:E; [|contradiction]. destruct Hin as [<-|[]]. now constructor.
  - apply in_map_iff in Hin. destruct Hin as [st1 [<- H1]]. constructor. auto.
Qed.

Lemma Matches_length r st st' : Matches r st st' -> length (rest st') <= length (rest st).
Proof. induction 1; simpl in *; lia. Qed.

Lemma star_loop_self step n st : In st (star_loop step n st).
Proof. destruct n; simpl; [now left|]. apply in_or_app. right. now left. Qed.

Lemma star_loop_mono step : forall n n' st st',
  n <= n' -> In st' (star_loop step n st) -> In st' (star_loop step n' st).
Proof.
  induction n as [|n IH]; intros n' st st' Hle Hin.
  - simpl in Hin. destruct Hin as [<-|[]]. apply star_loop_self.
  - destruct n' as [|n']; [lia|]. simpl in *.
    apply in_app_or in Hin. apply in_or_app. destruct Hin as [Hin|Hin]; [left|now right].
    apply in_flat_map in Hin. destruct Hin as [st1 [H1 H2]].
    apply in_flat_map. exists st1. split; [assumption|].
    destruct (length (rest st1) <? length (rest st)); [|contradiction].
    apply IH; [lia|assumption].
Qed.

Lemma m_complete r st st' : Matches r st st' -> In st' (m r st).
Proof.
  induction 1; simpl.
  - now left.
  - rewrite H. now left.
  - apply in_flat_map. eauto.
  - apply in_or_app. now left.
  - apply in_or_app. now right.
  - apply star_loop_self.
  - simpl in IHMatches2.
    destruct (length (rest st)) as [|n] eqn:E; [lia|]. simpl.
    apply in_or_app. left. apply in_flat_map. exists st1. split; [assumption|].
    rewrite E. destruct (Nat.ltb_spec (length (rest st1)) (S n)); [|lia].
    eapply star_loop_mono; [|eassumption]. lia.
  - rewrite H. now left.
  - rewrite H. now left.
  - rewrite H. now left.
  - apply in_map_iff. exists st'. split; [reflexivity|assumption].
Qed.

Theorem m_spec r st st' : In st' (m r st) <-> Matches r st st'.
Proof. split; [apply m_sound|apply m_complete]. Qed.

End RegexTheory.

Section SearchTheory.

Lemma last_opt_nil d : last_opt [] d = d.
Proof. reflexivity. Qed.

Lemma last_opt_snoc w c d : last_opt (w ++ [c]) d = Some c.
Proof. unfold last_opt. rewrite rev_app_distr. reflexivity. Qed.

Lemma last_opt_app w1 w2 d : last_opt (w1 ++ w2) d = last_opt w2 (last_opt w1 d).
Proof.
  unfold last_opt. rewrite rev_app_distr.
  destruct (rev w2); reflexivity.
Qed.

Lemma last_opt_cons c w d : last_opt (c :: w) d = last_opt w (Some c).
Proof. change (c :: w) with ([c] ++ w). now rewrite last_opt_app. Qed.

(** A match reads a prefix of the rest and remembers its last unit. *)
Lemma Matches_reads r st st' :
  Matches r st st' ->
  exists w, rest st = w ++ rest st' /\ prev st' = last_opt w (prev st).
Proof.
  induction 1; simpl;
    try (exists []; split; reflexivity);
    try assumption.
  - exists [c]. split; reflexivity.
  - destruct IHMatches1 as [w1 [E1 P1]], IHMatches2 as [w2 [E2 P2]].
    exists (w1 ++ w2). rewrite last_opt_app, <- P1, <- P2, E1, E2, app_assoc. auto.
  - destruct IHMatches1 as [w1 [E1 P1]], IHMatches2 as [w2 [E2 P2]].
    exists (w1 ++ w2). rewrite last_opt_app, <- P1, <- P2, E1, E2, app_assoc. auto.
Qed.

(** A pattern without a group leaves the capture as it was. *)
Lemma Matches_nogrp r st st' :
  Matches r st st' -> nogrp r = true -> cap st' = cap st.
Proof.
  induction 1; simpl; intros Hn; try reflexivity;
    try (apply andb_prop in Hn; destruct Hn); try discriminate; auto.
  - rewrite IHMatches2, IHMatches1; auto.
  - rewrite IHMatches2, IHMatches1; auto.
Qed.

(** Where [search] answers, there is a match at some position. *)
Lemma search_sound r : forall s p st',
  search r p s = Some st' ->
  exists a b, s = a ++ b /\ Matches r (MState (last_opt a p) b None) st'.
Proof.
  induction s as [|c s IH]; intros p st' H; simpl in H.
  - destruct (m r (MState p [] None)) as [|x l] eqn:E; [discriminate|].
    injection H as <-. exists [], []. split; [reflexivity|].
    apply m_sound. rewrite last_opt_nil, E. now left.
  - destruct (m r (MState p (c :: s) None)) as [|x l] eqn:E.
    + apply IH in H. destruct H as [a [b [-> HM]]].
      exists (c :: a), b. split; [reflexivity|]. now rewrite last_opt_cons.
    + injection H as <-. exists [], (c :: s). split; [reflexivity|].
      apply m_sound. rewrite last_opt_nil, E. now left.
Qed.

(** Where there is a match at some position, [search] answers. *)
Lemma search_complete r : forall a b p st',
  Matches r (MState (last_opt a p) b None) st' ->
  exists st'', search r p (a ++ b) = Some st''.
Proof.
  induction a as [|c a IH]; intros b p st' HM.
  - rewrite last_opt_nil in HM. apply m_complete in HM. simpl.
    destruct b; simpl; destruct (m r _) eqn:E; try contradiction; eauto.
  - simpl. destruct (m r (MState p (c :: a ++ b) None)); [|eauto].
    rewrite last_opt_cons in HM. eapply IH; eauto.
Qed.

Lemma test_true_iff r s :
  test r s = true <->
  exists a b st', s = a ++ b /\ Matches r (MState (last_opt a None) b None) st'.
Proof.
  unfold test. split.
  - destruct (search r None s) eqn:E; [|discriminate]. intros _.
    apply search_sound in E. destruct E as [a [b [-> HM]]]. eauto.
  - intros [a [b [st' [-> HM]]]]. apply search_complete in HM.
    destruct HM as [st'' ->]. reflexivity.
Qed.

Lemma exec_some r a b st' :
  Matches r (MState (last_opt a None) b None) st' ->
  exists v, exec r (a ++ b) = Some v.
Proof.
  intros HM. apply search_complete in HM. destruct HM as [st'' E].
  unfold exec. rewrite E. simpl. eauto.
Qed.

End SearchTheory.

Section LetRule.

(** Inversion of the matches of a sequence. *)
Lemma Matches_cat_inv r1 r2 st st' :
  Matches (r1 >> r2) st st' ->
  exists st1, Matches r1 st st1 /\ Matches r2 st1 st'.
Proof. inversion 1; subst; eauto. Qed.

(** A line that declares with [let] names the variable: the pattern that
    reads the name matches wherever the declaration pattern does. *)
Lemma let_decl_has_name line :
  test React.re_let_decl line = true ->
  exists v, exec React.re_let_name line = Some v.
Proof.
  intros H. apply test_true_iff in H. destruct H as [a [b [st' [-> HM]]]].
  unfold React.re_let_decl in HM.
  apply Matches_cat_inv in HM. destruct HM as [s0 [HB HM]].
  apply Matches_cat_inv in HM. destruct HM as [s1 [Hws HM]].
  apply Matches_cat_inv in HM. destruct HM as [s2 [Hlet HM]].
  apply Matches_cat_inv in HM. destruct HM as [s3 [Hsp HM]].
  apply Matches_cat_inv in HM. destruct HM as [s4 [Hw _]].
  assert (Hpre : Matches (Bol >> ws) (MState (last_opt a None) b None) s1)
    by (econstructor; eauto).
  pose proof (Matches_reads Hpre) as [w [Er Ep]].
  pose proof (Matches_nogrp Hpre eq_refl) as Ec. simpl in Er, Ep, Ec.
  assert (Es1 : s1 = MState (last_opt (a ++ w) None) (rest s1) None).
  { destruct s1 as [p1 r1 c1]; simpl in *. subst. now rewrite last_opt_app. }
  assert (HN : Matches React.re_let_name s1
                 (MState (prev s4) (rest s4) (Some (consumed s3 s4)))).
  { unfold React.re_let_name. econstructor; [exact Hlet|].
    econstructor; [exact Hsp|]. constructor. exact Hw. }
  rewrite Es1 in HN. apply exec_some in HN.
  rewrite Er, app_assoc. exact HN.
Qed.

(** What an iteration of a character class reads. *)
Lemma Matches_star_chr p st st' :
  Matches (Star (Chr p)) st st' ->
  exists x, rest st = x ++ rest st' /\ Forall (fun c => p c = true) x.
Proof.
  remember (Star (Chr p)) as r eqn:Er. induction 1; try discriminate.
  - exists []. split; [reflexivity|constructor].
  - injection Er as ->. specialize (IHMatches2 eq_refl).
    destruct IHMatches2 as [x [E F]]. inversion H; subst. simpl in *.
    exists (c :: x). split; [simpl; congruence|]. constructor; assumption.
Qed.

Lemma Matches_plus_chr p st st' :
  Matches (plus (Chr p)) st st' ->
  exists x, rest st = x ++ rest st' /\ Forall (fun c => p c = true) x /\ x <> [].
Proof.
  unfold plus. intros H. apply Matches_cat_inv in H. destruct H as [s1 [H1 H2]].
  apply Matches_star_chr in H2. destruct H2 as [x [E F]].
  inversion H1; subst. simpl in *. exists (c :: x).
  split; [simpl; congruence|]. split; [constructor; assumption|discriminate].
Qed.

Lemma consumed_app x st st' : rest st = x ++ rest st' -> consumed st st' = x.
Proof.
  unfold consumed. intros ->. rewrite length_app.
  replace (length x + length (rest st') - length (rest st')) with (length x) by lia.
  rewrite firstn_app, firstn_all, Nat.sub_diag. simpl. apply app_nil_r.
Qed.

(** The name read by rule 13 is a non-empty run of word characters: the
    pattern built from it has no metacharacter of its own. *)
Lemma let_name_is_word line v :
  exec React.re_let_name line = Some v ->
  exists name, v = Some name /\ name <> [] /\ Forall (fun c => is_word c = true) name.
Proof.
  unfold exec. destruct (search React.re_let_name None line) as [st'|] eqn:E;
    [|discriminate].
  simpl. intros H. injection H as <-.
  apply search_sound in E. destruct E as [a [b [_ HM]]].
  unfold React.re_let_name in HM.
  apply Matches_cat_inv in HM. destruct HM as [s1 [_ HM]].
  apply Matches_cat_inv in HM. destruct HM as [s2 [_ HM]].
  inversion HM as [| | | | | | | | | |? ? st4 Hw]; subst. simpl.
  apply Matches_plus_chr in Hw. destruct Hw as [x [Ex [F Hx]]].
  exists x. rewrite (@consumed_app x s2 st4 Ex). auto.
Qed.

Lemma capture1_let_ok line :
  test React.re_let_decl line = true ->
  exists v, React.capture1 React.re_let_name line = Ok v.
Proof.
  intros H. apply let_decl_has_name in H. destruct H as [v E].
  unfold React.capture1. rewrite E. destruct v; eauto.
Qed.

Lemma rule_let_ok lines line idx :
  exists out, React.rule_let lines line idx = Ok out.
Proof.
  unfold React.rule_let. destruct (test React.re_let_decl line) eqn:E; [|eauto].
  destruct (capture1_let_ok _ E) as [v ->]. simpl. eauto.
Qed.

Lemma forEachR_ok {A B} (f : A -> nat -> result (list B)) :
  (forall x i, exists out, f x i = Ok out) ->
  forall l idx, exists out, forEachR f l idx = Ok out.
Proof.
  intros Hf. induction l as [|x l IH]; intros idx; simpl; [eauto|].
  destruct (Hf x idx) as [o ->]. simpl.
  destruct (IH (S idx)) as [o' ->]. simpl. eauto.
Qed.

Lemma split_on_nonempty sep s : split_on sep s <> [].
Proof.
  destruct s as [|c s]; simpl; [discriminate|].
  destruct (ascii_dec c sep); [discriminate|].
  destruct (split_on sep s); discriminate.
Qed.

(** The base name of a path is always there to read. *)
Lemma pop_then_ok {A} (l : list A) : l <> [] -> exists x, pop_then l = Ok x.
Proof.
  unfold pop_then. intros H. destruct (rev l) as [|x r] eqn:E; [|eauto].
  apply (f_equal (@rev A)) in E. rewrite rev_involutive in E. contradiction.
Qed.

Lemma checkBestPractices_ok content filename :
  exists out, React.checkBestPractices content filename = Ok out.
Proof.
  unfold React.checkBestPractices.
  destruct (pop_then_ok (split_on_nonempty "/" filename)) as [base ->].
  cbn [bind]. apply forEachR_ok. intros line idx.
  destruct (React.skip_line (trim line)); [eauto|].
  destruct (rule_let_ok (split_nl content) line idx) as [o ->]. simpl. eauto.
Qed.

Lemma React_analyzeCode_ok content filename :
  exists an, React.analyzeCode content filename = Ok an.
Proof.
  unfold React.analyzeCode. destruct (React.excluded filename); [eauto|].
  destruct (checkBestPractices_ok content filename) as [o ->]. simpl. eauto.
Qed.

End LetRule.

Section Orchestrator.

Variable S : Stack.
Variable w : World.

Ltac crush_body :=
  unfold process_file, process_body, file_analysis, asks_ai, log; simpl;
  repeat match goal with
         | |- context [match ?x with _ => _ end] => destruct x eqn:?; simpl
         end;
  try rewrite app_nil_r; try reflexivity; try congruence.

Lemma allCritical_process_file f a :
  allCritical (process_file S w f a) =
  allCritical a ++
  match file_analysis S w f with
  | Some an => if 0 <? length (critical an) then [(filename f, critical an)] else []
  | None => []
  end.
Proof. crush_body. Qed.

Lemma allSuggestions_process_file f a :
  allSuggestions (process_file S w f a) =
  allSuggestions a ++
  match file_analysis S w f with
  | Some an =>
      if 0 <? length (suggestions an) then [(filename f, suggestions an)] else []
  | None => []
  end.
Proof. crush_body. Qed.

Lemma aiReviews_process_file f a :
  aiReviews (process_file S w f a) =
  aiReviews a ++
  match file_analysis S w f with
  | Some _ =>
      if asks_ai w f then
        match callGroqAI w (st_persona S) (user (review_request S f)) with
        | Some r => if st_keep S (Some r) then [(filename f, r)] else []
        | None => []
        end
      else []
  | None => []
  end.
Proof. unfold review_request. crush_body. Qed.

End Orchestrator.

Section Gate.

Variable S : Stack.
Variable w : World.

Lemma process_all_cons f files a :
  process_all S w (f :: files) a = process_all S w files (process_file S w f a).
Proof. reflexivity. Qed.

Lemma process_all_app fs1 fs2 a :
  process_all S w (fs1 ++ fs2) a = process_all S w fs2 (process_all S w fs1 a).
Proof. unfold process_all. apply fold_left_app. Qed.








End Gate.


Section Dispatch.

Variable table : list (str * Script).
Variable spawnSync : Children.



(** The loop keeps the last non-zero status. *)
Lemma run_all_code : forall names fail code evs,
  run_all table spawnSync names fail = (Ok code, evs) ->
  (code <> 0 <->
   fail <> 0 \/
   exists name c, In name names /\
                  fst (runScript table spawnSync name) = Ok c /\ c <> 0).
Proof.
  induction names as [|x names IH]; intros fail code evs H; simpl in H.
  - injection H as <- _. split; [now left|].
    intros [H|[name [c [[] _]]]]. assumption.
  - destruct (runScript table spawnSync x) as [[c|e] evs0] eqn:E; [|discriminate].
    destruct (run_all table spawnSync names (if c =? 0 then fail else c))
      as [r evs1] eqn:E1.
    injection H as -> _. apply IH in E1. rewrite E1. clear E1. split.
    + intros [H|[name [c' [Hin H]]]].
      * destruct (Nat.eqb_spec c 0); [now left|].
        right. exists x, c. rewrite E. simpl. auto.
      * right. exists name, c'. simpl. tauto.
    + intros [H|[name [c' [[<-|Hin] [H1 H2]]]]].
      * left. destruct (Nat.eqb_spec c 0); [assumption|assumption].
      * rewrite E in H1. simpl in H1. injection H1 as ->.
        left. destruct (Nat.eqb_spec c' 0); [contradiction|assumption].
      * right. eauto.
Qed.



End Dispatch.

Section WholeReview.

Variable e : Env.
Variable w : World.
Variable other : Children.




Lemma reviewer_loaded S src :
  ~ crashes_at_load src ->
  exists number,
    load_PR_NUMBER src = Ok number /\
    reviewer S src w = reviewPR S (with_PR_NUMBER number w).
Proof.
  unfold crashes_at_load. intros H.
  destruct src as [| | |number]; try (exfalso; apply H; auto; fail);
    eexists; split; reflexivity.
Qed.




End WholeReview.

Section Trace.

Variable S : Stack.
Variable w : World.

Lemma trace_process_file f a e :
  In e (trace (process_file S w f a)) -> In e (trace a) \/ event_of_file S f e.
Proof.
  unfold process_file, process_body, log, event_of_file, review_request; simpl.
  repeat match goal with
         | |- context [match ?x with _ => _ end] => destruct x eqn:?; simpl
         end;
  intros H; repeat (apply in_app_or in H; destruct H as [H|H]); auto;
  simpl in H; intuition (subst; auto).
Qed.

Lemma trace_process_all files : forall a e,
  In e (trace (process_all S w files a)) ->
  In e (trace a) \/ exists f, In f files /\ event_of_file S f e.
Proof.
  induction files as [|f files IH]; intros a e H; [now left|].
  rewrite process_all_cons in H. apply IH in H. destruct H as [H|[f' [Hin H]]].
  - apply trace_process_file in H. destruct H; [now left|].
    right. exists f. simpl. auto.
  - right. exists f'. simpl. auto.
Qed.

Lemma slice0 {A} n (l : list A) : slice 0 n l = firstn n l.
Proof. unfold slice. simpl. now rewrite Nat.sub_0_r. Qed.

Lemma In_firstn {A} n (l : list A) x : In x (firstn n l) -> In x l.
Proof.
  revert l. induction n; intros [|y l] H; simpl in *; try contradiction.
  destruct H; [now left|right; auto].
Qed.

Lemma reviewed_matches f :
  In f (reviewed S w) ->
  st_matches S f = true /\ exists files, listFiles w = Ok files /\ In f files.
Proof.
  unfold reviewed, getPRDiff. rewrite slice0. intros H. apply In_firstn in H.
  destruct (listFiles w) as [files|]; [|contradiction].
  apply filter_In in H. destruct H. eauto.
Qed.

Lemma events_reviewPR e :
  In e (events (reviewPR S w)) ->
  file_event e -> exists f, In f (reviewed S w) /\ event_of_file S f e.
Proof.
  unfold reviewPR, reviewed.
  destruct (negb (truthy_num (PR_NUMBER w))); [contradiction|].
  destruct (length (getPRDiff S w) =? 0).
  - simpl. intros [<-|[]] [].
  - simpl. intros H He. apply in_app_or in H. destruct H as [H|[<-|[]]]; [|destruct He].
    apply trace_process_all in H. destruct H as [[<-|[]]|H]; [destruct He|assumption].
Qed.

End Trace.

Lemma matches_not_removed n f :
  st_matches (stack_of n) f = true -> status f <> txt "removed".
Proof.
  intros H E. destruct n; simpl in H;
    unfold ReactReport.matches, LaravelReport.matches, SwiftReport.matches in H;
    rewrite E in H;
    repeat (apply andb_prop in H; destruct H as [H ?]);
    match goal with
    | X : negb (str_eqb _ _) = true |- _ => vm_compute in X; discriminate X
    end.
Qed.

Section Findings.

Variable S : Stack.
Variable w : World.

Lemma findings_process_file f a :
  findings (process_file S w f a) =
  (allCritical a ++
     match file_analysis S w f with
     | Some an => if 0 <? length (critical an) then [(filename f, critical an)] else []
     | None => []
     end,
   allSuggestions a ++
     match file_analysis S w f with
     | Some an =>
         if 0 <? length (suggestions an) then [(filename f, suggestions an)] else []
     | None => []
     end,
   aiReviews a ++
     match file_analysis S w f with
     | Some _ =>
         if asks_ai w f then
           match callGroqAI w (st_persona S) (user (review_request S f)) with
           | Some r => if st_keep S (Some r) then [(filename f, r)] else []
           | None => []
           end
         else []
     | None => []
     end).
Proof.
  unfold findings.
  now rewrite allCritical_process_file, allSuggestions_process_file,
    aiReviews_process_file.
Qed.

(** A file whose content cannot be fetched, or whose evaluation throws,
    leaves the findings as they were. *)
Lemma findings_failed_file f a :
  file_analysis S w f = None -> findings (process_file S w f a) = findings a.
Proof.
  intros H. rewrite findings_process_file, H. unfold findings.
  now rewrite !app_nil_r.
Qed.

Lemma findings_process_file_congr f a a' :
  findings a = findings a' ->
  findings (process_file S w f a) = findings (process_file S w f a').
Proof.
  intros H. rewrite !findings_process_file. unfold findings in H.
  injection H as -> -> ->. reflexivity.
Qed.

Lemma findings_process_all_congr files : forall a a',
  findings a = findings a' ->
  findings (process_all S w files a) = findings (process_all S w files a').
Proof.
  induction files as [|f files IH]; intros a a' H; [assumption|].
  rewrite !process_all_cons. apply IH. now apply findings_process_file_congr.
Qed.

(** The rest of the batch is processed as if the failing file were not
    there. *)
Lemma findings_drop_failed f fs1 fs2 a :
  file_analysis S w f = None ->
  findings (process_all S w (fs1 ++ f :: fs2) a) =
  findings (process_all S w (fs1 ++ fs2) a).
Proof.
  intros H. rewrite !process_all_app, process_all_cons.
  apply findings_process_all_congr. now apply findings_failed_file.
Qed.

End Findings.

Section Includes.

Lemma startsWith_iff p : forall s,
  startsWith s p = true <-> exists b, s = p ++ b.
Proof.
  induction p as [|c p IH]; intros s.
  - split; [intros _; exists s; reflexivity|intros _; destruct s; reflexivity].
  - destruct s as [|d s]; simpl; [split; [discriminate|intros [b H]; discriminate]|].
    destruct (ascii_dec c d) as [->|Hne].
    + rewrite IH. split; intros [b H]; exists b; congruence.
    + split; [discriminate|]. intros [b H]. congruence.
Qed.

Lemma includes_iff sub : forall s, includes s sub = true <-> occurs sub s.
Proof.
  unfold occurs. induction s as [|c s IH]; cbn [includes].
  - rewrite orb_false_r, startsWith_iff. split.
    + intros [b H]. exists [], b. assumption.
    + intros [a [b H]]. destruct a; [eauto|discriminate].
  - rewrite orb_true_iff, IH, startsWith_iff. split.
    + intros [[b H]|[a [b H]]]; [exists [], b|exists (c :: a), b]; simpl; congruence.
    + intros [[|d a] [b H]]; [left; eauto|right]. exists a, b. simpl in H. congruence.
Qed.

Lemma includes_false_iff sub s : includes s sub = false <-> ~ occurs sub s.
Proof.
  rewrite <- includes_iff. destruct (includes s sub); split; congruence.
Qed.

Lemma truthy_iff (s : str) : truthy s = true <-> s <> [].
Proof. destruct s; simpl; split; congruence. Qed.

Lemma ci_iff c x : ci c x = true <-> to_lower x = to_lower c.
Proof. unfold ci. destruct (ascii_dec _ _); split; congruence. Qed.

Lemma lit_ci_sound p : forall st st',
  Matches (lit_ci_l p) st st' ->
  exists x, rest st = x ++ rest st' /\ toLowerCase x = toLowerCase p.
Proof.
  induction p as [|c p IH]; intros st st' H; simpl in H.
  - inversion H; subst. exists []. auto.
  - destruct p as [|c' p].
    + inversion H; subst. simpl. exists [c0]. split; [reflexivity|].
      simpl. f_equal. now apply ci_iff.
    + inversion H as [| |? ? ? st1 ? H1 H2| | | | | | | |]; subst.
      inversion H1; subst. apply IH in H2. destruct H2 as [x [E1 E2]].
      simpl in E1. exists (c0 :: x). split; [simpl; congruence|].
      simpl in *. f_equal; [now apply ci_iff|assumption].
Qed.

Lemma lit_ci_complete p : forall x s' pv cp,
  p <> [] -> toLowerCase x = toLowerCase p ->
  exists st', Matches (lit_ci_l p) (MState pv (x ++ s') cp) st'.
Proof.
  induction p as [|c p IH]; intros x s' pv cp Hp E; [congruence|].
  destruct x as [|d x]; [discriminate|]. simpl in E. injection E as Ed Ex.
  destruct p as [|c' p].
  - destruct x; [|discriminate]. simpl. eexists. constructor. now apply ci_iff.
  - destruct (IH x s' (Some d) cp) as [st' HM]; [discriminate|assumption|].
    exists st'. change (lit_ci_l (c :: c' :: p)) with (Chr (ci c) >> lit_ci_l (c' :: p)).
    econstructor; [|exact HM]. simpl. constructor. now apply ci_iff.
Qed.

Lemma test_lit_ci_iff p s :
  p <> [] -> (test (lit_ci_l p) s = true <-> occurs_ci p s).
Proof.
  intros Hp. rewrite test_true_iff. unfold occurs_ci. split.
  - intros [a [b [st' [-> HM]]]]. apply lit_ci_sound in HM.
    destruct HM as [x [E1 E2]]. simpl in E1. exists a, x, (rest st'). split; congruence.
  - intros [a [x [b [-> E]]]].
    destruct (@lit_ci_complete p x b (last_opt a None) None Hp E) as [st' HM].
    exists a, (x ++ b), st'. auto.
Qed.

End Includes.

Section Handlers.

Variable w : World.

Lemma replies_app a b : replies (a ++ b) = replies a ++ replies b.
Proof. unfold replies. apply flat_map_app. Qed.

Lemma askAI_no_reply check p q c : replies (snd (askAI check p w q c)) = [].
Proof. unfold askAI. destruct (negb _); reflexivity. Qed.

Lemma fallbacks_nonempty m : In m fallbacks -> m <> [].
Proof.
  intros [<-|[<-|[<-|[<-|[]]]]]; discriminate.
Qed.

Lemma askAI_answer check p q c :
  fst (askAI check p w q c) <> [] /\
  (no_answer w (mkChat p c q) -> In (fst (askAI check p w q c)) fallbacks).
Proof.
  unfold askAI, no_answer.
  destruct (truthy_opt (GROQ_API_KEY w)) eqn:K; simpl.
  2:{ split; [discriminate|]. intros _. now left. }
  destruct (fetch w (mkChat p c q)) as [|ok body] eqn:F.
  { split; [discriminate|]. intros _. simpl. tauto. }
  destruct (check && negb ok).
  { split; [discriminate|]. intros _. simpl. tauto. }
  destruct (first_content body) as [[[|x s]|]|e] eqn:C; simpl;
    (split; [discriminate|]); try (intros _; tauto).
  intros [H|[H|[ok' [body' [E H]]]]]; try discriminate.
  injection E as <- <-. rewrite C in H.
  destruct H as [H|[H|[e H]]]; discriminate.
Qed.

Lemma getPRContext_react_no_reply : replies (snd (ReactHandler.getPRContext w)) = [].
Proof.
  unfold ReactHandler.getPRContext.
  destruct (pullsGet w) as [[t b]|]; [|reflexivity].
  destruct (listFiles w); reflexivity.
Qed.

Lemma getPRContext_laravel_no_reply : replies (snd (LaravelHandler.getPRContext w)) = [].
Proof.
  unfold LaravelHandler.getPRContext.
  destruct (pullsGet w) as [[t b]|]; [|reflexivity].
  destruct (listFiles w); reflexivity.
Qed.

Lemma getPRContext_swift_no_reply : replies (snd (SwiftHandler.getPRContext w)) = [].
Proof.
  unfold SwiftHandler.getPRContext.
  destruct (pullsGet w) as [[t b]|]; [|reflexivity].
  destruct (listFiles w); reflexivity.
Qed.

Lemma askAI_asks check p q c :
  snd (askAI check p w q c) =
  if truthy_opt (GROQ_API_KEY w) then [EvCompletion (mkChat p c q)] else [].
Proof. unfold askAI. now destruct (truthy_opt (GROQ_API_KEY w)). Qed.

Lemma getPRContext_react_asks_nothing req :
  ~ In (EvCompletion req) (snd (ReactHandler.getPRContext w)).
Proof.
  unfold ReactHandler.getPRContext.
  destruct (pullsGet w) as [[t b]|]; [destruct (listFiles w)|]; simpl;
    intuition discriminate.
Qed.

Lemma getPRContext_laravel_asks_nothing req :
  ~ In (EvCompletion req) (snd (LaravelHandler.getPRContext w)).
Proof.
  unfold LaravelHandler.getPRContext.
  destruct (pullsGet w) as [[t b]|]; [destruct (listFiles w)|]; simpl;
    intuition discriminate.
Qed.

Lemma getPRContext_swift_asks_nothing req :
  ~ In (EvCompletion req) (snd (SwiftHandler.getPRContext w)).
Proof.
  unfold SwiftHandler.getPRContext.
  destruct (pullsGet w) as [[t b]|]; [destruct (listFiles w)|]; simpl;
    intuition discriminate.
Qed.

Lemma answers_once_intro (question : str) (evs evs3 : list event) help reply
  answer p c :
  replies evs = [] ->
  (forall req, ~ In (EvCompletion req) evs) ->
  answer <> [] ->
  (no_answer w (mkChat p c question) -> In answer fallbacks) ->
  evs3 = (if truthy_opt (GROQ_API_KEY w)
          then [EvCompletion (mkChat p c question)] else []) ->
  question <> [] ->
  exists body, replies (evs ++ evs3 ++ postReply (reply answer)) = [body] /\
    (question = [] -> body = help) /\
    (question <> [] ->
       exists a, body = reply a /\ a <> [] /\
         (truthy_opt (GROQ_API_KEY w) = false ->
            In a fallbacks /\
            forall req,
              ~ In (EvCompletion req) (evs ++ evs3 ++ postReply (reply answer))) /\
         (truthy_opt (GROQ_API_KEY w) = true ->
            exists req,
              In (EvCompletion req) (evs ++ evs3 ++ postReply (reply answer)) /\
              (forall req',
                 In (EvCompletion req') (evs ++ evs3 ++ postReply (reply answer)) ->
                 req' = req) /\
              user req = question /\
              (no_answer w req -> In a fallbacks))).
Proof.
  intros H1 H2 H3 H4 H5 H6. exists (reply answer).
  assert (HR : replies evs3 = [])
    by (rewrite H5; now destruct (truthy_opt (GROQ_API_KEY w))).
  rewrite !replies_app, H1, HR. simpl.
  split; [reflexivity|]. split; [contradiction|]. intros _.
  exists answer. split; [reflexivity|]. split; [assumption|]. split.
  - intros K. split; [apply H4; now left|].
    rewrite K in H5. subst evs3. intros req Hin.
    apply in_app_or in Hin. destruct Hin as [Hin|[Hin|[]]];
      [now apply (H2 req)|discriminate].
  - intros K. rewrite K in H5. subst evs3.
    exists (mkChat p c question). split; [|split; [|split; [reflexivity|assumption]]].
    + apply in_or_app. right. now left.
    + intros req' Hin. apply in_app_or in Hin.
      destruct Hin as [Hin|[Hin|[Hin|[]]]];
        [now apply H2 in Hin|now injection Hin|discriminate].
Qed.

Lemma react_handler_answers_once :
  answers_once ReactHandler.handleComment ReactHandler.help ReactHandler.reply w.
Proof.
  unfold answers_once, ReactHandler.handleComment.
  destruct (extractQuestion (comment_body w)) as [|c q] eqn:Q.
  { exists ReactHandler.help. simpl. split; [reflexivity|]. split; [reflexivity|congruence]. }
  cbn [truthy negb].
  match goal with
  | |- context [let '(fc, evs1) := ?X in _] => destruct X as [fc evs1] eqn:E1
  end.
  assert (HE : evs1 = [] \/ exists path, evs1 = [EvGetContent path]).
  { destruct (ReactHandler.detectFileName (c :: q)) as [path|];
      [|injection E1 as _ <-; now left].
    right. exists path. destruct (getContent w path); injection E1 as _ <-; reflexivity. }
  clear E1.
  pose proof getPRContext_react_no_reply as HC.
  pose proof getPRContext_react_asks_nothing as HK.
  destruct (ReactHandler.getPRContext w) as [ctx evs2]. cbn [snd] in HC, HK.
  match goal with
  | |- context [askAI true ReactChatPersona w (c :: q) ?C] =>
      pose proof (askAI_answer true ReactChatPersona (c :: q) C) as [HA HF];
      pose proof (askAI_asks true ReactChatPersona (c :: q) C) as HQ;
      destruct (askAI true ReactChatPersona w (c :: q) C) as [answer evs3]
  end.
  cbn [fst snd] in HA, HF, HQ. rewrite (app_assoc evs1 evs2).
  eapply answers_once_intro; eauto; [| |discriminate].
  - rewrite replies_app, HC, app_nil_r.
    destruct HE as [ -> |[path -> ]]; reflexivity.
  - intros req Hin. apply in_app_or in Hin. destruct Hin as [Hin|Hin].
    + destruct HE as [ -> |[path -> ]]; simpl in Hin; intuition discriminate.
    + now apply (HK req).
Qed.

Lemma laravel_handler_answers_once :
  answers_once LaravelHandler.handleComment LaravelHandler.help LaravelHandler.reply w.
Proof.
  unfold answers_once, LaravelHandler.handleComment.
  destruct (extractQuestion (comment_body w)) as [|c q] eqn:Q.
  { exists LaravelHandler.help. simpl. split; [reflexivity|]. split; [reflexivity|congruence]. }
  cbn [truthy negb].
  pose proof getPRContext_laravel_no_reply as HC.
  pose proof getPRContext_laravel_asks_nothing as HK.
  destruct (LaravelHandler.getPRContext w) as [ctx evs1].
  pose proof (askAI_answer false LaravelChatPersona (c :: q) ctx) as [HA HF].
  pose proof (askAI_asks false LaravelChatPersona (c :: q) ctx) as HQ.
  destruct (askAI false LaravelChatPersona w (c :: q) ctx) as [answer evs2].
  cbn [fst snd] in HA, HF, HQ, HC, HK.
  eapply answers_once_intro; eauto. discriminate.
Qed.

Lemma swift_handler_answers_once :
  answers_once SwiftHandler.handleComment SwiftHandler.help SwiftHandler.reply w.
Proof.
  unfold answers_once, SwiftHandler.handleComment.
  destruct (extractQuestion (comment_body w)) as [|c q] eqn:Q.
  { exists SwiftHandler.help. simpl. split; [reflexivity|]. split; [reflexivity|congruence]. }
  cbn [truthy negb].
  pose proof getPRContext_swift_no_reply as HC.
  pose proof getPRContext_swift_asks_nothing as HK.
  destruct (SwiftHandler.getPRContext w) as [ctx evs1].
  pose proof (askAI_answer false SwiftChatPersona (c :: q) ctx) as [HA HF].
  pose proof (askAI_asks false SwiftChatPersona (c :: q) ctx) as HQ.
  destruct (askAI false SwiftChatPersona w (c :: q) ctx) as [answer evs2].
  cbn [fst snd] in HA, HF, HQ, HC, HK.
  eapply answers_once_intro; eauto. discriminate.
Qed.

End Handlers.

Section WholeComment.

Variable w : World.
Variable other : Children.

Lemma handler_cases name :
  own_property CommentDispatcher.scriptMap name = Some ReactCommentHandler \/
  own_property CommentDispatcher.scriptMap name = Some LaravelCommentHandler \/
  own_property CommentDispatcher.scriptMap name = None.
Proof.
  unfold CommentDispatcher.scriptMap. simpl.
  destruct (str_eqb _ name); [now left|].
  destruct (str_eqb _ name); [right; now left|right; now right].
Qed.

Lemma answers_once_length handle help reply :
  answers_once handle help reply w -> length (replies (handle w)) = 1.
Proof. intros [body [-> _]]. reflexivity. Qed.

(** A comment gets one reply per handler the dispatcher starts. *)
Lemma comment_run_replies : forall names fail,
  not_inherited names ->
  length (replies (snd (run_all CommentDispatcher.scriptMap
                          (comment_children w other) names fail))) =
  handler_runs names.
Proof.
  induction names as [|x names IH]; intros fail HN; [reflexivity|].
  inversion HN as [|? ? Hx HN']; subst.
  unfold handler_runs in *. cbn [run_all filter].
  unfold runScript, scriptMap_get.
  destruct (handler_cases x) as [ -> | [ -> | -> ] ].
  - cbn [comment_children]. specialize (IH (if 0 =? 0 then fail else 0) HN').
    destruct (run_all _ _ names _) as [r evs]. cbn [snd] in *.
    change (EvSpawn ?v :: ?a) with ([EvSpawn v] ++ a).
    rewrite <- !app_assoc, !replies_app, !length_app, IH.
    rewrite (answers_once_length (react_handler_answers_once w)). reflexivity.
  - cbn [comment_children]. specialize (IH (if 0 =? 0 then fail else 0) HN').
    destruct (run_all _ _ names _) as [r evs]. cbn [snd] in *.
    change (EvSpawn ?v :: ?a) with ([EvSpawn v] ++ a).
    rewrite <- !app_assoc, !replies_app, !length_app, IH.
    rewrite (answers_once_length (laravel_handler_answers_once w)). reflexivity.
  - rewrite Hx. specialize (IH (if 0 =? 0 then fail else 0) HN').
    destruct (run_all _ _ names _) as [r evs]. cbn [snd] in *. exact IH.
Qed.

(** The same for every requested list, when the children that are no
    handlers post nothing and [spawnSync] does not throw for them. *)
Lemma comment_run_replies_quiet : forall names fail,
  (forall v, fst (other v) <> SpawnThrows /\ replies (snd (other v)) = []) ->
  length (replies (snd (run_all CommentDispatcher.scriptMap
                          (comment_children w other) names fail))) =
  handler_runs names.
Proof.
  intros names fail HQ. revert fail.
  induction names as [|x names IH]; intros fail; [reflexivity|].
  unfold handler_runs in *. cbn [run_all filter].
  unfold runScript, scriptMap_get.
  destruct (handler_cases x) as [ -> | [ -> | -> ] ].
  - cbn [comment_children]. specialize (IH (if 0 =? 0 then fail else 0)).
    destruct (run_all _ _ names _) as [r evs]. cbn [snd] in *.
    change (EvSpawn ?v :: ?a) with ([EvSpawn v] ++ a).
    rewrite <- !app_assoc, !replies_app, !length_app, IH.
    rewrite (answers_once_length (react_handler_answers_once w)). reflexivity.
  - cbn [comment_children]. specialize (IH (if 0 =? 0 then fail else 0)).
    destruct (run_all _ _ names _) as [r evs]. cbn [snd] in *.
    change (EvSpawn ?v :: ?a) with ([EvSpawn v] ++ a).
    rewrite <- !app_assoc, !replies_app, !length_app, IH.
    rewrite (answers_once_length (laravel_handler_answers_once w)). reflexivity.
  - destruct (includes_str prototype_members x).
    + cbn [comment_children]. destruct (HQ (Inherited x)) as [H1 H2].
      destruct (other (Inherited x)) as [[[c|]|] evs0]; cbn [fst snd] in *;
        try congruence.
      * specialize (IH (if c =? 0 then fail else c)).
        destruct (run_all _ _ names _) as [r evs]. cbn [snd] in *.
        change (EvSpawn ?v :: ?a) with ([EvSpawn v] ++ a).
        rewrite <- !app_assoc, !replies_app, H2, !length_app, IH. reflexivity.
      * specialize (IH (if 0 =? 0 then fail else 0)).
        destruct (run_all _ _ names _) as [r evs]. cbn [snd] in *.
        change (EvSpawn ?v :: ?a) with ([EvSpawn v] ++ a).
        rewrite <- !app_assoc, !replies_app, H2, !length_app, IH. reflexivity.
    + specialize (IH (if 0 =? 0 then fail else 0)).
      destruct (run_all _ _ names _) as [r evs]. cbn [snd] in *. exact IH.
Qed.

End WholeComment.

Section Selection.

Lemma comment_toRun_auto e :
  auto_mode e -> CommentDispatcher.toRun e = [txt "react"; txt "laravel"].
Proof. unfold auto_mode, CommentDispatcher.toRun. now intros ->. Qed.


End Selection.

Section Rendering.

Lemma occurs_refl x : occurs x x.
Proof. exists [], []. now rewrite app_nil_r. Qed.

Lemma occurs_app_l x a b : occurs x a -> occurs x (a ++ b).
Proof.
  intros [u [v ->]]. exists u, (v ++ b). now rewrite <- !app_assoc.
Qed.

Lemma occurs_app_r x a b : occurs x b -> occurs x (a ++ b).
Proof.
  intros [u [v ->]]. exists (a ++ u), v. now rewrite <- !app_assoc.
Qed.

Lemma occurs_flat_map {A} (f : A -> str) l y x :
  In y l -> occurs x (f y) -> occurs x (flat_map f l).
Proof.
  induction l as [|z l IH]; intros Hin Ho; [contradiction|]. simpl.
  destruct Hin as [->|Hin]; [now apply occurs_app_l|apply occurs_app_r; auto].
Qed.

Lemma nonempty_length {A} (l : list A) x : In x l -> (0 <? length l) = true.
Proof. destruct l; [contradiction|reflexivity]. Qed.

(** The Swift report prints every stored suggestion. *)
Lemma swift_renders_suggestion a file ss s :
  In (file, ss) (allSuggestions a) -> In s ss ->
  occurs (SwiftReport.suggestion_line file s) (SwiftReport.render a).
Proof.
  intros H1 H2. unfold SwiftReport.render. rewrite (nonempty_length _ _ H1).
  do 5 apply occurs_app_r. apply occurs_app_l.
  do 2 apply occurs_app_r. apply occurs_app_l.
  apply (occurs_flat_map _ _ (file, ss)); [assumption|].
  apply (occurs_flat_map _ _ s); [assumption|]. apply occurs_refl.
Qed.

Lemma add_item_new c it : forall o, holds (ReactReport.add_item c it o) c it.
Proof.
  induction o as [|[c0 its] o IH]; simpl.
  - exists [it]. split; now left.
  - destruct (str_eqb c0 c) eqn:E.
    + apply str_eqb_eq in E. subst. exists (its ++ [it]). split; [now left|].
      apply in_or_app. right. now left.
    + destruct IH as [items [H1 H2]]. exists items. split; [now right|assumption].
Qed.

Lemma add_item_old c it c' it' : forall o,
  holds o c' it' -> holds (ReactReport.add_item c it o) c' it'.
Proof.
  induction o as [|[c0 its] o IH]; intros [items [H1 H2]]; [contradiction|].
  simpl. destruct H1 as [H1|H1].
  - injection H1 as -> ->. destruct (str_eqb c' c).
    + exists (items ++ [it]). split; [now left|]. apply in_or_app. now left.
    + exists items. split; [now left|assumption].
  - destruct (str_eqb c0 c).
    + exists items. split; [now right|assumption].
    + destruct IH as [items' [H3 H4]]; [exists items; auto|].
      exists items'. split; [now right|assumption].
Qed.

Lemma categorize_file_old file ss : forall o c it,
  holds o c it ->
  holds (fold_left (fun o s => ReactReport.add_item (s_category s) (item_of file s) o)
                   ss o) c it.
Proof.
  induction ss as [|s ss IH]; intros o c it H; [assumption|].
  simpl. apply IH. now apply add_item_old.
Qed.

Lemma categorize_file_new file ss s : forall o,
  In s ss ->
  holds (fold_left (fun o s => ReactReport.add_item (s_category s) (item_of file s) o)
                   ss o) (s_category s) (item_of file s).
Proof.
  induction ss as [|s0 ss IH]; intros o H; [contradiction|].
  simpl. destruct H as [->|H]; [|now apply IH].
  apply categorize_file_old. apply add_item_new.
Qed.

Lemma categorize_holds all file ss s :
  In (file, ss) all -> In s ss ->
  holds (ReactReport.categorize all) (s_category s) (item_of file s).
Proof.
  unfold ReactReport.categorize. generalize (@nil (str * list ReactReport.Item)).
  induction all as [|[f0 ss0] all IH]; intros o H1 H2; [contradiction|].
  simpl. destruct H1 as [H1|H1]; [|now apply IH].
  injection H1 as -> ->.
  assert (Hold : forall o c it, holds o c it ->
            holds (fold_left (fun o fs =>
                     fold_left (fun o s =>
                       ReactReport.add_item (s_category s)
                         (ReactReport.mkItem (fst fs) (s_line s) (s_message s)
                            (ReactReport.priority_of s)) o) (snd fs) o) all o) c it).
  { clear. induction all as [|[f1 ss1] all IH]; intros o c it H; [assumption|].
    simpl. apply IH. now apply (categorize_file_old f1 ss1). }
  apply Hold. now apply (categorize_file_new file ss s).
Qed.

Lemma In_insert_sorted x y : forall l,
  In x (ReactReport.insert_sorted y l) <-> x = y \/ In x l.
Proof.
  induction l as [|z l IH]; simpl.
  - intuition.
  - destruct (ReactReport.before _ _); simpl; rewrite ?IH; intuition.
Qed.

Lemma In_sortedCategories x o : In x (ReactReport.sortedCategories o) <-> In x o.
Proof.
  unfold ReactReport.sortedCategories. induction o as [|y o IH]; simpl.
  - tauto.
  - rewrite In_insert_sorted, IH. intuition.
Qed.

(** The React report prints every stored suggestion, under the mark of
    its priority. *)
Lemma react_renders_suggestion a file ss s :
  In (file, ss) (allSuggestions a) -> In s ss ->
  In (ReactReport.priority_of s) [txt "high"; txt "medium"; txt "low"] ->
  exists mark,
    occurs (ReactReport.item_line mark (item_of file s)) (ReactReport.render a).
Proof.
  intros H1 H2 HP.
  destruct (categorize_holds _ _ _ _ H1 H2) as [items [Hc Hi]].
  apply In_sortedCategories in Hc.
  assert (HC : exists mark,
    occurs (ReactReport.item_line mark (item_of file s))
           (ReactReport.render_category (s_category s, items))).
  { unfold ReactReport.render_category. cbn [fst snd].
    assert (HF : forall p, ReactReport.priority_of s = txt p ->
              In (item_of file s) (ReactReport.with_priority p items)).
    { intros p E. apply filter_In. split; [assumption|].
      apply str_eqb_eq. exact E. }
    destruct HP as [E|[E|[E|[]]]]; symmetry in E.
    - exists "⚠️"%string. do 3 apply occurs_app_r. apply occurs_app_l.
      apply (occurs_flat_map _ _ (item_of file s)); [now apply HF|apply occurs_refl].
    - exists "🔸"%string. do 4 apply occurs_app_r. apply occurs_app_l.
      apply (occurs_flat_map _ _ (item_of file s)); [now apply HF|apply occurs_refl].
    - exists "💭"%string. do 5 apply occurs_app_r. apply occurs_app_l.
      apply (occurs_flat_map _ _ (item_of file s)); [now apply HF|apply occurs_refl]. }
  destruct HC as [mark HC]. exists mark.
  unfold ReactReport.render, ReactReport.render_suggestions.
  rewrite (nonempty_length _ _ H1).
  do 5 apply occurs_app_r. apply occurs_app_l.
  do 4 apply occurs_app_r. apply occurs_app_l.
  apply (occurs_flat_map _ _ (s_category s, items)); assumption.
Qed.

End Rendering.

Section Literals.

Lemma only_iff c x : only c x = true <-> x = c.
Proof. unfold only. destruct (ascii_dec x c); split; congruence. Qed.

Lemma lit_sound p : forall st st',
  Matches (lit_l p) st st' -> rest st = p ++ rest st'.
Proof.
  induction p as [|c p IH]; intros st st' H; simpl in H.
  - inversion H; subst. reflexivity.
  - destruct p as [|c' p].
    + inversion H; subst. simpl. f_equal. now apply only_iff.
    + inversion H as [| |? ? ? st1 ? H1 H2| | | | | | | |]; subst.
      inversion H1; subst. apply IH in H2. simpl in *.
      f_equal; [now apply only_iff|assumption].
Qed.

Lemma lit_complete p : forall s' pv cp,
  p <> [] ->
  Matches (lit_l p) (MState pv (p ++ s') cp) (MState (last_opt p pv) s' cp).
Proof.
  induction p as [|c p IH]; intros s' pv cp Hp; [congruence|].
  destruct p as [|c' p].
  - simpl. constructor. now apply only_iff.
  - change (lit_l (c :: c' :: p)) with (Chr (only c) >> lit_l (c' :: p)).
    rewrite last_opt_cons. econstructor; [|apply IH; discriminate].
    simpl. constructor. now apply only_iff.
Qed.

(** A literal pattern tests for an occurrence. *)
Lemma test_lit_iff p s : p <> [] -> (test (lit_l p) s = true <-> occurs p s).
Proof.
  intros Hp. rewrite test_true_iff. unfold occurs. split.
  - intros [a [b [st' [-> HM]]]]. apply lit_sound in HM. simpl in HM.
    exists a, (rest st'). congruence.
  - intros [a [b ->]]. exists a, (p ++ b). eexists. split; [reflexivity|].
    now apply lit_complete.
Qed.

Lemma test_alt r1 r2 s :
  test (r1 <|> r2) s = true <-> test r1 s = true \/ test r2 s = true.
Proof.
  rewrite !test_true_iff. split.
  - intros [a [b [st' [E HM]]]]. inversion HM; subst; [left|right]; eauto.
  - intros [[a [b [st' [E HM]]]]|[a [b [st' [E HM]]]]];
      exists a, b, st'; split; auto; [now apply M_AltL|now apply M_AltR].
Qed.

End Literals.

Section Exclusions.

(** Paths under a dependency, build or coverage directory, and minified
    files, are excluded from the React review. *)
Lemma react_excludes_build_paths f :
  occurs (txt "node_modules") f \/ occurs (txt "dist") f \/
  occurs (txt "build") f \/ occurs (txt "coverage") f \/
  occurs (txt ".min.js") f ->
  React.excluded f = true.
Proof.
  intros H. unfold React.excluded, React.re_skip_dirs. apply orb_true_iff. left.
  unfold lit. rewrite !test_alt, !test_lit_iff by discriminate. tauto.
Qed.

(** Paths under a test directory are excluded from the Swift review. *)
Lemma swift_excludes_test_paths f :
  occurs (txt "/Tests/") f \/ occurs (txt "/UITests/") f ->
  Swift.excluded f = true.
Proof.
  intros H. unfold Swift.excluded. apply orb_true_iff. right.
  apply test_true_iff. unfold Swift.re_tests_dir.
  destruct H as [[a [b ->]]|[a [b ->]]].
  - exists a, (txt "/Tests/" ++ b). eexists. split; [reflexivity|].
    change (txt "/Tests/" ++ b) with (txt "/" ++ txt "Tests" ++ txt "/" ++ b).
    econstructor; [apply lit_complete; discriminate|].
    econstructor; [apply M_AltL; apply lit_complete; discriminate|].
    apply lit_complete; discriminate.
  - exists a, (txt "/UITests/" ++ b). eexists. split; [reflexivity|].
    change (txt "/UITests/" ++ b) with (txt "/" ++ txt "UITests" ++ txt "/" ++ b).
    econstructor; [apply lit_complete; discriminate|].
    econstructor; [apply M_AltR; apply lit_complete; discriminate|].
    apply lit_complete; discriminate.
Qed.

(** Paths under a [vendor] directory are excluded from the Laravel
    review. *)
Lemma laravel_excludes_vendor_paths f :
  (exists b, f = txt "vendor/" ++ b) \/ occurs (txt "/vendor/") f ->
  Laravel.excluded f = true.
Proof.
  intros H. unfold Laravel.excluded. rewrite !orb_true_iff. left. left. left.
  apply test_true_iff. unfold Laravel.re_skip_dirs.
  assert (HV : forall pv b, (match pv with Some c => is_word c | None => false end) = false ->
            exists st', Matches (Wordb >> (lit "vendor" <|> lit "node_modules"
                                 <|> lit "bootstrap/cache" <|> lit "storage") >> Wordb)
                          (MState pv (txt "vendor/" ++ b) None) st').
  { intros pv b Hpv. eexists.
    econstructor; [apply M_Wordb; unfold word_before, word_after; simpl;
                   rewrite Hpv; reflexivity|].
    change (txt "vendor/" ++ b) with (txt "vendor" ++ txt "/" ++ b).
    econstructor; [apply M_AltL; apply lit_complete; discriminate|].
    apply M_Wordb. reflexivity. }
  destruct H as [[b ->]|[a [b ->]]].
  - destruct (HV None b eq_refl) as [st' HM].
    exists [], (txt "vendor/" ++ b), st'. split; [reflexivity|exact HM].
  - destruct (HV (Some "/"%char) b eq_refl) as [st' HM].
    exists (a ++ ["/"%char]), (txt "vendor/" ++ b), st'. split.
    + rewrite <- app_assoc. reflexivity.
    + rewrite last_opt_snoc. exact HM.
Qed.

End Exclusions.

Section Names.

Lemma to_lower_idem c : to_lower (to_lower c) = to_lower c.
Proof. destruct c as [[] [] [] [] [] [] [] []]; reflexivity. Qed.

Lemma to_lower_space c : is_space (to_lower c) = is_space c.
Proof. destruct c as [[] [] [] [] [] [] [] []]; reflexivity. Qed.

Lemma to_lower_comma c : to_lower c = ","%char -> c = ","%char.
Proof. destruct c as [[] [] [] [] [] [] [] []]; vm_compute; congruence. Qed.

Lemma toLowerCase_idem s : toLowerCase (toLowerCase s) = toLowerCase s.
Proof.
  unfold toLowerCase. rewrite map_map. apply map_ext. apply to_lower_idem.
Qed.

Lemma trimStart_lower s : trimStart (toLowerCase s) = toLowerCase (trimStart s).
Proof.
  induction s as [|c s IH]; [reflexivity|]. simpl. rewrite to_lower_space.
  destruct (is_space c); [assumption|reflexivity].
Qed.

Lemma trim_lower s : trim (toLowerCase s) = toLowerCase (trim s).
Proof.
  unfold trim. rewrite trimStart_lower. unfold toLowerCase at 1.
  rewrite <- map_rev. fold (toLowerCase (rev (trimStart s))).
  rewrite trimStart_lower. unfold toLowerCase. now rewrite map_rev.
Qed.

Lemma trimStart_idem s : trimStart (trimStart s) = trimStart s.
Proof.
  induction s as [|c s IH]; [reflexivity|]. simpl.
  destruct (is_space c) eqn:E; [assumption|]. simpl. now rewrite E.
Qed.

Lemma trimStart_head s :
  trimStart s = [] \/ exists c t, trimStart s = c :: t /\ is_space c = false.
Proof.
  induction s as [|c s IH]; [now left|]. simpl.
  destruct (is_space c) eqn:E; [assumption|]. right. eauto.
Qed.

Lemma trimStart_suffix s : exists p, s = p ++ trimStart s.
Proof.
  induction s as [|c s [p IH]]; [now exists []|]. simpl.
  destruct (is_space c); [|now exists []].
  exists (c :: p). simpl. now f_equal.
Qed.

Lemma trim_idem s : trim (trim s) = trim s.
Proof.
  unfold trim. set (u := trimStart s). set (v := trimStart (rev u)).
  assert (A : trimStart (rev v) = rev v).
  { destruct (trimStart_suffix (rev u)) as [p Hp]. fold v in Hp.
    apply (f_equal (@rev ascii)) in Hp. rewrite rev_involutive, rev_app_distr in Hp.
    destruct (rev v) as [|c t] eqn:Ev; [reflexivity|].
    destruct (trimStart_head s) as [H|[c' [t' [H Hc]]]]; fold u in H.
    - rewrite H in Hp. discriminate.
    - rewrite H in Hp. simpl in Hp. injection Hp as -> _. simpl. now rewrite Hc. }
  rewrite A, rev_involutive. unfold v. now rewrite trimStart_idem.
Qed.

Lemma In_trimStart c s : In c (trimStart s) -> In c s.
Proof.
  destruct (trimStart_suffix s) as [p Hp]. intros H. rewrite Hp.
  apply in_or_app. now right.
Qed.

Lemma In_trim c s : In c (trim s) -> In c s.
Proof.
  unfold trim. intros H. apply in_rev in H. apply In_trimStart in H.
  apply in_rev in H. now apply In_trimStart.
Qed.

Lemma split_on_no_sep sep : forall s l, In l (split_on sep s) -> ~ In sep l.
Proof.
  induction s as [|c s IH]; intros l H; simpl in H.
  - destruct H as [<-|[]]. intros [].
  - destruct (ascii_dec c sep) as [->|Hne].
    + destruct H as [<-|H]; [intros []|now apply IH].
    + destruct (split_on sep s) as [|l0 ls] eqn:E.
      * destruct H as [<-|[]]. intros [H|[]]. congruence.
      * destruct H as [<-|H].
        -- intros [H|H]; [congruence|]. apply (IH l0); [now left|assumption].
        -- apply IH. now right.
Qed.

Lemma parseLanguages_normalised input x :
  In x (parseLanguages input) -> normalised x.
Proof.
  unfold parseLanguages.
  destruct (negb (truthy input) || str_eqb (trim input) []
            || str_eqb (toLowerCase (trim input)) (txt "auto")).
  - intros [<-|[]]. repeat split; try reflexivity; try discriminate.
    intros H. simpl in H. intuition discriminate.
  - intros H. apply filter_In in H. destruct H as [H T].
    apply in_map_iff in H. destruct H as [s [<- Hs]].
    split; [now apply truthy_iff|]. split; [apply toLowerCase_idem|].
    split; [now rewrite trim_lower, trim_idem|].
    intros Hin. unfold toLowerCase in Hin. apply in_map_iff in Hin.
    destruct Hin as [d [Hd Hin]]. apply to_lower_comma in Hd. subst d.
    apply In_trim in Hin. exact (split_on_no_sep _ _ _ Hs Hin).
Qed.

Lemma In_includes_str l x : includes_str l x = true <-> In x l.
Proof.
  unfold includes_str. rewrite existsb_exists. split.
  - intros [y [H1 H2]]. apply str_eqb_eq in H2. now subst.
  - intros H. exists x. split; [assumption|]. now apply str_eqb_eq.
Qed.

Lemma lower_members x :
  In x prototype_members -> toLowerCase x = x ->
  x = txt "constructor" \/ x = txt "__proto__".
Proof.
  intros H E. simpl in H.
  repeat (destruct H as [<-|H];
          [first [now left | now right | vm_compute in E; discriminate]|]).
  contradiction.
Qed.

End Names.

Lemma known_names_normalised x :
  In x [txt "react"; txt "laravel"] -> normalised x.
Proof.
  intros [<-|[<-|[]]]; (repeat split; try reflexivity; try discriminate);
    intros H; simpl in H; intuition discriminate.
Qed.

Lemma review_names_normalised e x : In x (Dispatcher.toRun e) -> normalised x.
Proof.
  unfold Dispatcher.toRun. cbv zeta. destruct (length _ =? 0).
  - intros [<-|[]]. apply known_names_normalised. now left.
  - destruct (includes_str _ _).
    + unfold Dispatcher.detectLanguagesFromPR.
      destruct (event_source e) as [| | |n]; try contradiction.
      destruct (negb (truthy_num n)); [contradiction|apply known_names_normalised].
    + apply parseLanguages_normalised.
Qed.

Lemma comment_names_normalised e x :
  In x (CommentDispatcher.toRun e) -> normalised x.
Proof.
  unfold CommentDispatcher.toRun. cbv zeta.
  destruct (includes_str _ _);
    [apply known_names_normalised|apply parseLanguages_normalised].
Qed.


(** * The claims of the specification *)










(** C4.  For a path that the exclusion predicate of a profile accepts, the
    evaluator of that profile returns no critical finding and no
    suggestion, whatever the content.  In particular this holds for React
    paths that name a dependency, build or coverage directory or a minified
    file, for Swift paths under a test directory, and for Laravel paths
    under a vendor directory. *)
Theorem excluded_path_yields_nothing (n : StackName) (filePath content : str) :
  (excluded_by n filePath = true ->
   evaluate n filePath content = Ok (mkAnalysis [] [])) /\
  (occurs (txt "node_modules") filePath \/ occurs (txt "dist") filePath \/
   occurs (txt "build") filePath \/ occurs (txt "coverage") filePath \/
   occurs (txt ".min.js") filePath ->
   evaluate react filePath content = Ok (mkAnalysis [] [])) /\
  (occurs (txt "/Tests/") filePath \/ occurs (txt "/UITests/") filePath ->
   evaluate swift filePath content = Ok (mkAnalysis [] [])) /\
  ((exists b, filePath = txt "vendor/" ++ b) \/ occurs (txt "/vendor/") filePath ->
   evaluate laravel filePath content = Ok (mkAnalysis [] [])).
Proof.
  assert (HE : forall n, excluded_by n filePath = true ->
                 evaluate n filePath content = Ok (mkAnalysis [] [])).
  { clear n. intros n. unfold evaluate, excluded_by. destruct n; simpl; intros H.
    - unfold React.analyzeCode. now rewrite H.
    - unfold Laravel.analyzeCode. now rewrite H.
    - unfold Swift.analyzeCode. now rewrite H. }
  split; [apply HE|]. split; [|split].
  - intros H. apply (HE react). now apply react_excludes_build_paths.
  - intros H. apply (HE swift). now apply swift_excludes_test_paths.
  - intros H. apply (HE laravel). now apply laravel_excludes_vendor_paths.
Qed.

Lemma excluded_path_yields_nothing_witness :
  excluded_by laravel (txt "vendor/autoload.php") = true /\
  evaluate laravel (txt "vendor/autoload.php") Sample.debug_src = Ok (mkAnalysis [] []).
Proof.
  assert (H : excluded_by laravel (txt "vendor/autoload.php") = true)
    by (vm_compute; reflexivity).
  split; [exact H|].
  exact (proj1 (excluded_path_yields_nothing laravel (txt "vendor/autoload.php")
                  Sample.debug_src) H).
Defined.

(** C5 (counterexample).  When the listing of the changed files fails, the
    Laravel reviewer posts no report and ends with status 0: the failure
    is not signalled as a failing outcome. *)
Lemma listing_failure_passes :
  listFiles Sample.listing_fails = Throw TypeError /\
  report (reviewPR LaravelReport.stack Sample.listing_fails) = None /\
  ~ exit_status (reviewPR LaravelReport.stack Sample.listing_fails) <> 0.
Proof.
  split; [reflexivity|]. split; [reflexivity|].
  vm_compute. intros H. now apply H.
Qed.

(** C5 (amended).  A failure to list the changed files is caught and read
    as an empty list: the run posts no report and ends with a passing
    status.  A file whose content fetch fails or whose evaluation throws
    leaves the findings as they were, and the rest of the batch is
    processed as if the file were not there; a file whose completion
    request fails keeps its pattern findings and gets no narrative. *)
Theorem listing_failure_is_silent_file_failures_are_local
  (n : StackName) (w : World) :
  ((exists e, listFiles w = Throw e) ->
   report (reviewPR (stack_of n) w) = None /\
   exit_status (reviewPR (stack_of n) w) = 0 /\
   replies (events (reviewPR (stack_of n) w)) = []) /\
  (forall f fs1 fs2 a,
     file_analysis (stack_of n) w f = None ->
     findings (process_file (stack_of n) w f a) = findings a /\
     findings (process_all (stack_of n) w (fs1 ++ f :: fs2) a) =
     findings (process_all (stack_of n) w (fs1 ++ fs2) a)) /\
  (forall f a an,
     file_analysis (stack_of n) w f = Some an ->
     callGroqAI w (st_persona (stack_of n)) (user (review_request (stack_of n) f))
       = None ->
     findings (process_file (stack_of n) w f a) =
     (allCritical a ++
        (if 0 <? length (critical an) then [(filename f, critical an)] else []),
      allSuggestions a ++
        (if 0 <? length (suggestions an) then [(filename f, suggestions an)] else []),
      aiReviews a)).
Proof.
  split.
  { intros [e E]. unfold reviewPR, exit_status, getPRDiff. rewrite E.
    destruct (negb (truthy_num (PR_NUMBER w))); simpl; auto. }
  split.
  { intros f fs1 fs2 a H. split.
    - now apply findings_failed_file.
    - now apply findings_drop_failed. }
  intros f a an H1 H2. rewrite findings_process_file, H1, H2.
  destruct (asks_ai w f); now rewrite app_nil_r.
Qed.

Lemma listing_failure_is_silent_witness :
  (exists e, listFiles Sample.listing_fails = Throw e) /\
  report (reviewPR (stack_of laravel) Sample.listing_fails) = None /\
  exit_status (reviewPR (stack_of laravel) Sample.listing_fails) = 0 /\
  replies (events (reviewPR (stack_of laravel) Sample.listing_fails)) = [].
Proof.
  assert (H : exists e, listFiles Sample.listing_fails = Throw e)
    by (exists TypeError; reflexivity).
  split; [exact H|].
  exact (proj1 (listing_failure_is_silent_file_failures_are_local
                  laravel Sample.listing_fails) H).
Defined.

(** C6 (counterexample).  The phrase [no issues], in lower case, is no
    negative phrase of the React and Laravel reviewers, and [No issues
    found.] is none of the Swift reviewer: such replies are kept.  A
    Laravel run whose endpoint replies [no issues] stores the reply as a
    narrative and posts it. *)
Lemma no_issues_reply_is_published :
  LaravelReport.keep (Some (txt "no issues")) = true /\
  ReactReport.keep (Some (txt "no issues")) = true /\
  SwiftReport.keep (Some (txt "No issues found.")) = true /\
  exists a body,
    report (reviewPR LaravelReport.stack (Sample.replying "no issues")) = Some a /\
    aiReviews a = [(filename Sample.patched, txt "no issues")] /\
    replies (events (reviewPR LaravelReport.stack (Sample.replying "no issues")))
      = [body] /\
    occurs (txt "no issues") body.
Proof.
  split; [reflexivity|]. split; [reflexivity|]. split; [reflexivity|].
  destruct (report (reviewPR LaravelReport.stack (Sample.replying "no issues")))
    as [a|] eqn:E; [|vm_compute in E; discriminate].
  exists a, (LaravelReport.render a). split; [reflexivity|].
  vm_compute in E. injection E as <-.
  split; [vm_compute; reflexivity|].
  split; [vm_compute; reflexivity|].
  apply includes_iff. vm_compute. reflexivity.
Qed.

(** C6 (amended).  An AI reply is reported iff it is not empty and holds
    none of the negative phrases of its reviewer, which are literal: [None]
    and [No issues], in this capitalisation, for React and Laravel; [None]
    alone, in any case of letters, for Swift.  When the endpoint is asked
    about a file and replies, the reply is appended to the narratives of
    the report exactly in that case. *)
Theorem ai_reply_reported_iff_no_negative_phrase (r : str) :
  (ReactReport.keep (Some r) = true <->
   r <> [] /\ ~ occurs (txt "None") r /\ ~ occurs (txt "No issues") r) /\
  (LaravelReport.keep (Some r) = true <->
   r <> [] /\ ~ occurs (txt "None") r /\ ~ occurs (txt "No issues") r) /\
  (SwiftReport.keep (Some r) = true <-> r <> [] /\ ~ occurs_ci (txt "None") r) /\
  (forall n w f a,
     file_analysis (stack_of n) w f <> None ->
     asks_ai w f = true ->
     callGroqAI w (st_persona (stack_of n)) (user (review_request (stack_of n) f))
       = Some r ->
     aiReviews (process_file (stack_of n) w f a) =
     aiReviews a ++
       (if st_keep (stack_of n) (Some r) then [(filename f, r)] else [])).
Proof.
  assert (HK : forall r : str,
    truthy r && negb (includes r (txt "None")) && negb (includes r (txt "No issues")) = true
    <-> r <> [] /\ ~ occurs (txt "None") r /\ ~ occurs (txt "No issues") r).
  { intros s. rewrite !andb_true_iff, !negb_true_iff, truthy_iff,
      !includes_false_iff. tauto. }
  split; [apply HK|]. split; [apply HK|]. split.
  { unfold SwiftReport.keep, SwiftReport.re_none, lit_ci.
    rewrite andb_true_iff, negb_true_iff, truthy_iff.
    rewrite <- (@test_lit_ci_iff (txt "None") r) by discriminate.
    destruct (test (lit_ci_l (txt "None")) r); split; intros [? ?]; split;
      congruence. }
  intros n w f a H1 H2 H3. rewrite aiReviews_process_file, H2, H3.
  destruct (file_analysis (stack_of n) w f); [reflexivity|congruence].
Qed.

Lemma ai_reply_reported_witness :
  file_analysis (stack_of laravel) Sample.ai_world Sample.patched <> None /\
  asks_ai Sample.ai_world Sample.patched = true /\
  callGroqAI Sample.ai_world (st_persona (stack_of laravel))
    (user (review_request (stack_of laravel) Sample.patched))
    = Some Sample.ai_reply /\
  aiReviews (process_file (stack_of laravel) Sample.ai_world Sample.patched (acc0 [])) =
  [] ++ (if st_keep (stack_of laravel) (Some Sample.ai_reply)
         then [(filename Sample.patched, Sample.ai_reply)] else []).
Proof.
  assert (H1 : file_analysis (stack_of laravel) Sample.ai_world Sample.patched <> None)
    by (vm_compute; discriminate).
  assert (H2 : asks_ai Sample.ai_world Sample.patched = true)
    by (vm_compute; reflexivity).
  assert (H3 : callGroqAI Sample.ai_world (st_persona (stack_of laravel))
                 (user (review_request (stack_of laravel) Sample.patched))
               = Some Sample.ai_reply)
    by (vm_compute; reflexivity).
  split; [exact H1|]. split; [exact H2|]. split; [exact H3|].
  exact (proj2 (proj2 (proj2 (ai_reply_reported_iff_no_negative_phrase Sample.ai_reply)))
           laravel Sample.ai_world Sample.patched (acc0 []) H1 H2 H3).
Defined.

(** C7 (failing input).  The Laravel report is composed without reading
    the suggestions: on a controller that validates inline, the evaluator
    emits a suggestion, the run stores it, and the posted comment does not
    hold its message.  The Swift and React reports print every stored
    suggestion. *)
Theorem laravel_report_omits_suggestions :
  (forall a sugg,
     LaravelReport.render (mkAcc (allCritical a) sugg (aiReviews a) (trace a)) =
     LaravelReport.render a) /\
  (exists a s body,
     report (reviewPR LaravelReport.stack Sample.laravel_world) = Some a /\
     allSuggestions a = [(filename Sample.controller, [s])] /\
     replies (events (reviewPR LaravelReport.stack Sample.laravel_world)) = [body] /\
     ~ occurs (s_message s) body) /\
  (forall a file ss s,
     In (file, ss) (allSuggestions a) -> In s ss ->
     occurs (SwiftReport.suggestion_line file s) (SwiftReport.render a)) /\
  (forall a file ss s,
     In (file, ss) (allSuggestions a) -> In s ss ->
     In (ReactReport.priority_of s) [txt "high"; txt "medium"; txt "low"] ->
     exists mark,
       occurs (ReactReport.item_line mark (item_of file s)) (ReactReport.render a)).
Proof.
  split; [reflexivity|].
  split; [|split; [apply swift_renders_suggestion|apply react_renders_suggestion]].
  destruct (report (reviewPR LaravelReport.stack Sample.laravel_world))
    as [a|] eqn:E; [|vm_compute in E; discriminate].
  exists a.
  exists (mkSuggestion 4 (txt "✅ Validation")
            (txt "Consider using Form Request classes for complex validations to keep controllers thin")
            None).
  exists (LaravelReport.render a).
  split; [reflexivity|].
  vm_compute in E. injection E as <-.
  split; [vm_compute; reflexivity|].
  split; [vm_compute; reflexivity|].
  apply includes_false_iff. vm_compute. reflexivity.
Qed.

(** C8 (counterexample).  In auto mode one triggering comment starts both
    handlers, and each posts a reply: two replies, not one. *)
Lemma auto_mode_posts_two_replies :
  auto_mode Sample.auto_env /\
  length (replies (snd (CommentDispatcher.main Sample.auto_env
                          (comment_children (Sample.asking "@ai-reviewer why is this slow?")
                                            Sample.no_children)))) = 2 /\
  length (replies (snd (CommentDispatcher.main Sample.auto_env
                          (comment_children (Sample.asking "@ai-reviewer why is this slow?")
                                            Sample.no_children)))) <> 1.
Proof.
  split; [reflexivity|].
  assert (H : length (replies (snd (CommentDispatcher.main Sample.auto_env
                (comment_children (Sample.asking "@ai-reviewer why is this slow?")
                                  Sample.no_children)))) = 2)
    by (vm_compute; reflexivity).
  split; [exact H|]. rewrite H. discriminate.
Qed.

(** C8 (amended).  Every run of a comment handler posts exactly one reply:
    the help text when the question is empty, otherwise its reply template
    around a non-empty answer.  The answer is one of the fallback messages
    when there is no credential, and when the one completion request the
    handler made for the question got no completion text (the endpoint
    could not be reached, or its response held no text).  The comment dispatcher starts one
    handler per requested registered stack, so a triggering comment gets
    one reply per handler started: two in auto mode.  This holds for every
    requested list when a child that is no handler posts nothing. *)
Theorem each_handler_run_posts_one_reply (w : World) :
  answers_once ReactHandler.handleComment ReactHandler.help ReactHandler.reply w /\
  answers_once LaravelHandler.handleComment LaravelHandler.help LaravelHandler.reply w /\
  answers_once SwiftHandler.handleComment SwiftHandler.help SwiftHandler.reply w /\
  (forall e other,
     not_inherited (CommentDispatcher.toRun e) ->
     length (replies (snd (CommentDispatcher.main e (comment_children w other)))) =
     handler_runs (CommentDispatcher.toRun e)) /\
  (forall e other,
     (forall v, fst (other v) <> SpawnThrows /\ replies (snd (other v)) = []) ->
     length (replies (snd (CommentDispatcher.main e (comment_children w other)))) =
     handler_runs (CommentDispatcher.toRun e)) /\
  (forall e, auto_mode e -> handler_runs (CommentDispatcher.toRun e) = 2).
Proof.
  split; [apply react_handler_answers_once|].
  split; [apply laravel_handler_answers_once|].
  split; [apply swift_handler_answers_once|].
  split; [|split].
  - intros e other H. now apply comment_run_replies.
  - intros e other H. now apply comment_run_replies_quiet.
  - intros e H. now rewrite comment_toRun_auto.
Qed.

Lemma each_handler_run_posts_one_reply_witness :
  not_inherited (CommentDispatcher.toRun (mkEnv (Some (txt "laravel")) NoEventPath)) /\
  length (replies (snd (CommentDispatcher.main
                          (mkEnv (Some (txt "laravel")) NoEventPath)
                          (comment_children (Sample.asking "@ai-reviewer why?")
                                            Sample.no_children)))) =
  handler_runs (CommentDispatcher.toRun (mkEnv (Some (txt "laravel")) NoEventPath)) /\
  exists answer,
    replies (LaravelHandler.handleComment (Sample.unreachable "@ai-reviewer why?")) =
      [LaravelHandler.reply answer] /\
    In answer fallbacks.
Proof.
  assert (H : not_inherited
                (CommentDispatcher.toRun (mkEnv (Some (txt "laravel")) NoEventPath)))
    by (vm_compute; repeat constructor).
  split; [exact H|].
  split.
  { exact (proj1 (proj2 (proj2 (proj2
             (each_handler_run_posts_one_reply (Sample.asking "@ai-reviewer why?")))))
             (mkEnv (Some (txt "laravel")) NoEventPath) Sample.no_children H). }
  destruct (proj1 (proj2 (each_handler_run_posts_one_reply
                            (Sample.unreachable "@ai-reviewer why?"))))
    as [body [HB [_ HQ]]].
  destruct HQ as [answer [E [_ [_ HF]]]]; [vm_compute; discriminate|].
  destruct (HF eq_refl) as [req [_ [_ [_ HN]]]].
  exists answer. split; [now rewrite HB, E|].
  apply HN. right. left. reflexivity.
Defined.

(** C9.  The evaluator of every stack returns normally on every content
    and path.  In particular the one rule that reads a capture of a match
    (React rule 13) never reads it from a failed match, and the name it
    reads, from which it builds a pattern, is a non-empty run of word
    characters; the base name of the path is always there to read. *)
Theorem evaluator_never_throws (n : StackName) (filePath content : str) :
  (exists an, evaluate n filePath content = Ok an) /\
  (forall lines line idx, exists out, React.rule_let lines line idx = Ok out) /\
  (forall line v,
     exec React.re_let_name line = Some v ->
     exists name, v = Some name /\ name <> [] /\
                  Forall (fun c => is_word c = true) name).
Proof.
  split; [|split; [apply rule_let_ok|apply let_name_is_word]].
  unfold evaluate. destruct n; simpl; eauto using React_analyzeCode_ok.
Qed.

Lemma evaluator_never_throws_witness :
  exec React.re_let_name (txt "  let total = 0;") = Some (Some (txt "total")) /\
  exists name, Some (txt "total") = Some name /\ name <> [] /\
               Forall (fun c => is_word c = true) name.
Proof.
  assert (H : exec React.re_let_name (txt "  let total = 0;") = Some (Some (txt "total")))
    by (vm_compute; reflexivity).
  split; [exact H|].
  exact (proj2 (proj2 (evaluator_never_throws react [] []))
           (txt "  let total = 0;") (Some (txt "total")) H).
Defined.

(** C10.  A file of the listing whose status is [removed] is not in the
    reviewed set, and every content fetch, evaluation and completion
    request of a run belongs to a file of the reviewed set, whose status
    is not [removed]. *)
Theorem removed_files_are_not_reviewed (n : StackName) (w : World) :
  (forall files f,
     listFiles w = Ok files -> In f files -> status f = txt "removed" ->
     ~ In f (reviewed (stack_of n) w)) /\
  (forall e,
     In e (events (reviewPR (stack_of n) w)) -> file_event e ->
     exists f, In f (reviewed (stack_of n) w) /\
               status f <> txt "removed" /\
               event_of_file (stack_of n) f e).
Proof.
  split.
  - intros files f _ _ Hs Hin. apply reviewed_matches in Hin.
    destruct Hin as [Hm _]. now apply matches_not_removed in Hm.
  - intros e Hin He. destruct (events_reviewPR _ _ _ Hin He) as [f [Hf Hev]].
    exists f. split; [assumption|]. split; [|assumption].
    apply reviewed_matches in Hf. destruct Hf as [Hm _].
    now apply matches_not_removed in Hm.
Qed.

Lemma removed_files_are_not_reviewed_witness :
  listFiles Sample.removal_world = Ok [Sample.removed_file; Sample.helper] /\
  In Sample.removed_file [Sample.removed_file; Sample.helper] /\
  status Sample.removed_file = txt "removed" /\
  ~ In Sample.removed_file (reviewed (stack_of laravel) Sample.removal_world).
Proof.
  assert (H1 : listFiles Sample.removal_world = Ok [Sample.removed_file; Sample.helper])
    by reflexivity.
  assert (H2 : In Sample.removed_file [Sample.removed_file; Sample.helper])
    by (simpl; left; reflexivity).
  assert (H3 : status Sample.removed_file = txt "removed") by reflexivity.
  split; [exact H1|]. split; [exact H2|]. split; [exact H3|].
  exact (proj1 (removed_files_are_not_reviewed laravel Sample.removal_world)
           _ _ H1 H2 H3).
Defined.


(** * Further properties of the code

    Properties read off the sources beyond the claims of the
    specification: what the evaluators find and where, what a run asks of
    its collaborators, and what reaches the pull request. *)

Section Lines.

Context {B : Type} (key : B -> nat).

Lemma in_lines_nil lo n : in_lines key lo n [].
Proof. split; constructor. Qed.

Lemma in_lines_step lo n out more :
  numbered key lo out -> in_lines key (S lo) n more ->
  in_lines key lo (S n) (out ++ more).
Proof.
  unfold numbered, in_lines. intros Ho [Hs Hr]. split.
  - rewrite map_app. induction out as [|y out IH]; simpl; [assumption|].
    inversion Ho as [|? ? Hy Ho']; subst. constructor; [now apply IH|].
    rewrite Forall_forall. intros k Hk. apply in_app_or in Hk.
    destruct Hk as [Hk|Hk].
    + apply in_map_iff in Hk. destruct Hk as [z [<- Hz]].
      rewrite Forall_forall in Ho'. rewrite (Ho' z Hz). lia.
    + apply in_map_iff in Hk. destruct Hk as [z [<- Hz]].
      rewrite Forall_forall in Hr. specialize (Hr z Hz). lia.
  - apply Forall_app. split.
    + eapply Forall_impl; [|exact Ho]. simpl. intros y ->. lia.
    + eapply Forall_impl; [|exact Hr]. simpl. intros y [? ?]. lia.
Qed.

Lemma forEach_in_lines {A} (f : A -> nat -> list B) :
  (forall x idx, numbered key idx (f x idx)) ->
  forall l idx, in_lines key idx (length l) (forEach f l idx).
Proof.
  intros Hf. induction l as [|x l IH]; intros idx; simpl.
  - apply in_lines_nil.
  - apply in_lines_step; [apply Hf|apply IH].
Qed.

Lemma forEachR_in_lines {A} (f : A -> nat -> result (list B)) :
  (forall x idx out, f x idx = Ok out -> numbered key idx out) ->
  forall l idx out,
    forEachR f l idx = Ok out -> in_lines key idx (length l) out.
Proof.
  intros Hf. induction l as [|x l IH]; intros idx out H; simpl in H.
  - injection H as <-. apply in_lines_nil.
  - destruct (f x idx) as [o|] eqn:E; [|discriminate]. simpl in H.
    destruct (forEachR f l (S idx)) as [o'|] eqn:E'; [|discriminate].
    simpl in H. injection H as <-.
    apply in_lines_step; [now apply (Hf x)|now apply IH].
Qed.

Lemma numbered_app idx a b :
  numbered key idx a -> numbered key idx b -> numbered key idx (a ++ b).
Proof. intros. apply Forall_app. now split. Qed.

Lemma numbered_push idx c y : key y = idx + 1 -> numbered key idx (push_if c y).
Proof. intros H. destruct c; simpl; repeat constructor. assumption. Qed.

Lemma numbered_nil idx : numbered key idx [].
Proof. constructor. Qed.

End Lines.

Lemma forEach2_in_lines {A B C} (kb : B -> nat) (kc : C -> nat)
  (f : A -> nat -> list B * list C) :
  (forall x idx, numbered kb idx (fst (f x idx)) /\ numbered kc idx (snd (f x idx))) ->
  forall l idx,
    in_lines kb idx (length l) (fst (forEach2 f l idx)) /\
    in_lines kc idx (length l) (snd (forEach2 f l idx)).
Proof.
  intros Hf. induction l as [|x l IH]; intros idx; simpl.
  - split; apply in_lines_nil.
  - destruct (Hf x idx) as [H1 H2]. destruct (f x idx) as [b c].
    destruct (IH (S idx)) as [I1 I2]. destruct (forEach2 f l (S idx)) as [bs cs].
    simpl in *. split; now apply in_lines_step.
Qed.

Ltac numbered_tac :=
  repeat match goal with
         | |- numbered _ _ (_ ++ _) => apply numbered_app
         | |- numbered _ _ (push_if _ _) => apply numbered_push; reflexivity
         | |- numbered _ _ [] => apply numbered_nil
         | |- numbered _ _ (if ?c then _ else _) => destruct c
         | |- numbered _ _ (let _ := _ in _) => cbv zeta
         end.

Section EvaluatorLines.

Lemma laravel_suggestions_in_lines content filename :
  in_lines s_line 0 (length (split_nl content))
           (Laravel.checkBestPractices content filename).
Proof.
  unfold Laravel.checkBestPractices. apply forEach_in_lines.
  intros line idx. cbv zeta. numbered_tac.
Qed.

Lemma laravel_in_lines content filename :
  in_lines i_line 0 (length (split_nl content))
           (critical (Laravel.analyzeCode content filename)) /\
  in_lines s_line 0 (length (split_nl content))
           (suggestions (Laravel.analyzeCode content filename)).
Proof.
  unfold Laravel.analyzeCode. destruct (Laravel.excluded filename); simpl.
  - split; apply in_lines_nil.
  - split; [|apply laravel_suggestions_in_lines].
    apply forEach_in_lines. intros line idx. cbv zeta. numbered_tac.
Qed.

Lemma swift_in_lines content filename :
  in_lines i_line 0 (length (split_nl content))
           (critical (Swift.analyzeCode content filename)) /\
  in_lines s_line 0 (length (split_nl content))
           (suggestions (Swift.analyzeCode content filename)).
Proof.
  unfold Swift.analyzeCode. destruct (Swift.excluded filename); simpl.
  - split; apply in_lines_nil.
  - match goal with
    | |- context [forEach2 ?g ?l 0] =>
        set (f := g);
        pose proof (@forEach2_in_lines _ _ _ i_line s_line f) as H;
        destruct (forEach2 f l 0) as [cs ss] eqn:E
    end.
    simpl.
    assert (Hf : forall line idx,
              numbered i_line idx (fst (f line idx)) /\
              numbered s_line idx (snd (f line idx))).
    { intros line idx. subst f. cbv beta zeta.
      match goal with
      | |- context [if ?c then ([], []) else _] => destruct c
      end; cbn [fst snd]; split; numbered_tac. }
    specialize (H Hf (split_nl content) 0).
    rewrite E in H. exact H.
Qed.

Lemma rule_let_numbered lines line idx out :
  React.rule_let lines line idx = Ok out -> numbered s_line idx out.
Proof.
  unfold React.rule_let. destruct (test React.re_let_decl line); [|intros H; injection H as <-; constructor].
  destruct (React.capture1 React.re_let_name line) as [v|]; simpl; [|discriminate].
  intros H. injection H as <-. numbered_tac.
Qed.

Lemma react_suggestions_in_lines content filename out :
  React.checkBestPractices content filename = Ok out ->
  in_lines s_line 0 (length (split_nl content)) out.
Proof.
  unfold React.checkBestPractices.
  destruct (pop_then (split_on "/" filename)) as [base|]; [|discriminate].
  cbn [bind]. apply forEachR_in_lines. intros line idx o. cbv zeta.
  destruct (React.skip_line (trim line)); [intros H; injection H as <-; constructor|].
  destruct (React.rule_let (split_nl content) line idx) as [r|] eqn:E; [|discriminate].
  cbn [bind]. intros H. injection H as <-.
  apply rule_let_numbered in E.
  repeat apply numbered_app; try exact E; numbered_tac.
Qed.

Lemma react_in_lines content filename an :
  React.analyzeCode content filename = Ok an ->
  in_lines i_line 0 (length (split_nl content)) (critical an) /\
  in_lines s_line 0 (length (split_nl content)) (suggestions an).
Proof.
  unfold React.analyzeCode. destruct (React.excluded filename).
  - intros H. injection H as <-. split; apply in_lines_nil.
  - destruct (React.checkBestPractices content filename) as [ss|] eqn:E; [|discriminate].
    cbn [bind]. intros H. injection H as <-. simpl. split.
    + apply forEach_in_lines. intros line idx. cbv zeta. unfold React.crit. numbered_tac.
    + now apply react_suggestions_in_lines in E.
Qed.

End EvaluatorLines.

(** X1.  Findings carry the numbers of existing lines, in line order. *)
Theorem findings_carry_line_numbers (n : StackName) (path content : str)
  (an : Analysis) :
  evaluate n path content = Ok an ->
  in_lines i_line 0 (length (split_nl content)) (critical an) /\
  in_lines s_line 0 (length (split_nl content)) (suggestions an).
Proof.
  unfold evaluate. destruct n; simpl.
  - apply react_in_lines.
  - intros H. injection H as <-. apply laravel_in_lines.
  - intros H. injection H as <-. apply swift_in_lines.
Qed.

Section CommentOnly.

Lemma forEach_all_skipped {A B} (f : A -> nat -> list B) l :
  (forall x idx, In x l -> f x idx = []) -> forall idx, forEach f l idx = [].
Proof.
  induction l as [|x l IH]; intros H idx; simpl; [reflexivity|].
  rewrite H by now left. rewrite IH; [reflexivity|]. intros y i Hy. apply H. now right.
Qed.

Lemma forEach2_all_skipped {A B C} (f : A -> nat -> list B * list C) l :
  (forall x idx, In x l -> f x idx = ([], [])) ->
  forall idx, forEach2 f l idx = ([], []).
Proof.
  induction l as [|x l IH]; intros H idx; simpl; [reflexivity|].
  rewrite H by now left. rewrite IH; [reflexivity|]. intros y i Hy. apply H. now right.
Qed.

Lemma forEachR_all_skipped {A B} (f : A -> nat -> result (list B)) l :
  (forall x idx, In x l -> f x idx = Ok []) ->
  forall idx, forEachR f l idx = Ok [].
Proof.
  induction l as [|x l IH]; intros H idx; simpl; [reflexivity|].
  rewrite H by now left. simpl. rewrite IH; [reflexivity|].
  intros y i Hy. apply H. now right.
Qed.

(** A line that is blank or opens a line comment, once trimmed. *)
Lemma comment_line_skipped line :
  comment_or_blank line ->
  Laravel.skip_line (trim line) = true /\
  React.skip_line (trim line) = true /\
  negb (truthy (trim line)) || startsWith (trim line) (txt "//") = true.
Proof.
  unfold comment_or_blank, Laravel.skip_line, React.skip_line.
  intros [E|[b E]]; rewrite E.
  - repeat split; reflexivity.
  - assert (HS : startsWith (txt "//" ++ b) (txt "//") = true)
      by (apply startsWith_iff; exists b; reflexivity).
    split; [|split].
    + rewrite HS. now rewrite orb_true_r.
    + apply orb_true_iff. right. apply test_true_iff.
      exists [], (txt "//" ++ b). eexists. split; [reflexivity|].
      unfold React.re_comment. econstructor; [now apply M_Bol|].
      apply M_AltL. apply (@lit_complete (txt "//") b None None). discriminate.
    + rewrite HS. apply orb_true_r.
Qed.

End CommentOnly.

(** X2.  Content made of blank lines and line comments yields no finding. *)
Theorem comments_yield_no_finding (n : StackName) (path content : str) :
  (forall line, In line (split_nl content) -> comment_or_blank line) ->
  evaluate n path content = Ok (mkAnalysis [] []).
Proof.
  intros H. unfold evaluate. destruct n; simpl.
  - unfold React.analyzeCode. destruct (React.excluded path); [reflexivity|].
    unfold React.checkBestPractices.
    destruct (pop_then_ok (split_on_nonempty "/" path)) as [base ->]. cbn [bind].
    rewrite forEachR_all_skipped, forEach_all_skipped; [reflexivity| |];
      intros line idx Hl; cbv zeta;
      destruct (comment_line_skipped (H line Hl)) as [_ [-> _]]; reflexivity.
  - unfold Laravel.analyzeCode, Laravel.checkBestPractices.
    destruct (Laravel.excluded path); [reflexivity|].
    rewrite !forEach_all_skipped; [reflexivity| |];
      intros line idx Hl; cbv zeta;
      destruct (comment_line_skipped (H line Hl)) as [-> _]; reflexivity.
  - unfold Swift.analyzeCode. destruct (Swift.excluded path); [reflexivity|].
    rewrite forEach2_all_skipped; [reflexivity|].
    intros line idx Hl. cbv zeta.
    destruct (comment_line_skipped (H line Hl)) as [_ [_ ->]]. reflexivity.
Qed.

Lemma comments_yield_no_finding_witness :
  (forall line, In line (split_nl Sample.commented) -> comment_or_blank line) /\
  evaluate laravel (txt "app/User.php") Sample.commented = Ok (mkAnalysis [] []).
Proof.
  assert (H : forall line, In line (split_nl Sample.commented) -> comment_or_blank line).
  { intros line Hl. vm_compute in Hl.
    destruct Hl as [<-|[<-|[<-|[]]]].
    - right. eexists. vm_compute. reflexivity.
    - left. vm_compute. reflexivity.
    - right. eexists. vm_compute. reflexivity. }
  split; [exact H|].
  exact (@comments_yield_no_finding laravel (txt "app/User.php") Sample.commented H).
Defined.

Lemma findings_carry_line_numbers_witness :
  in_lines i_line 0 (length (split_nl Sample.debug_src))
    (critical (Laravel.analyzeCode Sample.debug_src (filename Sample.helper))) /\
  in_lines s_line 0 (length (split_nl Sample.debug_src))
    (suggestions (Laravel.analyzeCode Sample.debug_src (filename Sample.helper))).
Proof.
  apply (@findings_carry_line_numbers laravel (filename Sample.helper) Sample.debug_src).
  reflexivity.
Defined.

Section RunShape.

Variable S : Stack.
Variable w : World.

Lemma trace_process_file_eq f a :
  trace (process_file S w f a) = trace a ++ file_events S w f.
Proof.
  unfold process_file, process_body, file_events, asks_ai, review_request, log; simpl.
  repeat match goal with
         | |- context [match ?x with _ => _ end] => destruct x eqn:?; simpl
         end;
  rewrite <- ?app_assoc; simpl; try reflexivity; try congruence;
  simpl in *; try discriminate.
Qed.

Lemma process_all_shape files : forall a,
  allCritical (process_all S w files a) =
    allCritical a ++ flat_map (critical_of S w) files /\
  allSuggestions (process_all S w files a) =
    allSuggestions a ++ flat_map (suggestions_of S w) files /\
  aiReviews (process_all S w files a) =
    aiReviews a ++ flat_map (narrative_of S w) files /\
  trace (process_all S w files a) =
    trace a ++ flat_map (file_events S w) files.
Proof.
  induction files as [|f files IH]; intros a.
  - simpl. now rewrite !app_nil_r.
  - rewrite process_all_cons. destruct (IH (process_file S w f a)) as [H1 [H2 [H3 H4]]].
    rewrite H1, H2, H3, H4.
    rewrite allCritical_process_file, allSuggestions_process_file,
      aiReviews_process_file, trace_process_file_eq.
    simpl. unfold critical_of, suggestions_of, narrative_of.
    now rewrite <- !app_assoc.
Qed.

(** The shape of a run that reaches the loop. *)
Lemma reviewPR_shape :
  runs S w = true ->
  exists a,
    report (reviewPR S w) = Some a /\
    allCritical a = flat_map (critical_of S w) (reviewed S w) /\
    allSuggestions a = flat_map (suggestions_of S w) (reviewed S w) /\
    aiReviews a = flat_map (narrative_of S w) (reviewed S w) /\
    exitCode (reviewPR S w) = st_exit S (hasCritical a) /\
    events (reviewPR S w) =
      EvListFiles :: flat_map (file_events S w) (reviewed S w) ++
      [EvCreateComment (st_render S (process_all S w (reviewed S w) (acc0 [EvListFiles])))].
Proof.
  unfold runs, reviewPR, reviewed. intros H. apply andb_prop in H. destruct H as [H1 H2].
  rewrite H1. apply negb_true_iff in H2. rewrite H2. cbn [negb].
  destruct (process_all_shape (slice 0 (st_batch S) (getPRDiff S w)) (acc0 [EvListFiles]))
    as [E1 [E2 [E3 E4]]].
  eexists. split; [reflexivity|]. cbn [allCritical allSuggestions aiReviews log trace events exitCode].
  rewrite E1, E2, E3, E4. simpl. repeat split; reflexivity.
Qed.

Lemma reviewPR_idle :
  runs S w = false ->
  report (reviewPR S w) = None /\ exitCode (reviewPR S w) = None /\
  (events (reviewPR S w) = [] \/ events (reviewPR S w) = [EvListFiles]).
Proof.
  unfold runs, reviewPR. intros H.
  destruct (truthy_num (PR_NUMBER w)); simpl in *; [|auto].
  apply negb_false_iff in H. rewrite H. simpl. auto.
Qed.

End RunShape.

Section Counting.

Lemma count_app p a b : count p (a ++ b) = count p a + count p b.
Proof. unfold count. now rewrite filter_app, length_app. Qed.

Lemma count_flat_map {A} p (g : A -> list event) l :
  count p (flat_map g l) = list_sum (map (fun x => count p (g x)) l).
Proof.
  induction l as [|x l IH]; simpl; [reflexivity|]. now rewrite count_app, IH.
Qed.

Lemma list_sum_le {A} (g h : A -> nat) l :
  (forall x, g x <= h x) -> list_sum (map g l) <= list_sum (map h l).
Proof.
  intros H. induction l as [|x l IH]; simpl; [lia|]. specialize (H x). lia.
Qed.

Lemma list_sum_zero {A} (g : A -> nat) l :
  (forall x, g x = 0) -> list_sum (map g l) = 0.
Proof. intros H. induction l as [|x l IH]; simpl; [reflexivity|]. now rewrite H, IH. Qed.

Lemma flat_map_nil {A B} (g : A -> list B) l :
  (forall x, g x = []) -> flat_map g l = [].
Proof. intros H. induction l as [|x l IH]; simpl; [reflexivity|]. now rewrite H, IH. Qed.

Lemma list_sum_const {A} (l : list A) : list_sum (map (fun _ => 1) l) = length l.
Proof. induction l; simpl; lia. Qed.

Lemma file_events_counts S w f :
  count is_completion (file_events S w f) <= count is_evaluation (file_events S w f) /\
  count is_evaluation (file_events S w f) <= 1 /\
  count is_fetch (file_events S w f) = 1 /\
  replies (file_events S w f) = [].
Proof.
  unfold file_events.
  destruct (getContent w (filename f)); [|cbv; auto].
  destruct (st_analyze S _ _); [|cbv; auto].
  destruct (asks_ai w f); cbv; auto.
Qed.

Lemma replies_flat_map_nil {A} (g : A -> list event) l :
  (forall x, replies (g x) = []) -> replies (flat_map g l) = [].
Proof.
  intros H. induction l as [|x l IH]; simpl; [reflexivity|].
  now rewrite replies_app, H, IH.
Qed.

Lemma length_reviewed S w : length (reviewed S w) <= st_batch S.
Proof. unfold reviewed. rewrite slice0. apply firstn_le_length. Qed.

Lemma batch_le_10 n : st_batch (stack_of n) <= 10.
Proof. destruct n; simpl; lia. Qed.

End Counting.

(** X3.  A run fetches each reviewed file once, at most the batch limit of
    files; it evaluates no more files than it fetched and asks the endpoint
    about no more files than it evaluated; it posts at most one comment. *)
Theorem run_is_bounded_by_batch (n : StackName) (w : World) :
  count is_completion (events (reviewPR (stack_of n) w)) <=
    count is_evaluation (events (reviewPR (stack_of n) w)) /\
  count is_evaluation (events (reviewPR (stack_of n) w)) <=
    count is_fetch (events (reviewPR (stack_of n) w)) /\
  count is_fetch (events (reviewPR (stack_of n) w)) =
    (if runs (stack_of n) w then length (reviewed (stack_of n) w) else 0) /\
  length (reviewed (stack_of n) w) <= st_batch (stack_of n) /\
  st_batch (stack_of n) <= 10 /\
  length (replies (events (reviewPR (stack_of n) w))) =
    (if runs (stack_of n) w then 1 else 0).
Proof.
  set (S := stack_of n).
  assert (HB := length_reviewed S w). assert (H10 := batch_le_10 n). fold S in H10.
  destruct (runs S w) eqn:R.
  - destruct (reviewPR_shape S w R) as [a [_ [_ [_ [_ [_ ->]]]]]].
    change (EvListFiles :: ?l) with ([EvListFiles] ++ l).
    rewrite !count_app, !count_flat_map, !replies_app.
    rewrite (replies_flat_map_nil (file_events S w) (reviewed S w)
               (fun f => proj2 (proj2 (proj2 (file_events_counts S w f))))).
    assert (H1 := list_sum_le (fun f => count is_completion (file_events S w f))
                    (fun f => count is_evaluation (file_events S w f)) (reviewed S w)
                    (fun f => proj1 (file_events_counts S w f))).
    assert (H2 : list_sum (map (fun f => count is_fetch (file_events S w f)) (reviewed S w))
                 = length (reviewed S w)).
    { rewrite <- list_sum_const. f_equal. apply map_ext. intros f.
      apply (file_events_counts S w f). }
    assert (H3 := list_sum_le (fun f => count is_evaluation (file_events S w f))
                    (fun f => 1) (reviewed S w)
                    (fun f => proj1 (proj2 (file_events_counts S w f)))).
    rewrite list_sum_const in H3.
    set (sc := list_sum (map (fun f => count is_completion (file_events S w f))
                             (reviewed S w))) in *.
    set (se := list_sum (map (fun f => count is_evaluation (file_events S w f))
                             (reviewed S w))) in *.
    set (sf := list_sum (map (fun f => count is_fetch (file_events S w f))
                             (reviewed S w))) in *.
    clearbody sc se sf. cbn. repeat split; lia.
  - destruct (reviewPR_idle S w R) as [_ [_ [-> | ->]]]; cbn; repeat split; lia.
Qed.

(** X4.  The endpoint is asked only with a credential, only about a reviewed
    file whose patch is longer than 50 units, and the request carries a
    prefix of the patch no longer than the limit of the reviewer. *)
Theorem completion_requests_are_gated (n : StackName) (w : World)
  (req : ChatRequest) :
  In (EvCompletion req) (events (reviewPR (stack_of n) w)) ->
  truthy_opt (GROQ_API_KEY w) = true /\
  exists f p,
    In f (reviewed (stack_of n) w) /\ patch f = Some p /\ 50 < length p /\
    req = mkChat (st_persona (stack_of n)) []
            (st_prompt (stack_of n) (filename f)
               (firstn (st_patch_limit (stack_of n)) p)) /\
    length (firstn (st_patch_limit (stack_of n)) p) <= 3500.
Proof.
  set (S := stack_of n). intros H.
  destruct (runs S w) eqn:R.
  2:{ destruct (reviewPR_idle S w R) as [_ [_ [E | E]]]; rewrite E in H;
      simpl in H; intuition discriminate. }
  destruct (reviewPR_shape S w R) as [a [_ [_ [_ [_ [_ E]]]]]]. rewrite E in H.
  destruct H as [H|H]; [discriminate|]. apply in_app_or in H.
  destruct H as [H|[H|[]]]; [|discriminate].
  apply in_flat_map in H. destruct H as [f [Hf H]].
  unfold file_events in H. destruct H as [H|H]; [discriminate|].
  destruct (getContent w (filename f)); [|contradiction].
  destruct H as [H|H]; [discriminate|].
  destruct (st_analyze S _ _); [|contradiction].
  unfold asks_ai in H. destruct (patch f) as [p|] eqn:P; [|contradiction].
  destruct (truthy_opt (GROQ_API_KEY w) && truthy p && (50 <? length p)) eqn:C;
    [|contradiction].
  destruct H as [H|[]]. injection H as <-.
  apply andb_prop in C. destruct C as [C C3]. apply andb_prop in C. destruct C as [C1 C2].
  split; [assumption|]. exists f, p. split; [assumption|]. split; [exact P|].
  split; [now apply Nat.ltb_lt|]. split.
  - unfold review_request. rewrite P. now rewrite slice0.
  - etransitivity; [apply firstn_le_length|]. subst S. destruct n; simpl; lia.
Qed.

Section Independence.

Variable S : Stack.
Variables w w' : World.
Hypothesis same_number : PR_NUMBER w = PR_NUMBER w'.
Hypothesis same_listing : listFiles w = listFiles w'.
Hypothesis same_content : forall path, getContent w path = getContent w' path.

Lemma same_reviewed : reviewed S w = reviewed S w'.
Proof. unfold reviewed, getPRDiff. now rewrite same_listing. Qed.

Lemma same_runs : runs S w = runs S w'.
Proof. unfold runs, getPRDiff. now rewrite same_number, same_listing. Qed.

Lemma same_analysis f : file_analysis S w f = file_analysis S w' f.
Proof. unfold file_analysis. now rewrite same_content. Qed.

Lemma same_pattern_findings :
  option_map allCritical (report (reviewPR S w)) =
    option_map allCritical (report (reviewPR S w')) /\
  option_map allSuggestions (report (reviewPR S w)) =
    option_map allSuggestions (report (reviewPR S w')) /\
  exitCode (reviewPR S w) = exitCode (reviewPR S w').
Proof.
  pose proof same_runs as R. destruct (runs S w) eqn:R1; symmetry in R.
  - destruct (reviewPR_shape S w R1) as [a [-> [A1 [A2 [_ [-> _]]]]]].
    destruct (reviewPR_shape S w' R) as [a' [-> [B1 [B2 [_ [-> _]]]]]].
    simpl. unfold hasCritical. rewrite A1, A2, B1, B2, same_reviewed.
    unfold critical_of, suggestions_of.
    assert (E1 : flat_map (fun f => match file_analysis S w f with
                  | Some an => if 0 <? length (critical an)
                               then [(filename f, critical an)] else []
                  | None => [] end) (reviewed S w') =
                 flat_map (fun f => match file_analysis S w' f with
                  | Some an => if 0 <? length (critical an)
                               then [(filename f, critical an)] else []
                  | None => [] end) (reviewed S w')).
    { apply flat_map_ext. intros f. now rewrite same_analysis. }
    assert (E2 : flat_map (fun f => match file_analysis S w f with
                  | Some an => if 0 <? length (suggestions an)
                               then [(filename f, suggestions an)] else []
                  | None => [] end) (reviewed S w') =
                 flat_map (fun f => match file_analysis S w' f with
                  | Some an => if 0 <? length (suggestions an)
                               then [(filename f, suggestions an)] else []
                  | None => [] end) (reviewed S w')).
    { apply flat_map_ext. intros f. now rewrite same_analysis. }
    rewrite E1, E2. auto.
  - destruct (reviewPR_idle S w R1) as [-> [-> _]].
    destruct (reviewPR_idle S w' R) as [-> [-> _]]. auto.
Qed.

End Independence.

(** X5.  The pattern findings and the gate do not depend on the completion
    endpoint: two runs that see the same pull request, listing and file
    contents store the same critical findings and suggestions and set the
    same exit code, whatever the credential and the replies of the
    endpoint; and without a credential a run sends no completion request
    and stores no narrative. *)
Theorem pattern_findings_ignore_the_endpoint (n : StackName) (w w' : World) :
  (PR_NUMBER w = PR_NUMBER w' -> listFiles w = listFiles w' ->
   (forall path, getContent w path = getContent w' path) ->
   option_map allCritical (report (reviewPR (stack_of n) w)) =
     option_map allCritical (report (reviewPR (stack_of n) w')) /\
   option_map allSuggestions (report (reviewPR (stack_of n) w)) =
     option_map allSuggestions (report (reviewPR (stack_of n) w')) /\
   exitCode (reviewPR (stack_of n) w) = exitCode (reviewPR (stack_of n) w')) /\
  (truthy_opt (GROQ_API_KEY w) = false ->
   count is_completion (events (reviewPR (stack_of n) w)) = 0 /\
   forall a, report (reviewPR (stack_of n) w) = Some a ->
             aiReviews a = [] /\ render_ai a = []).
Proof.
  split; [intros; now apply same_pattern_findings|].
  intros K. set (S := stack_of n).
  assert (HA : forall f, asks_ai w f = false).
  { intros f. unfold asks_ai. rewrite K. now destruct (patch f). }
  destruct (runs S w) eqn:R.
  - destruct (reviewPR_shape S w R) as [a [E [_ [_ [A [_ Ev]]]]]]. split.
    + rewrite Ev. change (EvListFiles :: ?l) with ([EvListFiles] ++ l).
      rewrite !count_app, count_flat_map.
      rewrite list_sum_zero; [reflexivity|].
      intros f. unfold file_events. rewrite HA.
      destruct (getContent w (filename f)); [|reflexivity].
      destruct (st_analyze S _ _); reflexivity.
    + intros a0 E0. rewrite E in E0. injection E0 as <-.
      assert (HN : aiReviews a = []).
      { rewrite A. apply flat_map_nil. intros f. unfold narrative_of. rewrite HA.
        now destruct (file_analysis S w f). }
      split; [assumption|]. unfold render_ai. now rewrite HN.
  - destruct (reviewPR_idle S w R) as [E [_ [Ev | Ev]]]; rewrite Ev; split;
      try reflexivity; intros a0 E0; rewrite E in E0; discriminate.
Qed.

(** X6.  Every narrative of a report is the non-empty text of a successful
    completion response for a reviewed file with that name, and passed the
    reply filter of the reviewer. *)
Theorem narratives_come_from_successful_completions (n : StackName) (w : World)
  (a : Acc) (file r : str) :
  report (reviewPR (stack_of n) w) = Some a ->
  In (file, r) (aiReviews a) ->
  r <> [] /\ st_keep (stack_of n) (Some r) = true /\
  exists f body,
    In f (reviewed (stack_of n) w) /\ filename f = file /\
    fetch w (review_request (stack_of n) f) = Response true body /\
    first_content body = Ok (Some r).
Proof.
  set (S := stack_of n). intros E H.
  destruct (runs S w) eqn:R.
  2:{ destruct (reviewPR_idle S w R) as [E' _]. rewrite E' in E. discriminate. }
  destruct (reviewPR_shape S w R) as [a' [E' [_ [_ [A _]]]]].
  rewrite E in E'. injection E' as <-. rewrite A in H.
  apply in_flat_map in H. destruct H as [f [Hf H]].
  unfold narrative_of in H.
  destruct (file_analysis S w f); [|contradiction].
  destruct (asks_ai w f); [|contradiction].
  destruct (callGroqAI w (st_persona S) (user (review_request S f))) as [r'|] eqn:C;
    [|contradiction].
  destruct (st_keep S (Some r')) eqn:K; [|contradiction].
  destruct H as [H|[]]. injection H as <- <-.
  unfold callGroqAI in C.
  destruct (negb (truthy_opt (GROQ_API_KEY w))); [discriminate|].
  change (mkChat (st_persona S) [] (user (review_request S f)))
    with (review_request S f) in C.
  destruct (fetch w (review_request S f)) as [|ok body] eqn:F; [discriminate|].
  destruct ok; simpl in C; [|discriminate].
  destruct (first_content body) as [[c|]|] eqn:FC; try discriminate.
  destruct (truthy c) eqn:T; [|discriminate]. injection C as <-.
  split; [now apply truthy_iff|]. split; [assumption|].
  exists f, body. auto.
Qed.

(** The comment a run posts is the rendering of its final report. *)
Lemma posted_comment (n : StackName) (w : World) (a : Acc) :
  report (reviewPR (stack_of n) w) = Some a ->
  replies (events (reviewPR (stack_of n) w)) = [st_render (stack_of n) a].
Proof.
  unfold reviewPR.
  destruct (negb (truthy_num (PR_NUMBER w))); [discriminate|].
  destruct (length (getPRDiff (stack_of n) w) =? 0); [discriminate|].
  cbn [report events]. intros H. injection H as <-.
  cbn [trace log]. rewrite replies_app.
  destruct (process_all_shape (stack_of n) w
              (slice 0 (st_batch (stack_of n)) (getPRDiff (stack_of n) w))
              (acc0 [EvListFiles])) as [_ [_ [_ ->]]].
  rewrite replies_app.
  rewrite (replies_flat_map_nil (file_events (stack_of n) w) _
             (fun f => proj2 (proj2 (proj2 (file_events_counts (stack_of n) w f))))).
  destruct n; reflexivity.
Qed.

Lemma completion_requests_are_gated_witness :
  In (EvCompletion (review_request (stack_of laravel) Sample.patched))
     (events (reviewPR (stack_of laravel) Sample.ai_world)) /\
  truthy_opt (GROQ_API_KEY Sample.ai_world) = true /\
  exists f p,
    In f (reviewed (stack_of laravel) Sample.ai_world) /\ patch f = Some p /\
    50 < length p /\
    review_request (stack_of laravel) Sample.patched =
      mkChat (st_persona (stack_of laravel)) []
        (st_prompt (stack_of laravel) (filename f)
           (firstn (st_patch_limit (stack_of laravel)) p)) /\
    length (firstn (st_patch_limit (stack_of laravel)) p) <= 3500.
Proof.
  assert (H : In (EvCompletion (review_request (stack_of laravel) Sample.patched))
                 (events (reviewPR (stack_of laravel) Sample.ai_world)))
    by (vm_compute; auto 10).
  split; [exact H|].
  exact (@completion_requests_are_gated laravel Sample.ai_world _ H).
Defined.

Lemma pattern_findings_ignore_the_endpoint_witness :
  exitCode (reviewPR (stack_of laravel) Sample.debug_world) =
    exitCode (reviewPR (stack_of laravel)
                (mkWorld None (Some 7) None (Ok [Sample.helper]) (Throw TypeError)
                   (fun _ => Ok Sample.debug_src)
                   (fun _ => Response true (Data (Some [Some Sample.ai_reply])))
                   (fun _ => Ok tt))) /\
  count is_completion (events (reviewPR (stack_of laravel) Sample.world0)) = 0.
Proof.
  split.
  - apply (proj1 (pattern_findings_ignore_the_endpoint laravel Sample.debug_world
                    (mkWorld None (Some 7) None (Ok [Sample.helper]) (Throw TypeError)
                       (fun _ => Ok Sample.debug_src)
                       (fun _ => Response true (Data (Some [Some Sample.ai_reply])))
                       (fun _ => Ok tt))));
      reflexivity.
  - apply (proj2 (pattern_findings_ignore_the_endpoint laravel Sample.world0
                    Sample.world0)).
    reflexivity.
Defined.

Lemma narratives_come_from_successful_completions_witness :
  exists a,
    report (reviewPR (stack_of laravel) Sample.ai_world) = Some a /\
    In (filename Sample.patched, Sample.ai_reply) (aiReviews a) /\
    Sample.ai_reply <> [] /\
    st_keep (stack_of laravel) (Some Sample.ai_reply) = true.
Proof.
  destruct (report (reviewPR (stack_of laravel) Sample.ai_world)) as [a|] eqn:E;
    [|vm_compute in E; discriminate].
  assert (H : In (filename Sample.patched, Sample.ai_reply) (aiReviews a)).
  { vm_compute in E. injection E as <-. vm_compute. auto. }
  exists a. split; [reflexivity|]. split; [exact H|].
  destruct (@narratives_come_from_successful_completions laravel Sample.ai_world a
              (filename Sample.patched) Sample.ai_reply E H) as [H1 [H2 _]].
  split; assumption.
Defined.

Section Suffix.

Lemma Matches_eol st st' : Matches Eol st st' -> st' = st /\ rest st = [].
Proof. inversion 1; subst. auto. Qed.

Lemma Matches_alt_inv r1 r2 st st' :
  Matches (r1 <|> r2) st st' -> Matches r1 st st' \/ Matches r2 st st'.
Proof. inversion 1; subst; auto. Qed.

Lemma Matches_opt_lit p st st' :
  Matches (opt (lit_l p)) st st' -> rest st = rest st' \/ rest st = p ++ rest st'.
Proof.
  unfold opt. inversion 1; subst.
  - right. now apply lit_sound.
  - left. match goal with H : Matches Eps _ _ |- _ => inversion H; subst end. reflexivity.
Qed.

(** A literal anchored at the end tests for a suffix. *)
Lemma test_suffix_iff p s :
  p <> [] -> (test (lit_l p >> Eol) s = true <-> exists a, s = a ++ p).
Proof.
  intros Hp. rewrite test_true_iff. split.
  - intros [a [b [st' [-> HM]]]]. apply Matches_cat_inv in HM.
    destruct HM as [s1 [H1 H2]]. apply lit_sound in H1. apply Matches_eol in H2.
    destruct H2 as [-> H2]. simpl in H1. rewrite H2, app_nil_r in H1. subst. eauto.
  - intros [a ->]. exists a, p. eexists. split; [reflexivity|].
    pose proof (@lit_complete p [] (last_opt a None) None Hp) as HL.
    rewrite app_nil_r in HL.
    econstructor; [exact HL|]. now apply M_Eol.
Qed.

Ltac lit_step p :=
  eapply M_Cat; [apply (@lit_complete p); discriminate|].

Lemma test_js_iff s :
  test ReactReport.re_js s = true <->
  exists a ext, In ext (extensions react) /\ s = a ++ ext.
Proof.
  rewrite test_true_iff. unfold ReactReport.re_js, React.re_js_ext. split.
  - intros [a [b [st' [-> HM]]]].
    apply Matches_cat_inv in HM. destruct HM as [s1 [H1 HM]].
    apply Matches_cat_inv in HM. destruct HM as [s2 [H2 H3]].
    apply lit_sound in H1. apply Matches_eol in H3. destruct H3 as [-> H3].
    simpl in H1. exists a.
    apply Matches_alt_inv in H2.
    destruct H2 as [H2|H2];
      apply Matches_cat_inv in H2; destruct H2 as [s3 [H4 H5]];
      apply lit_sound in H4; apply (@Matches_opt_lit (txt "x")) in H5;
      rewrite H1, H4; destruct H5 as [H5|H5]; rewrite H5, H3; simpl;
      eexists; (split; [|reflexivity]); simpl; tauto.
  - intros [a [ext [Hin ->]]].
    assert (HE : forall pv, Matches Eol (MState pv [] None) (MState pv [] None))
      by (intros; now apply M_Eol).
    simpl in Hin. destruct Hin as [<-|[<-|[<-|[<-|[]]]]];
      (exists a; eexists; eexists; split; [reflexivity|]).
    + lit_step (txt "."). eapply M_Cat; [|apply HE].
      apply M_AltL. lit_step (txt "js"). apply M_AltR. constructor.
    + lit_step (txt "."). eapply M_Cat; [|apply HE].
      apply M_AltL. lit_step (txt "js").
      apply M_AltL. apply (@lit_complete (txt "x")). discriminate.
    + lit_step (txt "."). eapply M_Cat; [|apply HE].
      apply M_AltR. lit_step (txt "ts"). apply M_AltR. constructor.
    + lit_step (txt "."). eapply M_Cat; [|apply HE].
      apply M_AltR. lit_step (txt "ts").
      apply M_AltL. apply (@lit_complete (txt "x")). discriminate.
Qed.

Lemma str_neq_iff a b : negb (str_eqb a b) = true <-> a <> b.
Proof.
  rewrite negb_true_iff. rewrite <- str_eqb_eq.
  destruct (str_eqb a b); split; congruence.
Qed.

Lemma not_includes_iff s sub : negb (includes s sub) = true <-> ~ occurs sub s.
Proof. rewrite negb_true_iff. apply includes_false_iff. Qed.

Lemma not_test_lit_iff p s :
  p <> [] -> (negb (test (lit_l p) s) = true <-> ~ occurs p s).
Proof.
  intros Hp. rewrite negb_true_iff, <- (test_lit_iff s Hp).
  destruct (test (lit_l p) s); split; congruence.
Qed.

End Suffix.

(** X7.  The file filter of each reviewer, read as a statement about names. *)
Theorem file_filter_meaning (n : StackName) (f : PRFile) :
  st_matches (stack_of n) f = true <->
  has_extension n (filename f) /\ status f <> txt "removed" /\
  forall d, In d (refused_dirs n) -> ~ occurs d (filename f).
Proof.
  unfold has_extension. destruct n; simpl.
  - unfold ReactReport.matches.
    rewrite !andb_true_iff, test_js_iff, str_neq_iff, !not_includes_iff.
    split.
    + intros [[[[H1 H2] H3] H4] H5]. split; [assumption|]. split; [assumption|].
      intros d [<-|[<-|[<-|[]]]]; assumption.
    + intros [H1 [H2 H3]]. repeat split; try assumption; apply H3; simpl; tauto.
  - unfold LaravelReport.matches, LaravelReport.re_php, lit.
    rewrite !andb_true_iff, test_suffix_iff, str_neq_iff, !not_includes_iff by discriminate.
    split.
    + intros [[[[a H1] H2] H3] H4]. split; [exists a, (txt ".php"); simpl; auto|].
      split; [assumption|]. intros d [<-|[<-|[]]]; assumption.
    + intros [[a [ext [[<-|[]] H1]]] [H2 H3]].
      repeat split; eauto; apply H3; simpl; tauto.
  - unfold SwiftReport.matches, SwiftReport.re_swift, lit.
    rewrite !andb_true_iff, test_suffix_iff, str_neq_iff, !not_test_lit_iff by discriminate.
    split.
    + intros [[[[[[a H1] H2] H3] H4] H5] H6]. split; [exists a, (txt ".swift"); simpl; auto|].
      split; [assumption|]. intros d [<-|[<-|[<-|[<-|[]]]]]; assumption.
    + intros [[a [ext [[<-|[]] H1]]] [H2 H3]].
      repeat split; eauto; apply H3; simpl; tauto.
Qed.

(** X8.  A pull request none of whose files carries an extension of the
    stack: the reviewer lists the files and stops. *)
Theorem foreign_files_are_left_alone (n : StackName) (w : World)
  (files : list PRFile) :
  listFiles w = Ok files ->
  (forall f, In f files -> ~ has_extension n (filename f)) ->
  report (reviewPR (stack_of n) w) = None /\
  exit_status (reviewPR (stack_of n) w) = 0 /\
  (events (reviewPR (stack_of n) w) = [] \/
   events (reviewPR (stack_of n) w) = [EvListFiles]).
Proof.
  intros E H.
  assert (HD : getPRDiff (stack_of n) w = []).
  { unfold getPRDiff. rewrite E. clear E.
    induction files as [|f files IH]; [reflexivity|]. simpl.
    destruct (st_matches (stack_of n) f) eqn:M.
    - apply file_filter_meaning in M. destruct M as [M _].
      exfalso. apply (H f); [now left|assumption].
    - apply IH. intros g Hg. apply H. now right. }
  assert (R : runs (stack_of n) w = false).
  { unfold runs. rewrite HD. simpl. apply andb_false_r. }
  destruct (reviewPR_idle (stack_of n) w R) as [-> [E1 E2]].
  unfold exit_status. rewrite E1. auto.
Qed.

Lemma foreign_files_are_left_alone_witness :
  report (reviewPR (stack_of laravel)
            (Sample.with_files [Sample.readme] (fun _ => Throw TypeError))) = None /\
  exit_status (reviewPR (stack_of laravel)
                 (Sample.with_files [Sample.readme] (fun _ => Throw TypeError))) = 0.
Proof.
  destruct (@foreign_files_are_left_alone laravel
              (Sample.with_files [Sample.readme] (fun _ => Throw TypeError))
              [Sample.readme] eq_refl) as [H1 [H2 _]].
  - intros f [<-|[]] [a [ext [[<-|[]] H]]].
    apply (f_equal (@rev ascii)) in H. rewrite rev_app_distr in H.
    vm_compute in H. discriminate.
  - split; assumption.
Defined.

Section Blocks.

Lemma render_ai_block a fr :
  In fr (aiReviews a) -> occurs (narrative_block fr) (render_ai a).
Proof.
  intros H. unfold render_ai. rewrite (nonempty_length _ _ H).
  do 2 apply occurs_app_r.
  apply (occurs_flat_map _ _ fr); [assumption|]. apply occurs_refl.
Qed.

Lemma render_critical_block n a fi :
  In fi (allCritical a) -> occurs (critical_block n fi) (st_render (stack_of n) a).
Proof.
  intros H. destruct n; simpl;
    [unfold ReactReport.render|unfold LaravelReport.render|unfold SwiftReport.render];
    rewrite (nonempty_length _ _ H);
    do 3 apply occurs_app_r; apply occurs_app_l; do 2 apply occurs_app_r;
    apply (occurs_flat_map _ _ fi); try assumption; apply occurs_refl.
Qed.

Lemma render_narrative_block n a fr :
  In fr (aiReviews a) -> occurs (narrative_block fr) (st_render (stack_of n) a).
Proof.
  intros H. destruct n; simpl;
    [unfold ReactReport.render|unfold LaravelReport.render|unfold SwiftReport.render];
    do 4 apply occurs_app_r; apply occurs_app_l; now apply render_ai_block.
Qed.

End Blocks.

Lemma runs_of_report S w a : report (reviewPR S w) = Some a -> runs S w = true.
Proof.
  intros E. destruct (runs S w) eqn:R; [reflexivity|].
  destruct (reviewPR_idle S w R) as [E' _]. congruence.
Qed.

(** A reviewed file with a critical finding is stored and fails the run. *)
Lemma reviewed_critical_stored (n : StackName) (w : World) (a : Acc)
  (f : PRFile) (content : str) (an : Analysis) :
  report (reviewPR (stack_of n) w) = Some a ->
  In f (reviewed (stack_of n) w) ->
  getContent w (filename f) = Ok content ->
  evaluate n (filename f) content = Ok an ->
  critical an <> [] ->
  In (filename f, critical an) (allCritical a) /\
  exit_status (reviewPR (stack_of n) w) = 1.
Proof.
  intros E Hf Hc He Hn. pose proof (runs_of_report _ _ E) as R.
  destruct (reviewPR_shape (stack_of n) w R) as [a' [E' [A [_ [_ [X _]]]]]].
  rewrite E in E'. injection E' as <-.
  assert (Hin : In (filename f, critical an) (allCritical a)).
  { rewrite A. apply in_flat_map. exists f. split; [assumption|].
    unfold critical_of, file_analysis. rewrite Hc.
    unfold evaluate in He. rewrite He.
    destruct (critical an); [congruence|]. simpl. now left. }
  split; [assumption|].
  unfold exit_status. rewrite X. unfold hasCritical.
  rewrite (nonempty_length _ _ Hin). now destruct n.
Qed.

(** X9.  What a run found reaches the pull request.  The run posts one
    comment; a reviewed file whose evaluator reports a critical finding
    makes the run fail, and the comment shows the file with every one of its
    critical findings; every narrative the run kept is shown under its
    file. *)
Theorem findings_reach_the_comment (n : StackName) (w : World) (a : Acc) :
  report (reviewPR (stack_of n) w) = Some a ->
  exists body,
    replies (events (reviewPR (stack_of n) w)) = [body] /\
    (forall f content an,
       In f (reviewed (stack_of n) w) ->
       getContent w (filename f) = Ok content ->
       evaluate n (filename f) content = Ok an ->
       critical an <> [] ->
       exit_status (reviewPR (stack_of n) w) = 1 /\
       occurs (critical_block n (filename f, critical an)) body) /\
    (forall fr, In fr (aiReviews a) -> occurs (narrative_block fr) body).
Proof.
  intros E. exists (st_render (stack_of n) a).
  split; [now apply posted_comment|].
  split; [|intros fr; apply render_narrative_block].
  intros f content an Hf Hc He Hn.
  destruct (reviewed_critical_stored n w f E Hf Hc He Hn) as [Hin X].
  split; [assumption|now apply render_critical_block].
Qed.

Lemma findings_reach_the_comment_witness :
  exists a body,
    report (reviewPR (stack_of laravel) Sample.debug_world) = Some a /\
    replies (events (reviewPR (stack_of laravel) Sample.debug_world)) = [body] /\
    exit_status (reviewPR (stack_of laravel) Sample.debug_world) = 1 /\
    occurs (critical_block laravel
              (filename Sample.helper,
               critical (Laravel.analyzeCode Sample.debug_src (filename Sample.helper))))
           body.
Proof.
  destruct (report (reviewPR (stack_of laravel) Sample.debug_world)) as [a|] eqn:E;
    [|vm_compute in E; discriminate].
  destruct (findings_reach_the_comment laravel Sample.debug_world E)
    as [body [H1 [H2 _]]].
  exists a, body. split; [reflexivity|]. split; [exact H1|].
  apply (H2 Sample.helper Sample.debug_src
            (Laravel.analyzeCode Sample.debug_src (filename Sample.helper))).
  - vm_compute. auto.
  - reflexivity.
  - reflexivity.
  - vm_compute. discriminate.
Defined.

Section DebugRule.

Lemma forEach_In {A B} (f : A -> nat -> list B) l : forall k idx x y,
  nth_error l k = Some x -> In y (f x (idx + k)) -> In y (forEach f l idx).
Proof.
  induction l as [|z l IH]; intros k idx x y Hn Hy.
  - destruct k; discriminate.
  - simpl. apply in_or_app. destruct k as [|k]; simpl in Hn.
    + injection Hn as ->. rewrite Nat.add_0_r in Hy. now left.
    + right. apply (IH k (S idx) x); [assumption|].
      now replace (S idx + k) with (idx + S k) by lia.
Qed.

Lemma Matches_star_chr_complete p x : forall s pv cp,
  Forall (fun c => p c = true) x ->
  Matches (Star (Chr p)) (MState pv (x ++ s) cp) (MState (last_opt x pv) s cp).
Proof.
  induction x as [|c x IH]; intros s pv cp F.
  - apply M_Star0.
  - inversion F; subst. rewrite last_opt_cons. simpl.
    eapply M_StarS.
    + now apply M_Chr.
    + simpl. lia.
    + now apply IH.
Qed.

Lemma occurs_trans x y z : occurs x y -> occurs y z -> occurs x z.
Proof.
  intros [a [b ->]] [c [d ->]]. exists (c ++ a), (b ++ d).
  now rewrite <- !app_assoc.
Qed.

(** The pattern of rule 1 finds [dd] or [dump] at the start of a word,
    followed by an opening parenthesis after optional white space. *)
Lemma debug_call_matches a fn sp b :
  In fn [txt "dd"; txt "dump"] -> word_start a ->
  Forall (fun c => is_space c = true) sp ->
  test Laravel.re_debug (a ++ fn ++ sp ++ txt "(" ++ b) = true.
Proof.
  intros Hfn Hw Hsp. apply test_true_iff.
  assert (HB : forall c d, is_word c = true ->
            Matches Wordb (MState (last_opt a None) (c :: d) None)
                          (MState (last_opt a None) (c :: d) None)).
  { intros c d Hc. apply M_Wordb. unfold word_before, word_after, word_start in *.
    simpl. rewrite Hc. destruct (last_opt a None); [now rewrite Hw|reflexivity]. }
  exists a, (fn ++ sp ++ txt "(" ++ b).
  destruct Hfn as [<-|[<-|[]]]; (eexists; split; [reflexivity|]);
    unfold Laravel.re_debug;
    (eapply M_Cat; [apply HB; reflexivity|]); eapply M_Cat.
  - apply M_AltL. apply (@lit_complete (txt "dd")). discriminate.
  - eapply M_Cat; [now apply Matches_star_chr_complete|].
    apply (@lit_complete (txt "(")). discriminate.
  - apply M_AltR. apply (@lit_complete (txt "dump")). discriminate.
  - eapply M_Cat; [now apply Matches_star_chr_complete|].
    apply (@lit_complete (txt "(")). discriminate.
Qed.

Lemma laravel_debug_found content path k a fn sp b :
  Laravel.excluded path = false ->
  nth_error (split_nl content) k = Some (a ++ fn ++ sp ++ txt "(" ++ b) ->
  In fn [txt "dd"; txt "dump"] -> word_start a ->
  Forall (fun c => is_space c = true) sp ->
  Laravel.skip_line (trim (a ++ fn ++ sp ++ txt "(" ++ b)) = false ->
  In (debug_issue (k + 1)) (critical (Laravel.analyzeCode content path)).
Proof.
  intros Hx Hn Hfn Hw Hsp Hs. unfold Laravel.analyzeCode. rewrite Hx.
  cbn [critical]. eapply forEach_In; [exact Hn|]. cbv beta zeta.
  rewrite Hs, (debug_call_matches a b Hfn Hw Hsp). simpl. now left.
Qed.

End DebugRule.

(** X10.  A debug call left in a reviewed PHP file blocks the merge.  On a
    line that is no comment, [dd] or [dump] at the start of a word and
    followed by an opening parenthesis is a critical finding with the
    number of that line; the run ends with status 1 and its comment shows
    the finding. *)
Theorem debug_call_blocks_the_merge (w : World) (f : PRFile) (content : str)
  (k : nat) (a fn sp b : str) :
  truthy_num (PR_NUMBER w) = true ->
  In f (reviewed (stack_of laravel) w) ->
  getContent w (filename f) = Ok content ->
  Laravel.excluded (filename f) = false ->
  nth_error (split_nl content) k = Some (a ++ fn ++ sp ++ txt "(" ++ b) ->
  In fn [txt "dd"; txt "dump"] -> word_start a ->
  Forall (fun c => is_space c = true) sp ->
  Laravel.skip_line (trim (a ++ fn ++ sp ++ txt "(" ++ b)) = false ->
  In (debug_issue (k + 1)) (critical (Laravel.analyzeCode content (filename f))) /\
  exit_status (reviewPR (stack_of laravel) w) = 1 /\
  exists body,
    replies (events (reviewPR (stack_of laravel) w)) = [body] /\
    occurs (LaravelReport.issue_line (debug_issue (k + 1))) body.
Proof.
  intros Hp Hf Hc Hx Hn Hfn Hw Hsp Hs.
  pose proof (laravel_debug_found content (filename f) k a b Hx Hn Hfn Hw Hsp Hs) as Hin.
  split; [assumption|].
  assert (R : runs (stack_of laravel) w = true).
  { unfold runs. rewrite Hp. unfold reviewed, slice in Hf.
    destruct (getPRDiff (stack_of laravel) w); [|reflexivity].
    simpl in Hf. destruct (st_batch (stack_of laravel)); contradiction. }
  destruct (reviewPR_shape (stack_of laravel) w R) as [acc [E _]].
  assert (Hne : critical (Laravel.analyzeCode content (filename f)) <> []).
  { intros E0. rewrite E0 in Hin. contradiction. }
  destruct (reviewed_critical_stored laravel w f E Hf Hc eq_refl Hne) as [Hs1 Hs2].
  split; [assumption|].
  exists (st_render (stack_of laravel) acc). split; [now apply posted_comment|].
  eapply occurs_trans; [|apply (render_critical_block laravel _ _ Hs1)].
  unfold critical_block. do 3 apply occurs_app_r. apply occurs_app_l. simpl snd.
  apply (occurs_flat_map _ _ (debug_issue (k + 1))); [assumption|apply occurs_refl].
Qed.

Lemma debug_call_blocks_the_merge_witness :
  In (debug_issue 3)
     (critical (Laravel.analyzeCode Sample.debug_src (filename Sample.helper))) /\
  exit_status (reviewPR (stack_of laravel) Sample.debug_world) = 1 /\
  exists body,
    replies (events (reviewPR (stack_of laravel) Sample.debug_world)) = [body] /\
    occurs (LaravelReport.issue_line (debug_issue 3)) body.
Proof.
  apply (@debug_call_blocks_the_merge Sample.debug_world Sample.helper
           Sample.debug_src 2 (txt "  ") (txt "dd") [] (txt "$user);")).
  - reflexivity.
  - vm_compute. auto.
  - reflexivity.
  - reflexivity.
  - reflexivity.
  - simpl. auto.
  - vm_compute. reflexivity.
  - constructor.
  - reflexivity.
Defined.

Section Mentions.

Lemma space_is_no_at c : is_space c = true -> ci "@" c = false.
Proof.
  destruct c as [[] [] [] [] [] [] [] []]; vm_compute; congruence.
Qed.

Lemma strip_space c s :
  is_space c = true -> strip_mentions 0 (c :: s) = c :: strip_mentions 0 s.
Proof.
  intros H. cbn [strip_mentions]. unfold txt. cbn [list_ascii_of_string startsWith_ci].
  now rewrite (space_is_no_at _ H).
Qed.

Lemma startsWith_ci_app p : forall m s,
  toLowerCase m = toLowerCase p -> startsWith_ci (m ++ s) p = true.
Proof.
  induction p as [|c p IH]; intros m s H.
  - destruct m; [now destruct s|discriminate].
  - destruct m as [|d m]; [discriminate|]. simpl in H. injection H as H1 H2.
    simpl. rewrite (IH m s H2), andb_true_r. now apply ci_iff.
Qed.

Lemma strip_skip : forall x s, strip_mentions (length x) (x ++ s) = strip_mentions 0 s.
Proof.
  induction x as [|c x IH]; intros s; [reflexivity|]. simpl. apply IH.
Qed.

Lemma strip_mention m s :
  toLowerCase m = txt "@ai-reviewer" -> strip_mentions 0 (m ++ s) = strip_mentions 0 s.
Proof.
  intros H. destruct m as [|c m]; [discriminate|].
  assert (HL : length m = 11).
  { apply (f_equal (@length ascii)) in H. unfold toLowerCase in H.
    rewrite length_map in H. simpl in H. lia. }
  change ((c :: m) ++ s) with (c :: (m ++ s)). cbn [strip_mentions].
  change (c :: (m ++ s)) with ((c :: m) ++ s).
  rewrite (startsWith_ci_app (txt "@ai-reviewer") (c :: m) s)
    by (rewrite H; reflexivity).
  rewrite <- HL. apply strip_skip.
Qed.

Lemma mention_only_spaces s :
  mention_only s -> Forall (fun c => is_space c = true) (strip_mentions 0 s).
Proof.
  induction 1.
  - constructor.
  - rewrite strip_space by assumption. now constructor.
  - now rewrite strip_mention.
Qed.

Lemma trimStart_spaces s : Forall (fun c => is_space c = true) s -> trimStart s = [].
Proof. induction 1; [reflexivity|]. simpl. now rewrite H. Qed.

Lemma mention_only_no_question s : mention_only s -> extractQuestion s = [].
Proof.
  intros H. unfold extractQuestion, trim.
  now rewrite (trimStart_spaces (mention_only_spaces H)).
Qed.

End Mentions.

(** X11.  A comment that only mentions the reviewer gets the usage note and
    nothing else: the handler sends no request to the completion endpoint
    and reads nothing from the host. *)
Theorem mention_only_gets_usage_note (w : World) :
  mention_only (comment_body w) ->
  ReactHandler.handleComment w = [EvCreateComment ReactHandler.help] /\
  LaravelHandler.handleComment w = [EvCreateComment LaravelHandler.help] /\
  SwiftHandler.handleComment w = [EvCreateComment SwiftHandler.help].
Proof.
  intros H. apply mention_only_no_question in H.
  unfold ReactHandler.handleComment, LaravelHandler.handleComment,
    SwiftHandler.handleComment. rewrite H. repeat split; reflexivity.
Qed.

Lemma mention_only_gets_usage_note_witness :
  ReactHandler.handleComment (Sample.asking " @AI-Reviewer  ") =
    [EvCreateComment ReactHandler.help] /\
  LaravelHandler.handleComment (Sample.asking " @AI-Reviewer  ") =
    [EvCreateComment LaravelHandler.help] /\
  SwiftHandler.handleComment (Sample.asking " @AI-Reviewer  ") =
    [EvCreateComment SwiftHandler.help].
Proof.
  apply mention_only_gets_usage_note.
  apply mo_space; [reflexivity|].
  apply (@mo_mention (txt "@AI-Reviewer") (txt "  ")); [reflexivity|].
  apply mo_space; [reflexivity|]. apply mo_space; [reflexivity|]. apply mo_nil.
Defined.

Section FileNames.

Lemma Matches_wordb st st' : Matches Wordb st st' -> st' = st.
Proof. inversion 1; subst; reflexivity. Qed.

Lemma Matches_js_ext st st' :
  Matches React.re_js_ext st st' ->
  exists ext, In ext [txt "js"; txt "jsx"; txt "ts"; txt "tsx"] /\
              rest st = ext ++ rest st'.
Proof.
  unfold React.re_js_ext. intros H. apply Matches_alt_inv in H.
  destruct H as [H|H]; apply Matches_cat_inv in H; destruct H as [s1 [H1 H2]];
    apply lit_sound in H1; apply (@Matches_opt_lit (txt "x")) in H2;
    destruct H2 as [H2|H2]; rewrite H1, H2;
    [exists (txt "js")|exists (txt "jsx")|exists (txt "ts")|exists (txt "tsx")];
    (split; [simpl; tauto|reflexivity]).
Qed.

Lemma detectFileName_shape question m0 :
  ReactHandler.detectFileName question = Some m0 ->
  root_file_name m0 /\ occurs m0 question.
Proof.
  unfold ReactHandler.detectFileName, exec. intros H.
  destruct (search ReactHandler.filePattern None question) as [st'|] eqn:E;
    [|discriminate].
  simpl in H. destruct (cap st') as [c|] eqn:C; [|discriminate]. injection H as ->.
  apply search_sound in E. destruct E as [a [b [-> HM]]].
  unfold ReactHandler.filePattern in HM.
  inversion HM as [| | | | | | | | | |r st0 st1 HI]; subst.
  simpl in C. injection C as <-.
  apply Matches_cat_inv in HI. destruct HI as [s1 [H1 HI]].
  apply Matches_wordb in H1. subst s1.
  apply Matches_cat_inv in HI. destruct HI as [s2 [H2 HI]].
  apply Matches_plus_chr in H2. destruct H2 as [x [E2 [F2 N2]]].
  apply Matches_cat_inv in HI. destruct HI as [s3 [H3 HI]].
  apply lit_sound in H3.
  apply Matches_cat_inv in HI. destruct HI as [s4 [H4 H5]].
  apply Matches_js_ext in H4. destruct H4 as [ext [Hext E4]].
  apply Matches_wordb in H5. subst s4.
  simpl in E2.
  assert (EB : b = (x ++ txt "." ++ ext) ++ rest st1).
  { rewrite E2, H3, E4. now rewrite <- !app_assoc. }
  rewrite (@consumed_app (x ++ txt "." ++ ext) (MState (last_opt a None) b None) st1 EB).
  split.
  - exists x, ext. auto.
  - exists a, (rest st1). now rewrite EB.
Qed.

Lemma word_or_hyphen_no_slash c : is_word c || only "-" c = true -> c <> "/"%char.
Proof. intros H ->. vm_compute in H. discriminate. Qed.

Lemma root_file_name_no_slash path : root_file_name path -> ~ In "/"%char path.
Proof.
  intros [base [ext [-> [_ [F Hext]]]]] Hin.
  apply in_app_or in Hin. destruct Hin as [Hin|Hin].
  - rewrite Forall_forall in F. apply (word_or_hyphen_no_slash (F _ Hin)). reflexivity.
  - simpl in Hext, Hin.
    destruct Hext as [<-|[<-|[<-|[<-|[]]]]]; simpl in Hin;
      repeat (destruct Hin as [Hin|Hin]; [discriminate|]); contradiction.
Qed.

Lemma react_context_no_fetch w path :
  ~ In (EvGetContent path) (snd (ReactHandler.getPRContext w)).
Proof.
  unfold ReactHandler.getPRContext. destruct (pullsGet w) as [[t bd]|]; simpl.
  - destruct (listFiles w); simpl; intuition discriminate.
  - intuition discriminate.
Qed.

Lemma laravel_context_no_fetch w path :
  ~ In (EvGetContent path) (snd (LaravelHandler.getPRContext w)).
Proof.
  unfold LaravelHandler.getPRContext. destruct (pullsGet w) as [[t bd]|]; simpl.
  - destruct (listFiles w); simpl; intuition discriminate.
  - intuition discriminate.
Qed.

Lemma swift_context_no_fetch w path :
  ~ In (EvGetContent path) (snd (SwiftHandler.getPRContext w)).
Proof.
  unfold SwiftHandler.getPRContext. destruct (pullsGet w) as [[t bd]|]; simpl.
  - destruct (listFiles w); simpl; intuition discriminate.
  - intuition discriminate.
Qed.

Lemma askAI_no_fetch b p w q c path : ~ In (EvGetContent path) (snd (askAI b p w q c)).
Proof.
  unfold askAI. destruct (negb (truthy_opt (GROQ_API_KEY w))); simpl;
    intuition discriminate.
Qed.

End FileNames.

(** X12.  The only file a comment handler reads is one the question names.
    The React handler reads at most one path, a file name with a
    JavaScript or TypeScript extension that occurs in the question and has
    no directory part; the Laravel and Swift handlers read no file. *)
Theorem handlers_read_only_the_named_file (w : World) (path : str) :
  (In (EvGetContent path) (ReactHandler.handleComment w) ->
   root_file_name path /\ ~ In "/"%char path /\
   occurs path (extractQuestion (comment_body w)) /\
   ReactHandler.detectFileName (extractQuestion (comment_body w)) = Some path) /\
  ~ In (EvGetContent path) (LaravelHandler.handleComment w) /\
  ~ In (EvGetContent path) (SwiftHandler.handleComment w).
Proof.
  split; [|split].
  - unfold ReactHandler.handleComment.
    destruct (negb (truthy (extractQuestion (comment_body w))));
      [simpl; intuition discriminate|].
    destruct (ReactHandler.detectFileName (extractQuestion (comment_body w)))
      as [p|] eqn:D.
    + set (fc := match getContent w p with
                 | Ok content => (Some (slice 0 2000 content), [EvGetContent p])
                 | Throw _ => (None, [EvGetContent p]) end).
      assert (Hfc : snd fc = [EvGetContent p])
        by (unfold fc; destruct (getContent w p); reflexivity).
      destruct fc as [fileContent evs1]. simpl in Hfc. subst evs1.
      pose proof (react_context_no_fetch w path) as HC.
      destruct (ReactHandler.getPRContext w) as [context evs2]. simpl in HC.
      match goal with |- context [askAI ?b ?p ?w ?q ?c] =>
        pose proof (@askAI_no_fetch b p w q c path) as HA;
        destruct (askAI b p w q c) as [answer evs3] end.
      simpl in HA. intros Hin.
      apply in_app_or in Hin. destruct Hin as [[Hin|[]]|Hin].
      * injection Hin as ->. destruct (detectFileName_shape _ D) as [H1 H2].
        split; [assumption|]. split; [now apply root_file_name_no_slash|]. auto.
      * apply in_app_or in Hin. destruct Hin as [Hin|Hin]; [contradiction|].
        apply in_app_or in Hin. destruct Hin as [Hin|Hin]; [contradiction|].
        simpl in Hin. intuition discriminate.
    + pose proof (react_context_no_fetch w path) as HC.
      destruct (ReactHandler.getPRContext w) as [context evs2]. simpl in HC.
      match goal with |- context [askAI ?b ?p ?w ?q ?c] =>
        pose proof (@askAI_no_fetch b p w q c path) as HA;
        destruct (askAI b p w q c) as [answer evs3] end.
      simpl in HA. intros Hin. simpl in Hin.
      apply in_app_or in Hin. destruct Hin as [Hin|Hin]; [contradiction|].
      apply in_app_or in Hin. destruct Hin as [Hin|Hin]; [contradiction|].
      simpl in Hin. intuition discriminate.
  - unfold LaravelHandler.handleComment.
    destruct (negb (truthy (extractQuestion (comment_body w))));
      [simpl; intuition discriminate|].
    pose proof (laravel_context_no_fetch w path) as HC.
    destruct (LaravelHandler.getPRContext w) as [context evs2]. simpl in HC.
    match goal with |- context [askAI ?b ?p ?w ?q ?c] =>
      pose proof (@askAI_no_fetch b p w q c path) as HA;
      destruct (askAI b p w q c) as [answer evs3] end.
    simpl in HA. intros Hin.
    apply in_app_or in Hin. destruct Hin as [Hin|Hin]; [contradiction|].
    apply in_app_or in Hin. destruct Hin as [Hin|Hin]; [contradiction|].
    simpl in Hin. intuition discriminate.
  - unfold SwiftHandler.handleComment.
    destruct (negb (truthy (extractQuestion (comment_body w))));
      [simpl; intuition discriminate|].
    pose proof (swift_context_no_fetch w path) as HC.
    destruct (SwiftHandler.getPRContext w) as [context evs2]. simpl in HC.
    match goal with |- context [askAI ?b ?p ?w ?q ?c] =>
      pose proof (@askAI_no_fetch b p w q c path) as HA;
      destruct (askAI b p w q c) as [answer evs3] end.
    simpl in HA. intros Hin.
    apply in_app_or in Hin. destruct Hin as [Hin|Hin]; [contradiction|].
    apply in_app_or in Hin. destruct Hin as [Hin|Hin]; [contradiction|].
    simpl in Hin. intuition discriminate.
Qed.

Lemma handlers_read_only_the_named_file_witness :
  In (EvGetContent (txt "App.tsx"))
     (ReactHandler.handleComment
        (Sample.asking "@ai-reviewer is src/App.tsx fine?")) /\
  root_file_name (txt "App.tsx") /\ ~ In "/"%char (txt "App.tsx").
Proof.
  assert (H : In (EvGetContent (txt "App.tsx"))
                 (ReactHandler.handleComment
                    (Sample.asking "@ai-reviewer is src/App.tsx fine?")))
    by (vm_compute; auto).
  split; [exact H|].
  destruct (proj1 (handlers_read_only_the_named_file
                     (Sample.asking "@ai-reviewer is src/App.tsx fine?")
                     (txt "App.tsx")) H) as [H1 [H2 _]].
  split; assumption.
Defined.

Section Priorities.

Lemma forEachR_Forall {A B} (P : B -> Prop) (f : A -> nat -> result (list B)) :
  (forall x idx out, f x idx = Ok out -> Forall P out) ->
  forall l idx out, forEachR f l idx = Ok out -> Forall P out.
Proof.
  intros Hf. induction l as [|x l IH]; intros idx out H; simpl in H.
  - injection H as <-. constructor.
  - destruct (f x idx) as [o|] eqn:E; [|discriminate]. simpl in H.
    destruct (forEachR f l (S idx)) as [o'|] eqn:E'; [|discriminate].
    simpl in H. injection H as <-.
    apply Forall_app. split; [now apply (Hf x idx)|now apply (IH (S idx))].
Qed.

Lemma known_push c s : known_priority s -> Forall known_priority (push_if c s).
Proof.
  intros H. destruct c; simpl; [constructor; [assumption|constructor]|constructor].
Qed.

Ltac known_tac :=
  repeat match goal with
         | |- Forall _ (_ ++ _) => apply Forall_app; split
         | |- Forall _ (push_if _ _) =>
             apply known_push; unfold known_priority; simpl; tauto
         | |- Forall _ [] => constructor
         | |- Forall _ (if ?c then _ else _) => destruct c
         | |- Forall _ (let _ := _ in _) => cbv zeta
         end.

Lemma rule_let_known lines line idx out :
  React.rule_let lines line idx = Ok out -> Forall known_priority out.
Proof.
  unfold React.rule_let.
  destruct (test React.re_let_decl line); [|intros H; injection H as <-; constructor].
  destruct (React.capture1 React.re_let_name line) as [v|]; simpl; [|discriminate].
  intros H. injection H as <-. known_tac.
Qed.

Lemma react_suggestions_known content filename out :
  React.checkBestPractices content filename = Ok out -> Forall known_priority out.
Proof.
  unfold React.checkBestPractices.
  destruct (pop_then (split_on "/" filename)) as [base|]; [|discriminate].
  cbn [bind]. apply forEachR_Forall. intros line idx o. cbv zeta.
  destruct (React.skip_line (trim line)); [intros H; injection H as <-; constructor|].
  destruct (React.rule_let (split_nl content) line idx) as [r|] eqn:E; [|discriminate].
  cbn [bind]. intros H. injection H as <-.
  apply rule_let_known in E.
  repeat (apply Forall_app; split); try exact E; known_tac.
Qed.

Lemma react_analysis_known content filename an :
  React.analyzeCode content filename = Ok an -> Forall known_priority (suggestions an).
Proof.
  unfold React.analyzeCode. destruct (React.excluded filename).
  - intros H. injection H as <-. constructor.
  - destruct (React.checkBestPractices content filename) as [ss|] eqn:E; [|discriminate].
    cbn [bind]. intros H. injection H as <-. simpl.
    now apply react_suggestions_known in E.
Qed.

(** The suggestions a React run stores carry a known priority. *)
Lemma react_run_known w a file ss s :
  report (reviewPR (stack_of react) w) = Some a ->
  In (file, ss) (allSuggestions a) -> In s ss -> known_priority s.
Proof.
  intros E H1 H2. pose proof (runs_of_report _ _ E) as R.
  destruct (reviewPR_shape (stack_of react) w R) as [a' [E' [_ [A _]]]].
  rewrite E in E'. injection E' as <-. rewrite A in H1.
  apply in_flat_map in H1. destruct H1 as [f [_ H1]].
  unfold suggestions_of, file_analysis in H1.
  destruct (getContent w (filename f)) as [content|]; [|contradiction].
  destruct (st_analyze (stack_of react) content (filename f)) as [an|] eqn:EA;
    [|contradiction].
  destruct (0 <? length (suggestions an)); [|contradiction].
  destruct H1 as [H1|[]]. injection H1 as <- <-.
  apply react_analysis_known in EA. rewrite Forall_forall in EA. now apply EA.
Qed.

End Priorities.

(** X13.  Every suggestion a React run found is printed: the comment holds
    its line, under one of the three priority marks. *)
Theorem react_run_prints_every_suggestion (w : World) (a : Acc)
  (file : str) (ss : list Suggestion) (s : Suggestion) :
  report (reviewPR (stack_of react) w) = Some a ->
  In (file, ss) (allSuggestions a) -> In s ss ->
  exists body mark,
    replies (events (reviewPR (stack_of react) w)) = [body] /\
    In mark ["⚠️"; "🔸"; "💭"]%string /\
    occurs (ReactReport.item_line mark (item_of file s)) body.
Proof.
  intros E H1 H2. pose proof (@react_run_known w a file ss s E H1 H2) as HK.
  exists (ReactReport.render a).
  assert (HR : replies (events (reviewPR (stack_of react) w)) = [ReactReport.render a])
    by (now apply (posted_comment react)).
  destruct (categorize_holds _ _ _ _ H1 H2) as [items [Hc Hi]].
  apply In_sortedCategories in Hc.
  assert (HF : forall p, ReactReport.priority_of s = txt p ->
            In (item_of file s) (ReactReport.with_priority p items)).
  { intros p Ep. apply filter_In. split; [assumption|]. apply str_eqb_eq. exact Ep. }
  assert (HS : forall mark,
    occurs (ReactReport.item_line mark (item_of file s))
           (ReactReport.render_category (s_category s, items)) ->
    occurs (ReactReport.item_line mark (item_of file s)) (ReactReport.render a)).
  { intros mark HC. unfold ReactReport.render, ReactReport.render_suggestions.
    rewrite (nonempty_length _ _ H1).
    do 5 apply occurs_app_r. apply occurs_app_l.
    do 4 apply occurs_app_r. apply occurs_app_l.
    apply (occurs_flat_map _ _ (s_category s, items)); assumption. }
  destruct HK as [Ep|[Ep|[Ep|[]]]]; symmetry in Ep.
  - exists "⚠️"%string. split; [assumption|]. split; [simpl; tauto|]. apply HS.
    unfold ReactReport.render_category. cbn [fst snd].
    do 3 apply occurs_app_r. apply occurs_app_l.
    apply (occurs_flat_map _ _ (item_of file s)); [now apply HF|apply occurs_refl].
  - exists "🔸"%string. split; [assumption|]. split; [simpl; tauto|]. apply HS.
    unfold ReactReport.render_category. cbn [fst snd].
    do 4 apply occurs_app_r. apply occurs_app_l.
    apply (occurs_flat_map _ _ (item_of file s)); [now apply HF|apply occurs_refl].
  - exists "💭"%string. split; [assumption|]. split; [simpl; tauto|]. apply HS.
    unfold ReactReport.render_category. cbn [fst snd].
    do 5 apply occurs_app_r. apply occurs_app_l.
    apply (occurs_flat_map _ _ (item_of file s)); [now apply HF|apply occurs_refl].
Qed.

Lemma react_run_prints_every_suggestion_witness :
  exists a body mark,
    report (reviewPR (stack_of react) ReactSample.world) = Some a /\
    replies (events (reviewPR (stack_of react) ReactSample.world)) = [body] /\
    occurs (ReactReport.item_line mark
              (item_of (txt "src/App.jsx")
                 (mkSuggestion 2 (txt "🧹 Code Quality")
                    (txt "Remove console.log before production. Use proper logging library or remove debug statements")
                    React.medium)))
           body.
Proof.
  destruct (report (reviewPR (stack_of react) ReactSample.world)) as [a|] eqn:E;
    [|vm_compute in E; discriminate].
  assert (H : exists ss,
            In (txt "src/App.jsx", ss) (allSuggestions a) /\
            In (mkSuggestion 2 (txt "🧹 Code Quality")
                  (txt "Remove console.log before production. Use proper logging library or remove debug statements")
                  React.medium) ss).
  { vm_compute in E. injection E as <-. eexists. split; [left; reflexivity|].
    left. reflexivity. }
  destruct H as [ss [H1 H2]].
  destruct (react_run_prints_every_suggestion ReactSample.world _ _ _ E H1 H2)
    as [body [mark [R [_ O]]]].
  exists a, body, mark. split; [reflexivity|]. split; assumption.
Defined.

Section Categories.

Import ReactReport.

















End Categories.



(** X15.  The stack names a dispatcher works with are normalised: whatever
    the requested list, every name is non-empty, in lower case, trimmed
    and free of commas; and the review dispatcher always has a name to
    run. *)
Theorem requested_names_are_normalised (e : Env) :
  Dispatcher.toRun e <> [] /\
  (forall x, In x (Dispatcher.toRun e) -> normalised x) /\
  (forall x, In x (CommentDispatcher.toRun e) -> normalised x).
Proof.
  split; [|split].
  - unfold Dispatcher.toRun. cbv zeta.
    destruct (length _ =? 0) eqn:E; [discriminate|].
    intros H. rewrite H in E. discriminate.
  - intros x. apply review_names_normalised.
  - intros x. apply comment_names_normalised.
Qed.

(** X16.  Of the names no stack is registered under, only two still reach
    [spawnSync]: the lookup in the script table goes through the prototype
    of the table, and [constructor] and [__proto__] are the members of it
    that survive the conversion to lower case. *)
Theorem only_two_unregistered_names_resolve (e : Env) (name : str) :
  In name (Dispatcher.toRun e) \/ In name (CommentDispatcher.toRun e) ->
  (own_property Dispatcher.scriptMap name = None ->
   (scriptMap_get Dispatcher.scriptMap name <> None <->
    name = txt "constructor" \/ name = txt "__proto__")) /\
  (own_property CommentDispatcher.scriptMap name = None ->
   (scriptMap_get CommentDispatcher.scriptMap name <> None <->
    name = txt "constructor" \/ name = txt "__proto__")).
Proof.
  intros H.
  assert (HN : toLowerCase name = name).
  { destruct H as [H|H];
      [apply (review_names_normalised e name H)
      |apply (comment_names_normalised e name H)]. }
  assert (HG : forall table, own_property table name = None ->
            (scriptMap_get table name <> None <->
             name = txt "constructor" \/ name = txt "__proto__")).
  { intros table Ho. unfold scriptMap_get. rewrite Ho.
    destruct (includes_str prototype_members name) eqn:I.
    - apply In_includes_str in I. split; [intros _; now apply lower_members|].
      intros _. discriminate.
    - split; [congruence|]. intros [ -> | -> ]; vm_compute in I; discriminate. }
  split; apply HG.
Qed.

Lemma only_two_unregistered_names_resolve_witness :
  In (txt "constructor")
     (Dispatcher.toRun (mkEnv (Some (txt " Constructor ")) NoEventPath)) /\
  (scriptMap_get Dispatcher.scriptMap (txt "constructor") <> None <->
   txt "constructor" = txt "constructor" \/ txt "constructor" = txt "__proto__").
Proof.
  assert (H : In (txt "constructor")
                 (Dispatcher.toRun (mkEnv (Some (txt " Constructor ")) NoEventPath)))
    by (vm_compute; auto).
  split; [exact H|].
  apply (proj1 (only_two_unregistered_names_resolve
                  (mkEnv (Some (txt " Constructor ")) NoEventPath)
                  (txt "constructor") (or_introl H))).
  reflexivity.
Defined.

Section Loop.

Variable table : list (str * Script).
Variable spawnSync : Children.

Lemma runScript_spawned name v :
  scriptMap_get table name = Some v ->
  snd (runScript table spawnSync name) = EvSpawn v :: snd (spawnSync v) /\
  (fst (spawnSync v) = SpawnThrows <->
   exists x, fst (runScript table spawnSync name) = Throw x).
Proof.
  unfold runScript. intros ->. destruct (spawnSync v) as [[[c|]|] evs]; simpl;
    (split; [reflexivity|]); split; try discriminate; eauto;
    intros [x H]; discriminate.
Qed.

Lemma run_all_started : forall names fail code evs,
  run_all table spawnSync names fail = (Ok code, evs) ->
  forall name v, In name names -> scriptMap_get table name = Some v ->
    fst (spawnSync v) <> SpawnThrows /\
    In (EvSpawn v) evs /\ (forall ev, In ev (snd (spawnSync v)) -> In ev evs).
Proof.
  induction names as [|x names IH]; intros fail code evs H name v Hin Hv;
    [contradiction|].
  simpl in H.
  destruct (runScript table spawnSync x) as [[c|e] evs0] eqn:E; [|discriminate].
  destruct (run_all table spawnSync names (if c =? 0 then fail else c))
    as [r evs1] eqn:E1.
  injection H as -> <-. destruct Hin as [->|Hin].
  - destruct (runScript_spawned _ Hv) as [H1 H2]. rewrite E in H1, H2. simpl in *.
    subst evs0. split.
    + intros HT. apply H2 in HT. destruct HT as [y HT]. discriminate.
    + split; [now left|]. intros ev Hev. right. apply in_or_app. now left.
  - destruct (IH _ _ _ E1 name v Hin Hv) as [H1 [H2 H3]].
    split; [assumption|]. split; [apply in_or_app; now right|].
    intros ev Hev. apply in_or_app. right. now apply H3.
Qed.

Lemma run_all_ends : forall names fail,
  (forall name v, In name names -> scriptMap_get table name = Some v ->
                  fst (spawnSync v) <> SpawnThrows) ->
  exists code evs, run_all table spawnSync names fail = (Ok code, evs).
Proof.
  induction names as [|x names IH]; intros fail H; simpl; [eauto|].
  assert (HX : exists c evs0, runScript table spawnSync x = (Ok c, evs0)).
  { unfold runScript. destruct (scriptMap_get table x) as [v|] eqn:Ev; [|eauto].
    specialize (H x v (or_introl eq_refl) Ev).
    destruct (spawnSync v) as [[[c|]|] evs]; simpl in *; eauto. congruence. }
  destruct HX as [c [evs0 ->]].
  destruct (IH (if c =? 0 then fail else c)) as [code [evs E]].
  { intros name v Hin. apply H. now right. }
  rewrite E. eauto.
Qed.

End Loop.

(** X17.  A failing stack does not stop the others.  The loop of both
    dispatchers ends without an exception exactly when no started child
    makes [spawnSync] throw, and then every requested name that resolves
    in the script table was started, whatever the status of the children
    before it: the events of its child are part of the run. *)
Theorem a_failing_stack_does_not_stop_the_others
  (table : list (str * Script)) (spawnSync : Children) (names : list str)
  (fail : nat) :
  ((exists code evs, run_all table spawnSync names fail = (Ok code, evs)) <->
   (forall name v, In name names -> scriptMap_get table name = Some v ->
                   fst (spawnSync v) <> SpawnThrows)) /\
  (forall code evs,
     run_all table spawnSync names fail = (Ok code, evs) ->
     forall name v, In name names -> scriptMap_get table name = Some v ->
       In (EvSpawn v) evs /\
       (forall ev, In ev (snd (spawnSync v)) -> In ev evs)).
Proof.
  split; [split|].
  - intros [code [evs H]] name v Hin Hv.
    exact (proj1 (@run_all_started table spawnSync names fail code evs H name v Hin Hv)).
  - apply run_all_ends.
  - intros code evs H name v Hin Hv.
    exact (proj2 (@run_all_started table spawnSync names fail code evs H name v Hin Hv)).
Qed.

Lemma a_failing_stack_does_not_stop_the_others_witness :
  exists evs,
    run_all Dispatcher.scriptMap
      (review_children Sample.auto_env Sample.debug_world Sample.no_children)
      [txt "laravel"; txt "react"] 0 = (Ok 1, evs) /\
    In (EvSpawn (ScriptPath ReactReviewer)) evs.
Proof.
  destruct (run_all Dispatcher.scriptMap
              (review_children Sample.auto_env Sample.debug_world Sample.no_children)
              [txt "laravel"; txt "react"] 0) as [r evs] eqn:E.
  assert (Hr : r = Ok 1).
  { apply (f_equal fst) in E. vm_compute in E. now symmetry. }
  subst r. exists evs. split; [reflexivity|].
  apply (proj2 (a_failing_stack_does_not_stop_the_others Dispatcher.scriptMap
                  (review_children Sample.auto_env Sample.debug_world Sample.no_children)
                  [txt "laravel"; txt "react"] 0) 1 evs E (txt "react")).
  - simpl. auto.
  - reflexivity.
Defined.

Section ForceRules.

Lemma forEach2_fst_In {A B C} (f : A -> nat -> list B * list C) l : forall k idx x y,
  nth_error l k = Some x -> In y (fst (f x (idx + k))) ->
  In y (fst (forEach2 f l idx)).
Proof.
  induction l as [|z l IH]; intros k idx x y Hn Hy.
  - destruct k; discriminate.
  - simpl. destruct (f z idx) as [b c] eqn:E.
    destruct (forEach2 f l (S idx)) as [bs cs] eqn:E'. simpl.
    apply in_or_app. destruct k as [|k]; simpl in Hn.
    + injection Hn as ->. rewrite Nat.add_0_r, E in Hy. now left.
    + right. change bs with (fst (bs, cs)). rewrite <- E'.
      apply (IH k (S idx) x); [assumption|].
      now replace (S idx + k) with (idx + S k) by lia.
Qed.

Lemma forEach2_fst_inv {A B C} (f : A -> nat -> list B * list C) l : forall idx y,
  In y (fst (forEach2 f l idx)) ->
  exists k x, nth_error l k = Some x /\ In y (fst (f x (idx + k))).
Proof.
  induction l as [|z l IH]; intros idx y Hy; [contradiction|].
  simpl in Hy. destruct (f z idx) as [b c] eqn:E.
  destruct (forEach2 f l (S idx)) as [bs cs] eqn:E'. simpl in Hy.
  apply in_app_or in Hy. destruct Hy as [Hy|Hy].
  - exists 0, z. split; [reflexivity|]. now rewrite Nat.add_0_r, E.
  - change bs with (fst (bs, cs)) in Hy. rewrite <- E' in Hy.
    apply IH in Hy. destruct Hy as [k [x [Hn Hy]]].
    exists (S k), x. split; [assumption|].
    now replace (idx + S k) with (S idx + k) by lia.
Qed.

Lemma Matches_wordb_inv st st' :
  Matches Wordb st st' -> st' = st /\ xorb (word_before st) (word_after st) = true.
Proof. inversion 1; subst; auto. Qed.

(** An operator that begins with a word character and ends with [!],
    between two word boundaries. *)
Lemma test_force_iff c0 op' t :
  is_word c0 = true -> last_opt (c0 :: op') None = Some "!"%char ->
  (test (Wordb >> lit_l (c0 :: op') >> Wordb) t = true <-> glued (c0 :: op') t).
Proof.
  intros Hc0 Hlast.
  assert (HL : forall d, last_opt (c0 :: op') d = Some "!"%char).
  { intros d. unfold last_opt in *. destruct (rev (c0 :: op')); [discriminate|assumption]. }
  rewrite test_true_iff. split.
  - intros [a [b [st' [-> HM]]]].
    apply Matches_cat_inv in HM. destruct HM as [s1 [H1 HM]].
    apply Matches_cat_inv in HM. destruct HM as [s2 [H2 H3]].
    apply Matches_wordb_inv in H1. destruct H1 as [-> HB].
    destruct (Matches_reads H2) as [wd [E2 P2]].
    apply lit_sound in H2. simpl rest in H2, E2. simpl prev in P2.
    assert (Ewd : wd = c0 :: op').
    { rewrite H2 in E2. now apply app_inv_tail in E2. }
    rewrite Ewd in P2. clear E2 Ewd wd.
    apply Matches_wordb_inv in H3. destruct H3 as [-> HB3].
    unfold word_before, word_after in HB, HB3. simpl prev in HB. simpl rest in HB.
    rewrite P2, HL in HB3. rewrite H2 in HB. simpl in HB. rewrite Hc0 in HB.
    change (is_word "!"%char) with false in HB3. simpl in HB3.
    destruct (rest s2) as [|c r] eqn:Er; [discriminate|].
    exists a, c, r. split; [now rewrite H2|]. split; [|assumption].
    unfold word_start. destruct (last_opt a None) as [p|]; [|exact I].
    now destruct (is_word p).
  - intros [a [c [b [-> [Hw Hc]]]]].
    exists a, ((c0 :: op') ++ c :: b). eexists. split; [reflexivity|].
    eapply M_Cat.
    { apply M_Wordb. unfold word_before, word_after, word_start in *. simpl.
      rewrite Hc0. destruct (last_opt a None); [now rewrite Hw|reflexivity]. }
    eapply M_Cat; [apply lit_complete; discriminate|].
    apply M_Wordb. unfold word_before, word_after. simpl prev. simpl rest.
    now rewrite HL, Hc.
Qed.

Lemma test_force_try_iff t : test Swift.re_force_try t = true <-> glued (txt "try!") t.
Proof. now apply (@test_force_iff "t"%char (txt "ry!")). Qed.

Lemma test_force_cast_iff t : test Swift.re_force_cast t = true <-> glued (txt "as!") t.
Proof. now apply (@test_force_iff "a"%char (txt "s!")). Qed.

End ForceRules.

(** X18.  What fails the Swift gate.  A critical finding of the Swift
    evaluator is a force try or a force cast on a line that is neither
    blank nor a [//] comment, and the operator ([try!], [as!]) has to begin
    a word and be followed at once by a word character: written with a
    space after it, it is not found. *)
Theorem swift_critical_iff_glued_force_operator (content path : str) (i : Issue) :
  In i (critical (Swift.analyzeCode content path)) <->
  Swift.excluded path = false /\
  exists k line,
    nth_error (split_nl content) k = Some line /\
    trim line <> [] /\ ~ (exists b, trim line = txt "//" ++ b) /\
    ((glued (txt "try!") (trim line) /\ i = force_try_issue (k + 1)) \/
     (glued (txt "as!") (trim line) /\ i = force_cast_issue (k + 1))).
Proof.
  unfold Swift.analyzeCode. destruct (Swift.excluded path).
  { simpl. split; [intros []|]. intros [H _]. discriminate. }
  match goal with
  | |- context [forEach2 ?g ?l 0] => set (f := g)
  end.
  assert (Hf : forall line k y,
    In y (fst (f line (0 + k))) <->
    trim line <> [] /\ ~ (exists b, trim line = txt "//" ++ b) /\
    ((glued (txt "try!") (trim line) /\ y = force_try_issue (k + 1)) \/
     (glued (txt "as!") (trim line) /\ y = force_cast_issue (k + 1)))).
  { intros line k y. subst f. cbv beta zeta. simpl (0 + k).
    rewrite <- test_force_try_iff, <- test_force_cast_iff.
    rewrite <- (startsWith_iff (txt "//") (trim line)), <- truthy_iff.
    destruct (truthy (trim line)), (startsWith (trim line) (txt "//"));
      cbn [negb orb fst];
      try (split; [intros []|]; intros [H1 [H2 _]];
           first [congruence | exfalso; apply H2; reflexivity]).
    unfold force_try_issue, force_cast_issue.
    destruct (test Swift.re_force_try (trim line)),
             (test Swift.re_force_cast (trim line)); simpl;
      intuition (try congruence; try discriminate; auto). }
  destruct (forEach2 f (split_nl content) 0) as [cs ss] eqn:E.
  cbn [critical]. change cs with (fst (cs, ss)). rewrite <- E. split.
  - intros H. split; [reflexivity|].
    apply forEach2_fst_inv in H. destruct H as [k [line [Hn H]]].
    exists k, line. split; [assumption|]. now apply Hf.
  - intros [_ [k [line [Hn H]]]].
    apply (@forEach2_fst_In _ _ _ f (split_nl content) k 0 line i Hn). now apply Hf.
Qed.

Example spaced_force_try_is_not_found :
  critical (Swift.analyzeCode (txt "let data = try! load()") (txt "App.swift")) = [] /\
  critical (Swift.analyzeCode (txt "let data = try!load()") (txt "App.swift")) =
    [force_try_issue 1].
Proof. split; vm_compute; reflexivity. Qed.

Section Asking.

Lemma askAI_events b p w q c :
  snd (askAI b p w q c) =
  if truthy_opt (GROQ_API_KEY w) then [EvCompletion (mkChat p c q)] else [].
Proof. unfold askAI. now destruct (truthy_opt (GROQ_API_KEY w)). Qed.

Lemma react_context_events w :
  count is_completion (snd (ReactHandler.getPRContext w)) = 0 /\
  forall req, ~ In (EvCompletion req) (snd (ReactHandler.getPRContext w)).
Proof.
  unfold ReactHandler.getPRContext. destruct (pullsGet w) as [[t bd]|]; simpl.
  - destruct (listFiles w); simpl; split; try reflexivity; intros req H;
      intuition discriminate.
  - split; [reflexivity|]. intros req H. intuition discriminate.
Qed.

Lemma laravel_context_events w :
  count is_completion (snd (LaravelHandler.getPRContext w)) = 0 /\
  forall req, ~ In (EvCompletion req) (snd (LaravelHandler.getPRContext w)).
Proof.
  unfold LaravelHandler.getPRContext. destruct (pullsGet w) as [[t bd]|]; simpl.
  - destruct (listFiles w); simpl; split; try reflexivity; intros req H;
      intuition discriminate.
  - split; [reflexivity|]. intros req H. intuition discriminate.
Qed.

Lemma swift_context_events w :
  count is_completion (snd (SwiftHandler.getPRContext w)) = 0 /\
  forall req, ~ In (EvCompletion req) (snd (SwiftHandler.getPRContext w)).
Proof.
  unfold SwiftHandler.getPRContext. destruct (pullsGet w) as [[t bd]|]; simpl.
  - destruct (listFiles w); simpl; split; try reflexivity; intros req H;
      intuition discriminate.
  - split; [reflexivity|]. intros req H. intuition discriminate.
Qed.

(** The requests of a handler run that has a question. *)
Lemma handler_asks h w :
  extractQuestion (comment_body w) <> [] ->
  exists pre ctx answer,
    handler_of h w =
      pre ++
      (if truthy_opt (GROQ_API_KEY w)
       then [EvCompletion (mkChat (chat_persona h) ctx (extractQuestion (comment_body w)))]
       else []) ++
      [EvCreateComment answer] /\
    count is_completion pre = 0 /\
    (forall req, ~ In (EvCompletion req) pre).
Proof.
  intros HQ. apply truthy_iff in HQ. destruct h; simpl.
  - unfold ReactHandler.handleComment. rewrite HQ. cbn [negb].
    set (fc := match ReactHandler.detectFileName (extractQuestion (comment_body w)) with
               | Some path =>
                   match getContent w path with
                   | Ok content => (Some (slice 0 2000 content), [EvGetContent path])
                   | Throw _ => (None, [EvGetContent path])
                   end
               | None => (None, [])
               end).
    assert (Hfc : count is_completion (snd fc) = 0 /\
                  forall req, ~ In (EvCompletion req) (snd fc)).
    { unfold fc. destruct (ReactHandler.detectFileName _) as [p|];
        [destruct (getContent w p)|]; simpl; split; try reflexivity;
        intros req H; intuition discriminate. }
    destruct fc as [fileContent evs1]. simpl in Hfc.
    destruct (react_context_events w) as [C1 C2].
    destruct (ReactHandler.getPRContext w) as [context evs2]. simpl in C1, C2.
    match goal with |- context [askAI ?b ?p ?w ?q ?c] =>
      pose proof (askAI_events b p w q c) as HA;
      destruct (askAI b p w q c) as [answer evs3]; exists (evs1 ++ evs2), c end.
    simpl in HA. subst evs3. eexists. split.
    + rewrite <- app_assoc. reflexivity.
    + rewrite count_app. split; [lia|]. intros req H. apply in_app_or in H.
      destruct H as [H|H]; [now apply (proj2 Hfc req)|now apply (C2 req)].
  - unfold LaravelHandler.handleComment. rewrite HQ. cbn [negb].
    destruct (laravel_context_events w) as [C1 C2].
    destruct (LaravelHandler.getPRContext w) as [context evs2]. simpl in C1, C2.
    match goal with |- context [askAI ?b ?p ?w ?q ?c] =>
      pose proof (askAI_events b p w q c) as HA;
      destruct (askAI b p w q c) as [answer evs3]; exists evs2, c end.
    simpl in HA. subst evs3. eexists. split; [reflexivity|]. auto.
  - unfold SwiftHandler.handleComment. rewrite HQ. cbn [negb].
    destruct (swift_context_events w) as [C1 C2].
    destruct (SwiftHandler.getPRContext w) as [context evs2]. simpl in C1, C2.
    match goal with |- context [askAI ?b ?p ?w ?q ?c] =>
      pose proof (askAI_events b p w q c) as HA;
      destruct (askAI b p w q c) as [answer evs3]; exists evs2, c end.
    simpl in HA. subst evs3. eexists. split; [reflexivity|]. auto.
Qed.

End Asking.

(** X19.  A comment handler asks the completion endpoint at most once, and
    only when there is a credential and a question: the request speaks as
    the persona of the handler and its user message is the question, the
    comment without the mentions and the white space around it. *)
Theorem handler_asks_at_most_once (h : HandlerName) (w : World) :
  count is_completion (handler_of h w) =
    (if truthy_opt (GROQ_API_KEY w) && truthy (extractQuestion (comment_body w))
     then 1 else 0) /\
  (forall req, In (EvCompletion req) (handler_of h w) ->
     persona req = chat_persona h /\
     user req = extractQuestion (comment_body w) /\
     user req <> [] /\ truthy_opt (GROQ_API_KEY w) = true).
Proof.
  destruct (truthy (extractQuestion (comment_body w))) eqn:T.
  - assert (HQ : extractQuestion (comment_body w) <> []) by now apply truthy_iff.
    destruct (handler_asks h w HQ) as [pre [ctx [answer [E [H1 H2]]]]].
    rewrite E, andb_true_r. split.
    + rewrite !count_app, H1. destruct (truthy_opt (GROQ_API_KEY w)); reflexivity.
    + intros req H. apply in_app_or in H. destruct H as [H|H]; [now apply H2 in H|].
      apply in_app_or in H. destruct H as [H|[H|[]]]; [|discriminate].
      destruct (truthy_opt (GROQ_API_KEY w)); [|contradiction].
      destruct H as [H|[]]. injection H as <-. simpl. auto.
  - rewrite andb_false_r.
    assert (E : handler_of h w = [EvCreateComment
              match h with
              | react_handler => ReactHandler.help
              | laravel_handler => LaravelHandler.help
              | swift_handler => SwiftHandler.help
              end]).
    { destruct h; simpl;
        [unfold ReactHandler.handleComment|unfold LaravelHandler.handleComment
        |unfold SwiftHandler.handleComment]; rewrite T; reflexivity. }
    rewrite E. split; [reflexivity|]. intros req [H|[]]. discriminate.
Qed.

Lemma excluded_analysis n path content :
  excluded_by n path = true ->
  st_analyze (stack_of n) content path = Ok (mkAnalysis [] []).
Proof.
  destruct n; simpl; intros H.
  - unfold React.analyzeCode. now rewrite H.
  - unfold Laravel.analyzeCode. now rewrite H.
  - unfold Swift.analyzeCode. now rewrite H.
Qed.

Lemma file_events_in_run S w f ev :
  runs S w = true -> In f (reviewed S w) -> In ev (file_events S w f) ->
  In ev (events (reviewPR S w)).
Proof.
  intros R Hf Hev. destruct (reviewPR_shape S w R) as [a [_ [_ [_ [_ [_ ->]]]]]].
  right. apply in_or_app. left. apply in_flat_map. eauto.
Qed.

(** X20.  The exclusion covers the pattern rules only.  A reviewed file whose
    path the evaluator excludes brings no pattern finding, but it takes a
    place in the batch, its content is fetched, and when it has a patch of
    more than 50 units and there is a credential, the completion endpoint
    is asked about it like about any other file. *)
Theorem exclusion_covers_pattern_rules_only (n : StackName) (w : World)
  (f : PRFile) (content : str) :
  runs (stack_of n) w = true ->
  In f (reviewed (stack_of n) w) ->
  excluded_by n (filename f) = true ->
  getContent w (filename f) = Ok content ->
  critical_of (stack_of n) w f = [] /\
  suggestions_of (stack_of n) w f = [] /\
  In (EvGetContent (filename f)) (events (reviewPR (stack_of n) w)) /\
  In (EvEvaluate f) (events (reviewPR (stack_of n) w)) /\
  (asks_ai w f = true ->
   In (EvCompletion (review_request (stack_of n) f))
      (events (reviewPR (stack_of n) w))).
Proof.
  intros R Hf Hx Hc.
  pose proof (excluded_analysis n (filename f) content Hx) as HA.
  assert (HE : file_events (stack_of n) w f =
               EvGetContent (filename f) :: EvEvaluate f ::
               (if asks_ai w f then [EvCompletion (review_request (stack_of n) f)]
                else [])).
  { unfold file_events. now rewrite Hc, HA. }
  split; [unfold critical_of, file_analysis; now rewrite Hc, HA|].
  split; [unfold suggestions_of, file_analysis; now rewrite Hc, HA|].
  split; [apply (@file_events_in_run _ _ f _ R Hf); rewrite HE; now left|].
  split; [apply (@file_events_in_run _ _ f _ R Hf); rewrite HE; right; now left|].
  intros HK. apply (@file_events_in_run _ _ f _ R Hf). rewrite HE, HK.
  right. right. now left.
Qed.

Lemma exclusion_covers_pattern_rules_only_witness :
  excluded_by react (txt "src/App.test.js") = true /\
  critical_of (stack_of react)
    (Sample.with_files [mkFile (txt "src/App.test.js") (txt "added") 1 0 None]
       (fun _ => Ok (txt "eval(x)")))
    (mkFile (txt "src/App.test.js") (txt "added") 1 0 None) = [] /\
  In (EvGetContent (txt "src/App.test.js"))
     (events (reviewPR (stack_of react)
        (Sample.with_files [mkFile (txt "src/App.test.js") (txt "added") 1 0 None]
           (fun _ => Ok (txt "eval(x)"))))).
Proof.
  split; [reflexivity|].
  destruct (@exclusion_covers_pattern_rules_only react
              (Sample.with_files [mkFile (txt "src/App.test.js") (txt "added") 1 0 None]
                 (fun _ => Ok (txt "eval(x)")))
              (mkFile (txt "src/App.test.js") (txt "added") 1 0 None)
              (txt "eval(x)"))
    as [H1 [_ [H3 _]]].
  - reflexivity.
  - vm_compute. auto.
  - reflexivity.
  - reflexivity.
  - split; assumption.
Defined.
